(** * ecommerce-analytics: the ETL pipeline of [app/etl/pipeline.py]

    A shallow embedding of [ETLPipeline] (extract, transform, load, run) and of
    [validate_data_files], [check_data_quality] and [process_data] from
    [app/workflows/etl_workflow.py].

    Modelling conventions.
    - A pandas DataFrame is a list of typed rows, in row order.  A CSV file as
      read by [pd.read_csv] also carries its header ([columns]); the five
      files exist, which [validate_data_files] checks before a run.
    - A row record holds the columns of a file that the program names; which
      of them the file has is told by its header, and columns the program
      never names are left out.  int64 columns hold a value of the
      int64 range in every row and their sums wrap around; a float64 column
      holds a [float64], whose [FNaN] is the column's null; a column of
      strings holds an [option string]; [order_date], parsed by
      [pd.to_datetime], holds an [option Timestamp], the null being NaT.
    - float64 sums, products and differences of the aggregation steps are
      exact rational arithmetic extended with the IEEE special values
      (infinities and NaN); the profit margin, which the program rounds to
      four decimals, is computed in IEEE binary64 arithmetic, every operation
      rounded to the nearest binary64 number.
    - The source pins no pandas release, and the releases differ where the
      program tests strings: [pandas] tells which behaviour applies.
    - A pandas Timestamp is a number of nanoseconds since 1970-01-01T00:00.
    - What the program does to the database is a log of events; which writes
      the database refuses is a parameter.  Logging is left out. *)

From Stdlib Require Import ZArith QArith Qround Qabs List String Ascii Bool.
From Stdlib Require Import Lia Lqa.
From Stdlib Require Import Permutation Sorted.
Import ListNotations.
Open Scope Z_scope.

(** ** Exceptions and results *)

Inductive exn : Type :=
| ValueError (msg : string)
| KeyError (key : string)
| TypeError (msg : string)
| AttributeError
| DatabaseError (table : string).

Inductive result (A : Type) : Type :=
| Ok (a : A)
| Raise (e : exn).
Arguments Ok {A} a.
Arguments Raise {A} e.

Definition bind {A B} (r : result A) (k : A -> result B) : result B :=
  match r with
  | Ok a => k a
  | Raise e => Raise e
  end.

Notation "x <- r ;; k" := (bind r (fun x => k))
  (at level 61, r at next level, right associativity).

(** The results of a list of computations, or the first error. *)
Fixpoint sequence {A} (l : list (result A)) : result (list A) :=
  match l with
  | [] => Ok []
  | r :: tl => a <- r ;; rest <- sequence tl ;; Ok (a :: rest)
  end.

(** ** pandas releases *)

(** Up to pandas 2 a column of strings is an object column, on which the
    [.str] predicates give a null for a null; from pandas 3 on it is a string
    column, on which they give False. *)
Inductive pandas : Type :=
| Pandas2
| Pandas3.

(** ** float64 columns *)

Inductive float64 : Type :=
| FNum (q : Q)
| FInf (neg : bool)
| FNaN.

Definition isnan (x : float64) : bool :=
  match x with FNaN => true | _ => false end.

Definition notna (x : float64) : bool := negb (isnan x).

Definition Qneg_b (q : Q) : bool := (Qnum q <? 0)%Z.
Definition Qzero_b (q : Q) : bool := (Qnum q =? 0)%Z.

Definition fneg (x : float64) : float64 :=
  match x with
  | FNum q => FNum (- q)
  | FInf s => FInf (negb s)
  | FNaN => FNaN
  end.

Definition fadd (x y : float64) : float64 :=
  match x, y with
  | FNaN, _ | _, FNaN => FNaN
  | FNum a, FNum b => FNum (a + b)
  | FInf s, FNum _ | FNum _, FInf s => FInf s
  | FInf s, FInf t => if Bool.eqb s t then FInf s else FNaN
  end.

Definition fsub (x y : float64) : float64 := fadd x (fneg y).

Definition fmul (x y : float64) : float64 :=
  match x, y with
  | FNaN, _ | _, FNaN => FNaN
  | FNum a, FNum b => FNum (a * b)
  | FInf s, FNum b | FNum b, FInf s =>
      if Qzero_b b then FNaN else FInf (xorb s (Qneg_b b))
  | FInf s, FInf t => FInf (xorb s t)
  end.

Definition fdiv (x y : float64) : float64 :=
  match x, y with
  | FNaN, _ | _, FNaN => FNaN
  | FNum a, FNum b =>
      if Qzero_b b
      then (if Qzero_b a then FNaN else FInf (Qneg_b a))
      else FNum (a / b)
  | FInf s, FNum b => FInf (xorb s (Qneg_b b))
  | FNum _, FInf _ => FNum 0
  | FInf _, FInf _ => FNaN
  end.

(** [x < y] and [x <= y] on float64; any comparison with NaN is false. *)
Definition flt (x y : float64) : bool :=
  match x, y with
  | FNaN, _ | _, FNaN => false
  | FNum a, FNum b => match (a ?= b)%Q with Lt => true | _ => false end
  | FInf s, FNum _ => s
  | FNum _, FInf t => negb t
  | FInf s, FInf t => s && negb t
  end.

Definition fle (x y : float64) : bool :=
  match x, y with
  | FNaN, _ | _, FNaN => false
  | FNum a, FNum b => match (a ?= b)%Q with Gt => false | _ => true end
  | FInf s, FNum _ => s
  | FNum _, FInf t => negb t
  | FInf s, FInf t => s || negb t
  end.

Definition of_int (z : Z) : float64 := FNum (inject_Z z).

(** [numpy.rint]: nearest integer, ties to the even one. *)
Definition rint (q : Q) : Z :=
  let f := Qfloor q in
  match (q - inject_Z f ?= 1 # 2)%Q with
  | Lt => f
  | Gt => f + 1
  | Eq => if Z.even f then f else f + 1
  end.

(** *** IEEE 754 binary64 operations *)

Definition Qpow2 (e : Z) : Q :=
  if 0 <=? e then inject_Z (2 ^ e) else (/ inject_Z (2 ^ (- e)))%Q.

(** For [0 < q], the exponent [e] with [2 ^ e <= q < 2 ^ (e + 1)]. *)
Definition Qlog2 (q : Q) : Z :=
  let e := Z.log2 (Qnum q) - Z.log2 (Zpos (Qden q)) in
  if Qle_bool (Qpow2 e) q then e else e - 1.

(** The binary64 number nearest to [q], ties to the even significand: 53
    significant bits, no exponent below that of the subnormal numbers, and an
    infinity from [2 ^ 1024] on.  Zero carries no sign. *)
Definition binary64 (q : Q) : float64 :=
  if Qzero_b q then FNum 0
  else
    let ulp := Qpow2 (Z.max (Qlog2 (Qabs q) - 52) (-1074)) in
    let r := (inject_Z (rint (Qabs q / ulp)) * ulp)%Q in
    if Qle_bool (Qpow2 1024) r then FInf (Qneg_b q)
    else FNum (Qred (if Qneg_b q then (- r)%Q else r)).

Definition round64 (x : float64) : float64 :=
  match x with
  | FNum q => binary64 q
  | _ => x
  end.

Definition fsub64 (x y : float64) : float64 := round64 (fsub x y).
Definition fmul64 (x y : float64) : float64 := round64 (fmul x y).
Definition fdiv64 (x y : float64) : float64 := round64 (fdiv x y).

(** [numpy.rint] of a binary64 number, itself one. *)
Definition frint (x : float64) : float64 :=
  match x with
  | FNum q => of_int (rint q)
  | _ => x
  end.

(** [Series.round(decimals)] is [numpy.round]: multiply by [10 ** decimals],
    [rint], divide by [10 ** decimals], all in binary64. *)
Definition fround (decimals : nat) (x : float64) : float64 :=
  let scale := of_int (10 ^ Z.of_nat decimals) in
  fdiv64 (frint (fmul64 x scale)) scale.

(** [Series.sum()], [skipna=True]: nulls are skipped, the empty sum is 0. *)
Definition fsum (l : list float64) : float64 :=
  fold_left fadd (filter notna l) (FNum 0).

(** [Series.min()], [skipna=True]: NaN when no value is left. *)
Definition fmin2 (x y : float64) : float64 := if flt y x then y else x.

Definition col_min (l : list float64) : float64 :=
  match filter notna l with
  | [] => FNaN
  | x :: tl => fold_left fmin2 tl x
  end.

Definition Zsum (l : list Z) : Z := fold_left Z.add l 0.

(** int64 arithmetic wraps around. *)
Definition wrap64 (z : Z) : Z := (z + 2 ^ 63) mod 2 ^ 64 - 2 ^ 63.

(** The sum of an int64 column, as [Series.sum()] and the group sums give
    it. *)
Definition int64_sum (l : list Z) : Z := wrap64 (Zsum l).

Definition col_min_int (l : list Z) : option Z :=
  match l with
  | [] => None
  | x :: tl => Some (fold_left Z.min tl x)
  end.

(** ** Timestamps *)

Definition Timestamp := Z.

Definition ns_per_day : Z := 86400 * 1000000000.

(** Number of the calendar day of a timestamp (days since 1970-01-01). *)
Definition day_number (t : Timestamp) : Z := t / ns_per_day.

(** [Timestamp.floor('D')], the label [pd.Grouper(freq='D')] gives a row. *)
Definition floor_day (t : Timestamp) : Timestamp := day_number t * ns_per_day.

(** [Timestamp.dayofweek]: Monday is 0; 1970-01-01 was a Thursday. *)
Definition dayofweek (t : Timestamp) : Z := (day_number t + 3) mod 7.

(** The civil date (year, month, day of month) of a day number, in the
    proleptic Gregorian calendar. *)
Definition civil_from_days (days : Z) : Z * Z * Z :=
  let z := days + 719468 in
  let era := z / 146097 in
  let doe := z - era * 146097 in
  let yoe := (doe - doe / 1460 + doe / 36524 - doe / 146096) / 365 in
  let doy := doe - (365 * yoe + yoe / 4 - yoe / 100) in
  let mp := (5 * doy + 2) / 153 in
  let d := doy - (153 * mp + 2) / 5 + 1 in
  let m := if mp <? 10 then mp + 3 else mp - 9 in
  let y := yoe + era * 400 in
  (if m <=? 2 then y + 1 else y, m, d).

Definition days_from_civil (y m d : Z) : Z :=
  let y := if m <=? 2 then y - 1 else y in
  let era := y / 400 in
  let yoe := y - era * 400 in
  let doy := (153 * (if 2 <? m then m - 3 else m + 9) + 2) / 5 + d - 1 in
  let doe := yoe * 365 + yoe / 4 - yoe / 100 + doy in
  era * 146097 + doe - 719468.

Definition year_of_day (days : Z) : Z := fst (fst (civil_from_days days)).

Definition year (t : Timestamp) : Z := year_of_day (day_number t).
Definition month (t : Timestamp) : Z := snd (fst (civil_from_days (day_number t))).
Definition day (t : Timestamp) : Z := snd (civil_from_days (day_number t)).

Definition dayofyear (t : Timestamp) : Z :=
  day_number t - days_from_civil (year t) 1 1 + 1.

Definition quarter (t : Timestamp) : Z := (month t - 1) / 3 + 1.

(** [isocalendar().week]: the week of the year that holds the Thursday of the
    timestamp's week. *)
Definition isoweek (t : Timestamp) : Z :=
  let thursday := day_number t + (3 - dayofweek t) in
  (thursday - days_from_civil (year_of_day thursday) 1 1) / 7 + 1.

(** [strftime('%B')] *)
Definition month_name (t : Timestamp) : string :=
  nth (Z.to_nat (month t - 1))
    ["January"; "February"; "March"; "April"; "May"; "June"; "July";
     "August"; "September"; "October"; "November"; "December"]%string
    ""%string.

(** [(t2 - t1).days] of a Timedelta. *)
Definition timedelta_days (t2 t1 : Timestamp) : Z := (t2 - t1) / ns_per_day.

(** ** Data model: one record per DataFrame row *)

(** A CSV cell of a column pandas could not type as integer throughout:
    blank, an integer, another number, or text that is no number. *)
Inductive cell : Type :=
| CNull
| CInt (z : Z)
| CFloat (q : Q)
| CText (s : string).

Module RawCategory.
Record t : Type := mk {
  category_id : Z;
  name : option string;
  description : option string;
  parent_id : cell
}.
End RawCategory.

Module Category.
Record t : Type := mk {
  category_id : Z;
  name : option string;
  description : option string;
  parent_id : option Z
}.
End Category.

Module Product.
Record t : Type := mk {
  product_id : Z;
  name : option string;
  description : option string;
  price : float64;
  cost : float64;
  category_id : option Z;
  sku : option string;
  weight : float64;
  is_active : option bool
}.
End Product.

Module Customer.
Record t : Type := mk {
  customer_id : Z;
  email : option string;
  first_name : option string;
  last_name : option string
}.
End Customer.

Module Order.
Record t : Type := mk {
  order_id : Z;
  customer_id : Z;
  order_date : option Timestamp;
  status : option string;
  payment_method : option string;
  total_amount : float64
}.
End Order.

Module OrderItem.
Record t : Type := mk {
  order_item_id : Z;
  order_id : Z;
  product_id : Z;
  quantity : Z;
  price : float64;
  discount : float64;
  total : float64
}.
End OrderItem.

(** Rows of the tables the transform steps put back into [self.dfs]. *)

Module ProductE.
Record t : Type := mk {
  base : Product.t;
  name_category : option string;
  profit_margin : float64
}.
Definition product_id (p : t) : Z := Product.product_id (base p).
Definition category_id (p : t) : option Z := Product.category_id (base p).
Definition price (p : t) : float64 := Product.price (base p).
Definition cost (p : t) : float64 := Product.cost (base p).
End ProductE.

Module OrderE.
Record t : Type := mk {
  base : Order.t;
  total : float64;
  profit : float64;
  quantity : option Z
}.
Definition order_id (o : t) : Z := Order.order_id (base o).
Definition customer_id (o : t) : Z := Order.customer_id (base o).
Definition order_date (o : t) : option Timestamp := Order.order_date (base o).
Definition status (o : t) : option string := Order.status (base o).
End OrderE.

Module CustomerE.
Record t : Type := mk {
  base : Customer.t;
  total_orders : option Z;
  lifetime_value : float64;
  first_order_date : option Timestamp;
  last_order_date : option Timestamp;
  average_order_value : float64;
  days_between_orders : float64
}.
Definition customer_id (c : t) : Z := Customer.customer_id (base c).
Definition email (c : t) : option string := Customer.email (base c).
End CustomerE.

Module DailySales.
Record t : Type := mk {
  order_date : Timestamp;
  product_id : Z;
  category_id : Z;
  units_sold : Z;
  revenue : float64;
  order_count : Z;
  avg_unit_price : float64
}.
End DailySales.

Module DimTime.
Record t : Type := mk {
  date : Timestamp;
  day_of_week : Z;
  day_of_month : Z;
  day_of_year : Z;
  week_of_year : Z;
  month : Z;
  month_name : string;
  quarter : Z;
  year : Z;
  is_weekend : bool;
  is_holiday : bool
}.
End DimTime.

(** ** DataFrame operations *)

Section Frames.
Context {L R : Type}.

(** [left.merge(right, on=..., how='left')]: left rows in order, each with
    all its matches in the order of [right], or once with nulls. *)
Definition merge_left (on : L -> R -> bool) (left : list L) (right : list R)
  : list (L * option R) :=
  flat_map
    (fun l =>
       match filter (on l) right with
       | [] => [(l, None)]
       | ms => map (fun r => (l, Some r)) ms
       end)
    left.
End Frames.

Section GroupBy.
Context {K V : Type}.
Variable eqb : K -> K -> bool.
Variable leb : K -> K -> bool.

Fixpoint group_add (k : K) (v : V) (gs : list (K * list V))
  : list (K * list V) :=
  match gs with
  | [] => [(k, [v])]
  | (k', vs) :: gs' =>
      if eqb k k' then (k', vs ++ [v]) :: gs'
      else (k', vs) :: group_add k v gs'
  end.

(** Rows whose key is null are left out ([dropna=True]). *)
Definition group_rows (key : V -> option K) (rows : list V)
  : list (K * list V) :=
  fold_left
    (fun gs v => match key v with
                 | Some k => group_add k v gs
                 | None => gs
                 end)
    rows [].

Fixpoint insert_group (g : K * list V) (gs : list (K * list V))
  : list (K * list V) :=
  match gs with
  | [] => [g]
  | h :: tl => if leb (fst g) (fst h) then g :: gs
               else h :: insert_group g tl
  end.

Definition sort_groups (gs : list (K * list V)) : list (K * list V) :=
  fold_right insert_group [] gs.

(** [df.groupby(keys)]: the groups in key order ([sort=True]). *)
Definition groupby (key : V -> option K) (rows : list V)
  : list (K * list V) :=
  sort_groups (group_rows key rows).
End GroupBy.

(** [Series.isin(values)] on a column of strings. *)
Definition isin (s : string) (values : list string) : bool :=
  existsb (String.eqb s) values.

(** [Series.nunique()]: the number of distinct values. *)
Definition nunique (l : list Z) : Z :=
  Z.of_nat (List.length (nodup Z.eq_dec l)).

(** The values of a column, its nulls left out. *)
Definition dropna {A} (col : list (option A)) : list A :=
  flat_map (fun x => match x with Some a => [a] | None => [] end) col.

(** [Series.min()] and [Series.max()] of a column of timestamps,
    [skipna=True], on its values: NaT when there is none. *)
Definition ts_min (l : list Timestamp) : option Timestamp :=
  match l with
  | [] => None
  | x :: tl => Some (fold_left Z.min tl x)
  end.

Definition ts_max (l : list Timestamp) : option Timestamp :=
  match l with
  | [] => None
  | x :: tl => Some (fold_left Z.max tl x)
  end.

(** ** Regular expressions, for [Series.str.match] *)

Inductive regex : Type :=
| Void
| Eps
| Chr (p : ascii -> bool)
| Cat (r s : regex)
| Alt (r s : regex)
| Star (r : regex).

Fixpoint nullable (r : regex) : bool :=
  match r with
  | Void => false
  | Eps => true
  | Chr _ => false
  | Cat r s => nullable r && nullable s
  | Alt r s => nullable r || nullable s
  | Star _ => true
  end.

Fixpoint deriv (c : ascii) (r : regex) : regex :=
  match r with
  | Void => Void
  | Eps => Void
  | Chr p => if p c then Eps else Void
  | Cat r s =>
      if nullable r then Alt (Cat (deriv c r) s) (deriv c s)
      else Cat (deriv c r) s
  | Alt r s => Alt (deriv c r) (deriv c s)
  | Star r => Cat (deriv c r) (Star r)
  end.

Fixpoint fullmatch (r : regex) (s : string) : bool :=
  match s with
  | EmptyString => nullable r
  | String c s' => fullmatch (deriv c r) s'
  end.

Definition Plus (r : regex) : regex := Cat r (Star r).

Definition in_range (lo hi c : ascii) : bool :=
  (N.leb (N_of_ascii lo) (N_of_ascii c) && N.leb (N_of_ascii c) (N_of_ascii hi))%bool.

Definition is_letter (c : ascii) : bool :=
  in_range "a" "z" c || in_range "A" "Z" c.

Definition is_digit (c : ascii) : bool := in_range "0" "9" c.

Definition one_of (chars : string) (c : ascii) : bool :=
  existsb (Ascii.eqb c) (list_ascii_of_string chars).

Definition newline : ascii := ascii_of_nat 10.

(** [^[a-zA-Z0-9._%+-]+@[a-zA-Z0-9.-]+\.[a-zA-Z]{2,}] without the final [$]. *)
Definition email_regex : regex :=
  Cat (Plus (Chr (fun c => is_letter c || is_digit c || one_of "._%+-" c)))
 (Cat (Chr (Ascii.eqb "@"))
 (Cat (Plus (Chr (fun c => is_letter c || is_digit c || one_of ".-" c)))
 (Cat (Chr (Ascii.eqb "."))
 (Cat (Chr is_letter) (Cat (Chr is_letter) (Star (Chr is_letter))))))).

(** [re.match(email_pattern, s)]: the match starts at the first character and
    [$] accepts the end of the string or the position before a final newline. *)
Definition email_pattern_match (s : string) : bool :=
  fullmatch (Alt email_regex (Cat email_regex (Chr (Ascii.eqb newline)))) s.

(** A [.str] predicate on a column of strings: the test of a null is a null
    up to pandas 2 and False from pandas 3 on. *)
Definition str_predicate (pd : pandas) (test : string -> bool)
    (col : list (option string)) : list (option bool) :=
  map (fun x => match x with
                | Some s => Some (test s)
                | None => match pd with
                          | Pandas2 => None
                          | Pandas3 => Some false
                          end
                end)
      col.

(** [Series.str.match(email_pattern)] and [Series.str.contains(c)]. *)
Definition str_match (pd : pandas) (col : list (option string))
  : list (option bool) :=
  str_predicate pd email_pattern_match col.

Fixpoint contains_char (c : ascii) (s : string) : bool :=
  match s with
  | EmptyString => false
  | String d s' => Ascii.eqb c d || contains_char c s'
  end.

Definition str_contains (pd : pandas) (c : ascii) (col : list (option string))
  : list (option bool) :=
  str_predicate pd (contains_char c) col.

Definition is_null {A} (x : option A) : bool :=
  match x with
  | Some _ => false
  | None => true
  end.

(** [Series.str] of a column read from a file: a column of a file with rows
    that holds no value at all is read as a float64 column, which has no
    [.str]. *)
Definition str_accessor (col : list (option string))
  : result (list (option string)) :=
  match col with
  | [] => Ok col
  | _ :: _ => if forallb is_null col then Raise AttributeError else Ok col
  end.

(** [~mask]: a mask that holds a null is an object column, on which the
    operator raises at the null, whose type the message names: [float] for
    the NaN of a blank cell, [NoneType] for a [None] the program stored. *)
Fixpoint all_bool (mask : list (option bool)) : option (list bool) :=
  match mask with
  | [] => Some []
  | Some b :: tl => option_map (cons b) (all_bool tl)
  | None :: _ => None
  end.

Definition invert (null_type : string) (mask : list (option bool))
  : result (list bool) :=
  match all_bool mask with
  | Some bs => Ok (map negb bs)
  | None =>
      Raise (TypeError ("bad operand type for unary ~: '" ++ null_type ++ "'"))
  end.

Definition count_true (mask : list bool) : Z :=
  Z.of_nat (List.length (filter (fun b => b) mask)).

(** ** Extract: reading and validating the five CSV files *)

Record Csv (Row : Type) : Type := mkCsv {
  columns : list string;
  rows : list Row
}.
Arguments mkCsv {Row} columns rows.
Arguments columns {Row} c.
Arguments rows {Row} c.

Definition has_column (cols : list string) (col : string) : bool :=
  existsb (String.eqb col) cols.

(** [all(col in df.columns for col in required_cols)] *)
Definition has_columns (cols required : list string) : bool :=
  forallb (has_column cols) required.

(** [df[col]] raises [KeyError] when the column is absent. *)
Definition require_column (cols : list string) (col : string) : result unit :=
  if has_column cols col then Ok tt else Raise (KeyError col).

(** [pd.to_numeric(..., errors='coerce')]: what is no number becomes NaN. *)
Definition to_numeric_coerce (c : cell) : float64 :=
  match c with
  | CInt z => of_int z
  | CFloat q => FNum q
  | CNull | CText _ => FNaN
  end.

Definition is_integral (q : Q) : bool := Qeq_bool q (inject_Z (Qfloor q)).

(** [Series.astype('Int64')] of a float64 column: NaN becomes the null, and a
    value that is no integer cannot be cast. *)
Definition to_Int64 (x : float64) : result (option Z) :=
  match x with
  | FNaN => Ok None
  | FNum q =>
      if is_integral q then Ok (Some (Qfloor q))
      else Raise (TypeError
                    "cannot safely cast non-equivalent float64 to int64")
  | FInf _ =>
      Raise (TypeError "cannot safely cast non-equivalent float64 to int64")
  end.

Definition astype_Int64 (col : list float64) : result (list (option Z)) :=
  sequence (map to_Int64 col).

Definition fillna_str (v : string) (x : option string) : option string :=
  match x with
  | Some s => Some s
  | None => Some v
  end.

Definition fillna_float (v : Q) (x : float64) : float64 :=
  if isnan x then FNum v else x.

Definition fillna_bool (v : bool) (x : option bool) : option bool :=
  match x with
  | Some b => Some b
  | None => Some v
  end.

Definition categories_required : list string :=
  ["category_id"; "name"; "description"; "parent_id"]%string.

Definition read_and_validate_categories (df : Csv RawCategory.t)
  : result (list Category.t) :=
  if negb (has_columns (columns df) categories_required)
  then Raise (ValueError "Missing required columns in product_categories.csv")
  else
    parent_ids <-
      astype_Int64
        (map (fun c => to_numeric_coerce (RawCategory.parent_id c)) (rows df)) ;;
    Ok (map (fun '(c, parent_id) =>
               Category.mk (RawCategory.category_id c) (RawCategory.name c)
                 (fillna_str "" (RawCategory.description c))
                 parent_id)
            (combine (rows df) parent_ids)).

Definition products_required : list string :=
  ["product_id"; "name"; "price"; "category_id"; "sku"]%string.

Definition read_and_validate_products (df : Csv Product.t)
  : result (list Product.t) :=
  if negb (has_columns (columns df) products_required)
  then Raise (ValueError "Missing required columns in products.csv")
  else if flt (col_min (map Product.price (rows df))) (FNum 0)
  then Raise (ValueError "Found negative prices in products data")
  else
    _ <- require_column (columns df) "description" ;;
    _ <- require_column (columns df) "weight" ;;
    _ <- require_column (columns df) "is_active" ;;
    Ok (map (fun p =>
               Product.mk (Product.product_id p) (Product.name p)
                 (fillna_str "" (Product.description p))
                 (Product.price p) (Product.cost p) (Product.category_id p)
                 (Product.sku p)
                 (fillna_float 0 (Product.weight p))
                 (fillna_bool true (Product.is_active p)))
            (rows df)).

Definition customers_required : list string :=
  ["customer_id"; "email"; "first_name"; "last_name"]%string.

(** [df.loc[invalid_emails, 'email'] = None] *)
Definition null_emails (invalid : list bool) (cs : list Customer.t)
  : list Customer.t :=
  map (fun '(c, bad) =>
         if (bad : bool)
         then Customer.mk (Customer.customer_id c) None
                (Customer.first_name c) (Customer.last_name c)
         else c)
      (combine cs invalid).

Definition read_and_validate_customers (pd : pandas) (df : Csv Customer.t)
  : result (list Customer.t) :=
  if negb (has_columns (columns df) customers_required)
  then Raise (ValueError "Missing required columns in customers.csv")
  else
    emails <- str_accessor (map Customer.email (rows df)) ;;
    invalid_emails <- invert "float" (str_match pd emails) ;;
    if existsb (fun b => b) invalid_emails
    then Ok (null_emails invalid_emails (rows df))
    else Ok (rows df).

Definition orders_required : list string :=
  ["order_id"; "customer_id"; "order_date"; "status"; "payment_method";
   "total_amount"]%string.

(** [pd.to_datetime] has parsed the date columns, a blank date into NaT;
    [order_date] is the one the pipeline reads. *)
Definition read_and_validate_orders (df : Csv Order.t)
  : result (list Order.t) :=
  if negb (has_columns (columns df) orders_required)
  then Raise (ValueError "Missing required columns in orders.csv")
  else if flt (col_min (map Order.total_amount (rows df))) (FNum 0)
  then Raise (ValueError "Found negative order amounts")
  else Ok (rows df).

Definition order_items_required : list string :=
  ["order_item_id"; "order_id"; "product_id"; "quantity"; "price";
   "total"]%string.

(** [df['quantity'].min() <= 0]; the minimum of no rows is NaN, for which the
    test is false. *)
Definition min_le_zero (m : option Z) : bool :=
  match m with
  | Some z => z <=? 0
  | None => false
  end.

Definition read_and_validate_order_items (df : Csv OrderItem.t)
  : result (list OrderItem.t) :=
  if negb (has_columns (columns df) order_items_required)
  then Raise (ValueError "Missing required columns in order_items.csv")
  else if min_le_zero (col_min_int (map OrderItem.quantity (rows df)))
  then Raise (ValueError "Found zero or negative quantities")
  else if flt (col_min (map OrderItem.price (rows df))) (FNum 0)
  then Raise (ValueError "Found negative prices")
  else Ok (rows df).

(** The five files of the data directory. *)
Record CsvFiles : Type := mkCsvFiles {
  product_categories_csv : Csv RawCategory.t;
  products_csv : Csv Product.t;
  customers_csv : Csv Customer.t;
  orders_csv : Csv Order.t;
  order_items_csv : Csv OrderItem.t
}.

(** [self.dfs] after [extract]. *)
(** The products and the order items keep the header of their file beside
    their rows: [cost] and [discount] are columns the files need not have. *)
Record Extracted : Type := mkExtracted {
  x_categories : list Category.t;
  x_products : list Product.t;
  x_products_columns : list string;
  x_customers : list Customer.t;
  x_orders : list Order.t;
  x_order_items : list OrderItem.t;
  x_order_items_columns : list string
}.

Definition extract (pd : pandas) (files : CsvFiles) : result Extracted :=
  categories <- read_and_validate_categories (product_categories_csv files) ;;
  products <- read_and_validate_products (products_csv files) ;;
  customers <- read_and_validate_customers pd (customers_csv files) ;;
  orders <- read_and_validate_orders (orders_csv files) ;;
  order_items <- read_and_validate_order_items (order_items_csv files) ;;
  Ok (mkExtracted categories products (columns (products_csv files))
        customers orders order_items (columns (order_items_csv files))).

(** ** Transform *)

(** Lexicographic order on the keys of the daily sales groups. *)
Definition DailyKey : Type := Timestamp * Z * Z.

Definition daily_key_eqb (a b : DailyKey) : bool :=
  let '(d1, p1, c1) := a in
  let '(d2, p2, c2) := b in
  (d1 =? d2) && (p1 =? p2) && (c1 =? c2).

Definition daily_key_leb (a b : DailyKey) : bool :=
  let '(d1, p1, c1) := a in
  let '(d2, p2, c2) := b in
  (d1 <? d2) || ((d1 =? d2) && ((p1 <? p2) || ((p1 =? p2) && (c1 <=? c2)))).

(** *** 1. Products joined with their category *)

Definition category_matches (p : Product.t) (c : Category.t) : bool :=
  match Product.category_id p with
  | Some k => k =? Category.category_id c
  | None => false
  end.

(** [((price - cost) / price).round(4)], in binary64. *)
Definition margin (p : Product.t) : float64 :=
  fround 4
    (fdiv64 (fsub64 (Product.price p) (Product.cost p)) (Product.price p)).

Definition transform_product_data
    (products_df : list Product.t) (categories_df : list Category.t)
  : list ProductE.t :=
  map (fun '(p, c) =>
         ProductE.mk p
           (match c with Some c => Category.name c | None => None end)
           (margin p))
      (merge_left category_matches products_df categories_df).

(** *** 2. Revenue, profit and quantity of each order *)

Module ItemWithProduct.
Record t : Type := mk {
  item : OrderItem.t;
  cost : float64;
  profit : float64
}.
Definition order_id (r : t) : Z := OrderItem.order_id (item r).
Definition total (r : t) : float64 := OrderItem.total (item r).
Definition quantity (r : t) : Z := OrderItem.quantity (item r).
End ItemWithProduct.

Module OrderMetrics.
Record t : Type := mk {
  order_id : Z;
  total : float64;
  profit : float64;
  quantity : Z
}.
End OrderMetrics.

Definition product_matches (i : OrderItem.t) (p : ProductE.t) : bool :=
  OrderItem.product_id i =? ProductE.product_id p.

Definition item_profit (i : OrderItem.t) (cost : float64) : float64 :=
  fsub (OrderItem.total i) (fmul cost (of_int (OrderItem.quantity i))).

Definition items_with_products
    (items_df : list OrderItem.t) (products_df : list ProductE.t)
  : list ItemWithProduct.t :=
  map (fun '(i, p) =>
         let cost := match p with Some p => ProductE.cost p | None => FNaN end in
         ItemWithProduct.mk i cost (item_profit i cost))
      (merge_left product_matches items_df products_df).

Definition order_metrics (rows : list ItemWithProduct.t)
  : list OrderMetrics.t :=
  map (fun '(k, g) =>
         OrderMetrics.mk k
           (fsum (map ItemWithProduct.total g))
           (fsum (map ItemWithProduct.profit g))
           (int64_sum (map ItemWithProduct.quantity g)))
      (groupby Z.eqb Z.leb (fun r => Some (ItemWithProduct.order_id r)) rows).

Definition metrics_match (o : Order.t) (m : OrderMetrics.t) : bool :=
  Order.order_id o =? OrderMetrics.order_id m.

Definition calculate_order_revenue
    (orders_df : list Order.t) (items_df : list OrderItem.t)
    (products_df : list ProductE.t)
  : list OrderE.t :=
  map (fun '(o, m) =>
         match m with
         | Some m =>
             OrderE.mk o (OrderMetrics.total m) (OrderMetrics.profit m)
               (Some (OrderMetrics.quantity m))
         | None => OrderE.mk o FNaN FNaN None
         end)
      (merge_left metrics_match orders_df
         (order_metrics (items_with_products items_df products_df))).

(** *** 3. Customer metrics *)

Module CustomerMetrics.
Record t : Type := mk {
  customer_id : Z;
  total_orders : Z;
  lifetime_value : float64;
  first_order_date : option Timestamp;
  last_order_date : option Timestamp;
  average_order_value : float64;
  days_between_orders : float64
}.
End CustomerMetrics.

(** [orders_df['status'].isin([...])]; a null status is in no list. *)
Definition qualifying (o : OrderE.t) : bool :=
  match OrderE.status o with
  | Some s => isin s ["Delivered"; "In Transit"; "Shipped"]%string
  | None => false
  end.

(** [(last - first).dt.days]: null when a date is null. *)
Definition span_days (last first : option Timestamp) : float64 :=
  match last, first with
  | Some l, Some f => of_int (timedelta_days l f)
  | _, _ => FNaN
  end.

Definition customer_metrics (orders_df : list OrderE.t)
  : list CustomerMetrics.t :=
  map (fun '(k, g) =>
         let total_orders := Z.of_nat (List.length g) in
         let lifetime_value := fsum (map OrderE.total g) in
         let first_order_date := ts_min (dropna (map OrderE.order_date g)) in
         let last_order_date := ts_max (dropna (map OrderE.order_date g)) in
         CustomerMetrics.mk k total_orders lifetime_value
           first_order_date last_order_date
           (fdiv lifetime_value (of_int total_orders))
           (fdiv (span_days last_order_date first_order_date)
                 (of_int total_orders)))
      (groupby Z.eqb Z.leb (fun o => Some (OrderE.customer_id o))
         (filter qualifying orders_df)).

Definition customer_matches (c : Customer.t) (m : CustomerMetrics.t) : bool :=
  Customer.customer_id c =? CustomerMetrics.customer_id m.

Definition enrich_customer_data
    (customers_df : list Customer.t) (orders_df : list OrderE.t)
  : list CustomerE.t :=
  map (fun '(c, m) =>
         match m with
         | Some m =>
             CustomerE.mk c (Some (CustomerMetrics.total_orders m))
               (CustomerMetrics.lifetime_value m)
               (CustomerMetrics.first_order_date m)
               (CustomerMetrics.last_order_date m)
               (CustomerMetrics.average_order_value m)
               (CustomerMetrics.days_between_orders m)
         | None => CustomerE.mk c None FNaN None None FNaN FNaN
         end)
      (merge_left customer_matches customers_df (customer_metrics orders_df)).

(** *** 4. Daily sales by product and category *)

(** A row of [items_df] merged with the order's date and status and with the
    product's category. *)
Module Joined.
Record t : Type := mk {
  item : OrderItem.t;
  order_date : option Timestamp;
  status : option string;
  category_id : option Z
}.
Definition order_id (r : t) : Z := OrderItem.order_id (item r).
Definition product_id (r : t) : Z := OrderItem.product_id (item r).
Definition quantity (r : t) : Z := OrderItem.quantity (item r).
Definition total (r : t) : float64 := OrderItem.total (item r).
End Joined.

(** [orders_df[['order_id', 'order_date', 'status']]] *)
Module OrderCols.
Record t : Type := mk {
  order_id : Z;
  order_date : option Timestamp;
  status : option string
}.
Definition of_order (o : Order.t) : t :=
  mk (Order.order_id o) (Order.order_date o) (Order.status o).
Definition select (o : OrderE.t) : t := of_order (OrderE.base o).
End OrderCols.

(** [products_df[['product_id', 'category_id']]] *)
Module ProductCols.
Record t : Type := mk {
  product_id : Z;
  category_id : option Z
}.
Definition of_product (p : Product.t) : t :=
  mk (Product.product_id p) (Product.category_id p).
Definition select (p : ProductE.t) : t := of_product (ProductE.base p).
End ProductCols.

Definition on_order_id (i : OrderItem.t) (o : OrderCols.t) : bool :=
  OrderItem.order_id i =? OrderCols.order_id o.

Definition on_product_id (r : OrderItem.t * option OrderCols.t)
    (p : ProductCols.t) : bool :=
  OrderItem.product_id (fst r) =? ProductCols.product_id p.

Definition joined_row (r : OrderItem.t * option OrderCols.t * option ProductCols.t)
  : Joined.t :=
  let '((i, o), p) := r in
  Joined.mk i
    (match o with Some o => OrderCols.order_date o | None => None end)
    (match o with Some o => OrderCols.status o | None => None end)
    (match p with Some p => ProductCols.category_id p | None => None end).

Definition joined_items
    (orders : list OrderCols.t) (items_df : list OrderItem.t)
    (products : list ProductCols.t)
  : list Joined.t :=
  map joined_row
      (merge_left on_product_id (merge_left on_order_id items_df orders)
         products).

(** [~daily_sales['status'].isin(['Cancelled', 'Returned'])]; a null status is
    in no list. *)
Definition not_cancelled (r : Joined.t) : bool :=
  negb (match Joined.status r with
        | Some s => isin s ["Cancelled"; "Returned"]%string
        | None => false
        end).

Definition daily_key (r : Joined.t) : option DailyKey :=
  match Joined.order_date r, Joined.category_id r with
  | Some d, Some c => Some (floor_day d, Joined.product_id r, c)
  | _, _ => None
  end.

Definition daily_row (k : DailyKey) (g : list Joined.t) : DailySales.t :=
  let '(d, p, c) := k in
  let units_sold := int64_sum (map Joined.quantity g) in
  let revenue := fsum (map Joined.total g) in
  DailySales.mk d p c units_sold revenue
    (nunique (map Joined.order_id g))
    (fdiv revenue (of_int units_sold)).

(** The aggregation, from the selected columns of the orders and products. *)
Definition daily_sales_from
    (orders : list OrderCols.t) (items_df : list OrderItem.t)
    (products : list ProductCols.t)
  : list DailySales.t :=
  let daily_sales := joined_items orders items_df products in
  let daily_sales := filter not_cancelled daily_sales in
  map (fun '(k, g) => daily_row k g)
      (groupby daily_key_eqb daily_key_leb daily_key daily_sales).

Definition aggregate_daily_sales
    (orders_df : list OrderE.t) (items_df : list OrderItem.t)
    (products_df : list ProductE.t)
  : list DailySales.t :=
  daily_sales_from (map OrderCols.select orders_df) items_df
    (map ProductCols.select products_df).

(** *** 5. Time dimension *)

(** [pd.date_range(start, end, freq='D')]: [start], [start] + 1 day, ... up to
    the last one that is not after [end]. *)
Definition date_range (start_date end_date : Timestamp) : list Timestamp :=
  if end_date <? start_date then []
  else
    map (fun k => start_date + Z.of_nat k * ns_per_day)
        (seq 0 (Z.to_nat ((end_date - start_date) / ns_per_day + 1))).

Definition dim_time_row (d : Timestamp) : DimTime.t :=
  DimTime.mk d (dayofweek d) (day d) (dayofyear d) (isoweek d) (month d)
    (month_name d) (quarter d) (year d)
    (existsb (Z.eqb (dayofweek d)) [5; 6])
    false.

(** The order dates of the orders that have one. *)
Definition order_dates (orders_df : list OrderE.t) : list Timestamp :=
  dropna (map OrderE.order_date orders_df).

Definition generate_time_dimension (orders_df : list OrderE.t)
  : result (list DimTime.t) :=
  match ts_min (order_dates orders_df), ts_max (order_dates orders_df) with
  | Some start_date, Some end_date =>
      Ok (map dim_time_row (date_range start_date end_date))
  | _, _ => Raise (ValueError "Neither `start` nor `end` can be NaT")
  end.

(** [self.dfs] after [transform]: each step reads the tables as the steps
    before it left them. *)
Record Dfs : Type := mkDfs {
  categories : list Category.t;
  products : list ProductE.t;
  customers : list CustomerE.t;
  orders : list OrderE.t;
  order_items : list OrderItem.t;
  order_items_columns : list string;
  daily_sales : list DailySales.t;
  dim_time : list DimTime.t
}.

(** Step 1 reads the [cost] column of the products, which extraction does
    not require: [transform_product_data] gives the rows of the step for a
    table that has the column, and without it the step raises. *)
Definition transform (x : Extracted) : result Dfs :=
  _ <- require_column (x_products_columns x) "cost" ;;
  let products := transform_product_data (x_products x) (x_categories x) in
  let orders := calculate_order_revenue (x_orders x) (x_order_items x) products in
  let customers := enrich_customer_data (x_customers x) orders in
  let daily_sales := aggregate_daily_sales orders (x_order_items x) products in
  dim_time <- generate_time_dimension orders ;;
  Ok (mkDfs (x_categories x) products customers orders (x_order_items x)
        (x_order_items_columns x) daily_sales dim_time).

(** ** Load and run: actions on the database, with a log of what was done *)

Inductive if_exists : Type := Replace | Append.

Inductive event : Type :=
| ToSql (table_name : string) (mode : if_exists) (nrows : nat)
| ToSqlFailed (table_name : string)
| Dispose.

(** An action may raise and extends the log of database events. *)
Definition Action (A : Type) : Type := list event -> result A * list event.

Definition pure {A} (r : result A) : Action A := fun log => (r, log).

Definition and_then {A B} (m : Action A) (k : A -> Action B) : Action B :=
  fun log =>
    match m log with
    | (Ok a, log') => k a log'
    | (Raise e, log') => (Raise e, log')
    end.

Notation "x <~ m ;; k" := (and_then m (fun x => k))
  (at level 61, m at next level, right associativity).

(** [try: body finally: cleanup] *)
Definition finally {A} (body : Action A) (cleanup : list event -> list event)
  : Action A :=
  fun log => let '(r, log') := body log in (r, cleanup log').

Section Database.
(** Which tables the database refuses to write. *)
Variable to_sql_fails : string -> bool.

(** [df.to_sql(table_name, self.engine, if_exists=..., chunksize=...)]: the
    chunk size only splits the statements of one write. *)
Definition bulk_insert_df {Row} (table_name : string) (df : list Row)
    (mode : if_exists) : Action unit :=
  fun log =>
    if to_sql_fails table_name
    then (Raise (DatabaseError table_name), log ++ [ToSqlFailed table_name])
    else (Ok tt, log ++ [ToSql table_name mode (List.length df)]).

Definition load_dimension_tables (dfs : Dfs) : Action unit :=
  _ <~ bulk_insert_df "dim_time" (dim_time dfs) Replace ;;
  _ <~ bulk_insert_df "product_categories" (categories dfs) Replace ;;
  _ <~ bulk_insert_df "products" (products dfs) Replace ;;
  bulk_insert_df "customers" (customers dfs) Replace.

Definition load_fact_tables (dfs : Dfs) : Action unit :=
  _ <~ bulk_insert_df "orders" (orders dfs) Append ;;
  _ <~ bulk_insert_df "order_items" (order_items dfs) Append ;;
  bulk_insert_df "daily_sales_aggregation" (daily_sales dfs) Append.

Definition load (dfs : Dfs) : Action unit :=
  _ <~ load_dimension_tables dfs ;;
  load_fact_tables dfs.

Definition run (pd : pandas) (files : CsvFiles) : Action Dfs :=
  finally
    (x <~ pure (extract pd files) ;;
     dfs <~ pure (transform x) ;;
     _ <~ load dfs ;;
     pure (Ok dfs))
    (fun log => log ++ [Dispose]).
End Database.

(** ** Data quality metrics ([etl_workflow.check_data_quality]) *)

(** The columns of a DataFrame that [check_data_quality] looks at, each
    present or not, with the null count of every column.  The email column is
    a column of strings, its nulls the [None] that validation stores. *)
Module Frame.
Record t : Type := mk {
  height : nat;
  null_counts : list (string * Z);
  price : option (list float64);
  quantity : option (list float64);
  discount : option (list float64);
  order_date : option (list (option Timestamp));
  email : option (list (option string))
}.
End Frame.

Record DataQualityMetrics : Type := mkMetrics {
  total_records : Z;
  invalid_records : Z;
  missing_values : list (string * Z);
  validation_errors : list string;
  business_rule_violations : list (string * Z)
}.

Definition count_if {A} (f : A -> bool) (col : list A) : Z :=
  Z.of_nat (List.length (filter f col)).

Definition column_rule {A} (col : option (list A)) (rule : string)
    (violates : A -> bool) : list (string * Z) :=
  match col with
  | Some c => [(rule, count_if violates c)]
  | None => []
  end.

Definition get_column {A} (name : string) (col : option A) : result A :=
  match col with
  | Some c => Ok c
  | None => Raise (KeyError name)
  end.

Section Quality.
Variable pd : pandas.
(** [datetime.datetime.now()] *)
Variable now : Timestamp.

(** [df['order_date'] > now]: false for NaT. *)
Definition is_future (d : option Timestamp) : bool :=
  match d with
  | Some t => now <? t
  | None => false
  end.

Definition check_data_quality (table_name : string) (df : Frame.t)
  : result DataQualityMetrics :=
  let common :=
    column_rule (Frame.price df) "negative_prices"
      (fun x => flt x (FNum 0)) ++
    column_rule (Frame.quantity df) "invalid_quantities"
      (fun x => fle x (FNum 0)) ++
    column_rule (Frame.discount df) "invalid_discounts"
      (fun x => flt x (FNum 0) || flt (FNum 1) x) in
  future <-
    (if String.eqb table_name "orders"
     then
       col <- get_column "order_date" (Frame.order_date df) ;;
       Ok [("future_dates"%string, count_if is_future col)]
     else Ok []) ;;
  emails <-
    (if String.eqb table_name "customers"
     then
       col <- get_column "email" (Frame.email df) ;;
       invalid <- invert "NoneType" (str_contains pd "@" col) ;;
       Ok [("invalid_emails"%string, count_true invalid)]
     else Ok []) ;;
  Ok (mkMetrics (Z.of_nat (Frame.height df)) 0 (Frame.null_counts df) []
        (common ++ future ++ emails)).
End Quality.

Definition count_none {A} (col : list (option A)) : Z :=
  count_if (fun x => match x with None => true | Some _ => false end) col.

Definition count_nan (col : list float64) : Z := count_if isnan col.

(** [pipeline.dfs['customers']] as [process_data] hands it over. *)
Definition customers_frame (df : list CustomerE.t) : Frame.t :=
  let base := map CustomerE.base df in
  Frame.mk (List.length df)
    [("customer_id", 0);
     ("email", count_none (map CustomerE.email df));
     ("first_name", count_none (map Customer.first_name base));
     ("last_name", count_none (map Customer.last_name base));
     ("total_orders", count_none (map CustomerE.total_orders df));
     ("lifetime_value", count_nan (map CustomerE.lifetime_value df));
     ("first_order_date", count_none (map CustomerE.first_order_date df));
     ("last_order_date", count_none (map CustomerE.last_order_date df));
     ("average_order_value", count_nan (map CustomerE.average_order_value df));
     ("days_between_orders", count_nan (map CustomerE.days_between_orders df))
    ]%string
    None None None None
    (Some (map CustomerE.email df)).

Definition lookup_rule (rule : string) (m : DataQualityMetrics) : option Z :=
  option_map snd
    (find (fun kv => String.eqb rule (fst kv)) (business_rule_violations m)).

(** ** Specification-side definitions *)

Section GroupGet.
Context {K V : Type}.
Variable eqb : K -> K -> bool.

(** The rows of the group of key [k]; none when there is no such group. *)
Fixpoint group_get (k : K) (gs : list (K * list V)) : list V :=
  match gs with
  | [] => []
  | (k', vs) :: tl => if eqb k k' then vs else group_get k tl
  end.

(** The row [v] has the non-null key [k]. *)
Definition has_key (key : V -> option K) (k : K) (v : V) : bool :=
  match key v with
  | Some k' => eqb k k'
  | None => false
  end.
End GroupGet.

(** The daily sales aggregation computed from the validated tables as
    extraction left them, before any transform step has replaced them. *)
Definition daily_sales_of_raw
    (orders : list Order.t) (items : list OrderItem.t)
    (products : list Product.t)
  : list DailySales.t :=
  daily_sales_from (map OrderCols.of_order orders) items
    (map ProductCols.of_product products).

(** The status of the joined row is Cancelled or Returned. *)
Definition cancelled_or_returned (r : Joined.t) : bool :=
  match Joined.status r with
  | Some s => String.eqb s "Cancelled" || String.eqb s "Returned"
  | None => false
  end.

(** The joined row falls on calendar day [d] (given by its midnight) and has
    product [p] and category [c]. *)
Definition in_daily_group (k : DailyKey) (r : Joined.t) : bool :=
  let '(d, p, c) := k in
  match Joined.order_date r, Joined.category_id r with
  | Some t, Some c' =>
      (floor_day t =? d) && (Joined.product_id r =? p) && (c' =? c)
  | _, _ => false
  end.

(** The joined rows that make up the daily sales group of key [k]. *)
Definition daily_group (joined : list Joined.t) (k : DailyKey)
  : list Joined.t :=
  filter (fun r => negb (cancelled_or_returned r) && in_daily_group k r) joined.

Definition daily_sales_key (row : DailySales.t) : DailyKey :=
  (DailySales.order_date row, DailySales.product_id row,
   DailySales.category_id row).

(** The number of distinct values of a list: the length of any duplicate-free
    list with the same elements. *)
Definition is_distinct_count (l : list Z) (n : Z) : Prop :=
  exists d, NoDup d /\ (forall x, In x d <-> In x l) /\ n = Z.of_nat (List.length d).

(** The order item finds an order, and a product that has a category. *)
Definition has_order (orders : list OrderCols.t) (i : OrderItem.t) : bool :=
  existsb (on_order_id i) orders.

Definition has_product (products : list ProductCols.t) (i : OrderItem.t)
  : bool :=
  existsb (fun p => OrderItem.product_id i =? ProductCols.product_id p)
    products.

Definition has_categorised_product (products : list ProductCols.t)
    (i : OrderItem.t) : bool :=
  existsb
    (fun p => (OrderItem.product_id i =? ProductCols.product_id p) &&
              match ProductCols.category_id p with
              | Some _ => true
              | None => false
              end)
    products.

(** The order items of an order, and the cost of the product of an item. *)
Definition items_of (items : list OrderItem.t) (order_id : Z)
  : list OrderItem.t :=
  filter (fun i => OrderItem.order_id i =? order_id) items.


(** The status of the order is Delivered, In Transit or Shipped. *)
Definition delivered_or_under_way (o : OrderE.t) : bool :=
  match OrderE.status o with
  | Some s =>
      String.eqb s "Delivered" || String.eqb s "In Transit" ||
      String.eqb s "Shipped"
  | None => false
  end.

(** The qualifying orders of a customer. *)
Definition qualifying_orders (orders_df : list OrderE.t) (customer_id : Z)
  : list OrderE.t :=
  filter (fun o => delivered_or_under_way o &&
                   (OrderE.customer_id o =? customer_id))
    orders_df.

(** [s] is the int64 number the sum of [l] wraps around to: the sum itself
    when that is in the int64 range. *)
Definition is_int64_sum (l : list Z) (s : Z) : Prop :=
  - 2 ^ 63 <= s < 2 ^ 63 /\ exists k : Z, s = Zsum l + k * 2 ^ 64.

(** The order items that make up the daily sales row of the key
    [(day, product, category)]: an item of that product, once for every order
    with its order_id that is dated on that day and neither Cancelled nor
    Returned, and for every row of the product table with its product_id
    that is in that category; in the order of the items. *)
Definition sold_on (k : DailyKey) (orders_df : list OrderE.t)
    (items_df : list OrderItem.t) (products_df : list ProductE.t)
  : list OrderItem.t :=
  let '(d, p, c) := k in
  flat_map
    (fun i =>
       flat_map
         (fun o =>
            flat_map
              (fun pr =>
                 if (OrderItem.order_id i =? OrderE.order_id o) &&
                    match OrderE.status o with
                    | Some s =>
                        negb (String.eqb s "Cancelled" ||
                              String.eqb s "Returned")
                    | None => true
                    end &&
                    match OrderE.order_date o with
                    | Some t => floor_day t =? d
                    | None => false
                    end &&
                    (OrderItem.product_id i =? ProductE.product_id pr) &&
                    (OrderItem.product_id i =? p) &&
                    match ProductE.category_id pr with
                    | Some c' => c' =? c
                    | None => false
                    end
                 then [i]
                 else [])
              products_df)
         orders_df)
    items_df.

Definition is_minimum (m : Z) (l : list Z) : Prop :=
  In m l /\ forall x, In x l -> m <= x.

Definition is_maximum (m : Z) (l : list Z) : Prop :=
  In m l /\ forall x, In x l -> x <= m.

(** The hard business-rule violations and the missing required columns. *)
Inductive hard_violation (files : CsvFiles) : Prop :=
| negative_product_price (p : Product.t) :
    In p (rows (products_csv files)) ->
    flt (Product.price p) (FNum 0) = true ->
    hard_violation files
| negative_order_total (o : Order.t) :
    In o (rows (orders_csv files)) ->
    flt (Order.total_amount o) (FNum 0) = true ->
    hard_violation files
| non_positive_quantity (i : OrderItem.t) :
    In i (rows (order_items_csv files)) ->
    OrderItem.quantity i <= 0 ->
    hard_violation files
| negative_item_price (i : OrderItem.t) :
    In i (rows (order_items_csv files)) ->
    flt (OrderItem.price i) (FNum 0) = true ->
    hard_violation files
| missing_categories_column (c : string) :
    In c categories_required ->
    has_column (columns (product_categories_csv files)) c = false ->
    hard_violation files
| missing_products_column (c : string) :
    In c products_required ->
    has_column (columns (products_csv files)) c = false ->
    hard_violation files
| missing_customers_column (c : string) :
    In c customers_required ->
    has_column (columns (customers_csv files)) c = false ->
    hard_violation files
| missing_orders_column (c : string) :
    In c orders_required ->
    has_column (columns (orders_csv files)) c = false ->
    hard_violation files
| missing_order_items_column (c : string) :
    In c order_items_required ->
    has_column (columns (order_items_csv files)) c = false ->
    hard_violation files.

(** The writes of a load in which nothing fails: the dimension tables in
    replace mode, then the fact tables in append mode. *)
Definition load_plan (dfs : Dfs) : list event :=
  [ToSql "dim_time" Replace (List.length (dim_time dfs));
   ToSql "product_categories" Replace (List.length (categories dfs));
   ToSql "products" Replace (List.length (products dfs));
   ToSql "customers" Replace (List.length (customers dfs));
   ToSql "orders" Append (List.length (orders dfs));
   ToSql "order_items" Append (List.length (order_items dfs));
   ToSql "daily_sales_aggregation" Append (List.length (daily_sales dfs))].

Definition load_tables : list string :=
  ["dim_time"; "product_categories"; "products"; "customers"; "orders";
   "order_items"; "daily_sales_aggregation"]%string.

Definition is_write (e : event) : bool :=
  match e with
  | ToSql _ _ _ => true
  | _ => false
  end.

(** ** Sample data *)

Module Sample.
Local Open Scope string_scope.

Definition hour : Z := 3600 * 1000000000.

(** 2024-01-01T00:00, a Monday. *)
Definition jan1 : Timestamp := 19723 * ns_per_day.

Definition toys : Category.t :=
  Category.mk 1 (Some "Toys") (Some "") None.

Definition raw_toys : RawCategory.t :=
  RawCategory.mk 1 (Some "Toys") None CNull.

Definition car : Product.t :=
  Product.mk 10 (Some "Car") (Some "") (FNum 5) (FNum 3) (Some 1)
    (Some "CAR-1") (FNum 0) (Some true).

Definition free_sample : Product.t :=
  Product.mk 11 (Some "Sticker") (Some "") (FNum 0) (FNum (1 # 2)) (Some 1)
    (Some "STK-1") (FNum 0) (Some true).


Definition refund : Product.t :=
  Product.mk 12 (Some "Refund") (Some "") (FNum (-5)) (FNum 0) (Some 1)
    (Some "REF-1") (FNum 0) (Some true).

Definition alice : Customer.t :=
  Customer.mk 7 (Some "alice@example.com") (Some "Alice") (Some "A").


Definition carol : Customer.t :=
  Customer.mk 9 (Some "carol@example.org") (Some "Carol") (Some "C").

(** 2024-01-01 at 15:00 and 2024-01-03 at 10:00. *)
Definition order1_date : Timestamp := jan1 + 15 * hour.
Definition order2_date : Timestamp := jan1 + 2 * ns_per_day + 10 * hour.

Definition order1 : Order.t :=
  Order.mk 100 7 (Some order1_date) (Some "Delivered") (Some "card")
    (FNum 50).

Definition order2 : Order.t :=
  Order.mk 101 7 (Some order2_date) (Some "Shipped") (Some "card") (FNum 30).

Definition item1 : OrderItem.t :=
  OrderItem.mk 1 100 10 2 (FNum 10) (FNum 0) (FNum 20).

Definition item2 : OrderItem.t :=
  OrderItem.mk 2 100 10 3 (FNum 10) (FNum 0) (FNum 30).

Definition item3 : OrderItem.t :=
  OrderItem.mk 3 101 10 3 (FNum 10) (FNum 0) (FNum 30).

Definition products_header : list string :=
  (products_required ++ ["description"; "cost"; "weight"; "is_active"])%list.

Definition order_items_header : list string :=
  (order_items_required ++ ["discount"])%list.

Definition extracted : Extracted :=
  mkExtracted [toys] [car; free_sample] products_header [alice; carol]
    [order1; order2] [item1; item2; item3] order_items_header.

(** The same, with the category row twice in the category table. *)
Definition extracted_twice : Extracted :=
  mkExtracted [toys; toys] [car] products_header [alice] [order1]
    [item1; item2] order_items_header.

Definition files : CsvFiles :=
  mkCsvFiles
    (mkCsv categories_required [raw_toys])
    (mkCsv products_header [car; free_sample])
    (mkCsv customers_required [alice; carol])
    (mkCsv orders_required [order1; order2])
    (mkCsv order_items_header [item1; item2; item3]).

(** products.csv with a row of price -5. *)
Definition files_negative_price : CsvFiles :=
  mkCsvFiles
    (mkCsv categories_required [raw_toys])
    (mkCsv products_header [car; refund])
    (mkCsv customers_required [alice; carol])
    (mkCsv orders_required [order1; order2])
    (mkCsv order_items_header [item1; item2; item3]).


Definition no_failure (table_name : string) : bool := false.
End Sample.


(** The rows of an order among the items merged with the products. *)
Definition order_rows (rows : list ItemWithProduct.t) (order_id : Z)
  : list ItemWithProduct.t :=
  filter (fun r => ItemWithProduct.order_id r =? order_id) rows.

(** The metrics of an order from its rows. *)
Definition metrics_of (order_id : Z) (g : list ItemWithProduct.t)
  : OrderMetrics.t :=
  OrderMetrics.mk order_id
    (fsum (map ItemWithProduct.total g))
    (fsum (map ItemWithProduct.profit g))
    (int64_sum (map ItemWithProduct.quantity g)).

(** The metrics of a customer from its qualifying orders. *)
Definition customer_metrics_of (customer_id : Z) (g : list OrderE.t)
  : CustomerMetrics.t :=
  let total_orders := Z.of_nat (List.length g) in
  let lifetime_value := fsum (map OrderE.total g) in
  let first_order_date := ts_min (dropna (map OrderE.order_date g)) in
  let last_order_date := ts_max (dropna (map OrderE.order_date g)) in
  CustomerMetrics.mk customer_id total_orders lifetime_value
    first_order_date last_order_date
    (fdiv lifetime_value (of_int total_orders))
    (fdiv (span_days last_order_date first_order_date) (of_int total_orders)).

(** The computation ends with an exception. *)
Definition raises {A} (r : result A) : Prop := exists e, r = Raise e.

(** Every string the expression matches holds the character [a]: a
    sufficient condition, read off the expression. *)
Fixpoint always_has (a : ascii) (r : regex) : Prop :=
  match r with
  | Void => True
  | Eps => False
  | Chr p => forall c, p c = true -> c = a
  | Cat r s => always_has a r \/ always_has a s
  | Alt r s => always_has a r /\ always_has a s
  | Star _ => False
  end.

(** ** The workflow around the pipeline ([etl_workflow.py]) *)

Definition required_files : list string :=
  ["product_categories.csv"; "products.csv"; "customers.csv"; "orders.csv";
   "order_items.csv"]%string.

(** The loop of [validate_data_files] over the required files;
    [file_exists] is [file_path.exists()]. *)
Fixpoint check_files (file_exists : string -> bool) (files : list string)
  : result bool :=
  match files with
  | [] => Ok true
  | file :: rest =>
      if negb (file_exists file)
      then Raise (ValueError ("Required file " ++ file ++ " not found"))
      else check_files file_exists rest
  end.

Definition validate_data_files (file_exists : string -> bool) : result bool :=
  check_files file_exists required_files.

Definition float_of_option (x : option Z) : float64 :=
  match x with
  | Some z => of_int z
  | None => FNaN
  end.

(** The tables of [pipeline.dfs] as [check_data_quality] sees them. *)
Definition categories_frame (df : list Category.t) : Frame.t :=
  Frame.mk (List.length df)
    [("category_id", 0);
     ("name", count_none (map Category.name df));
     ("description", count_none (map Category.description df));
     ("parent_id", count_none (map Category.parent_id df))]%string
    None None None None None.

Definition products_frame (df : list ProductE.t) : Frame.t :=
  let base := map ProductE.base df in
  Frame.mk (List.length df)
    [("product_id", 0);
     ("name", count_none (map Product.name base));
     ("description", count_none (map Product.description base));
     ("price", count_nan (map Product.price base));
     ("cost", count_nan (map Product.cost base));
     ("category_id", count_none (map Product.category_id base));
     ("sku", count_none (map Product.sku base));
     ("weight", count_nan (map Product.weight base));
     ("is_active", count_none (map Product.is_active base));
     ("name_category", count_none (map ProductE.name_category df));
     ("profit_margin", count_nan (map ProductE.profit_margin df))]%string
    (Some (map ProductE.price df)) None None None None.

Definition orders_frame (df : list OrderE.t) : Frame.t :=
  let base := map OrderE.base df in
  Frame.mk (List.length df)
    [("order_id", 0);
     ("customer_id", 0);
     ("order_date", count_none (map OrderE.order_date df));
     ("status", count_none (map OrderE.status df));
     ("payment_method", count_none (map Order.payment_method base));
     ("total_amount", count_nan (map Order.total_amount base));
     ("total", count_nan (map OrderE.total df));
     ("profit", count_nan (map OrderE.profit df));
     ("quantity", count_none (map OrderE.quantity df))]%string
    None
    (Some (map (fun o => float_of_option (OrderE.quantity o)) df))
    None
    (Some (map OrderE.order_date df))
    None.

(** The order items have a discount column when their file has one. *)
Definition order_items_frame (cols : list string) (df : list OrderItem.t)
  : Frame.t :=
  let has_discount := has_column cols "discount" in
  Frame.mk (List.length df)
    ([("order_item_id", 0);
      ("order_id", 0);
      ("product_id", 0);
      ("quantity", 0);
      ("price", count_nan (map OrderItem.price df));
      ("total", count_nan (map OrderItem.total df))]%string ++
     (if has_discount
      then [("discount"%string, count_nan (map OrderItem.discount df))]
      else []))
    (Some (map OrderItem.price df))
    (Some (map (fun i => of_int (OrderItem.quantity i)) df))
    (if has_discount then Some (map OrderItem.discount df) else None)
    None None.

(** The tables [process_data] reports on, in its order. *)
Definition report_tables (dfs : Dfs) : list (string * Frame.t) :=
  [("categories", categories_frame (categories dfs));
   ("products", products_frame (products dfs));
   ("customers", customers_frame (customers dfs));
   ("orders", orders_frame (orders dfs));
   ("order_items",
    order_items_frame (order_items_columns dfs) (order_items dfs))]%string.

(** [results['data']] of [process_data]. *)
Record Results : Type := mkResults {
  record_counts : list (string * Z);
  quality_metrics : list (string * DataQualityMetrics)
}.

(** The loop of [process_data] over the tables. *)
Fixpoint collect_metrics (pd : pandas) (now : Timestamp)
    (tables : list (string * Frame.t)) (results : Results) : result Results :=
  match tables with
  | [] => Ok results
  | (table_name, df) :: rest =>
      metrics <- check_data_quality pd now table_name df ;;
      collect_metrics pd now rest
        (mkResults
           (record_counts results ++
            [(table_name, Z.of_nat (Frame.height df))])
           (quality_metrics results ++ [(table_name, metrics)]))
  end.

Definition process_data (pd : pandas) (now : Timestamp)
    (to_sql_fails : string -> bool) (files : CsvFiles) : Action Results :=
  finally
    (dfs <~ run to_sql_fails pd files ;;
     pure (collect_metrics pd now (report_tables dfs) (mkResults [] [])))
    (fun log => log ++ [Dispose]).

(** ** The language of a regular expression *)

Inductive matches : regex -> string -> Prop :=
| MEps : matches Eps ""
| MChr (p : ascii -> bool) (c : ascii) :
    p c = true -> matches (Chr p) (String c "")
| MCat (r s : regex) (u v : string) :
    matches r u -> matches s v -> matches (Cat r s) (u ++ v)
| MAltL (r s : regex) (u : string) : matches r u -> matches (Alt r s) u
| MAltR (r s : regex) (u : string) : matches s u -> matches (Alt r s) u
| MStarNil (r : regex) : matches (Star r) ""
| MStarApp (r : regex) (u v : string) :
    matches r u -> matches (Star r) v -> matches (Star r) (u ++ v).

Fixpoint all_chars (p : ascii -> bool) (s : string) : bool :=
  match s with
  | EmptyString => true
  | String c s' => p c && all_chars p s'
  end.

Definition local_char (c : ascii) : bool :=
  is_letter c || is_digit c || one_of "._%+-" c.

Definition domain_char (c : ascii) : bool :=
  is_letter c || is_digit c || one_of ".-" c.

(** An address [local@domain.tld]: a non-empty local part and domain of the
    allowed characters and at least two letters after the last dot. *)
Definition well_formed_email (s : string) : Prop :=
  exists local domain tld : string,
    s = (local ++ "@" ++ domain ++ "." ++ tld)%string /\
    local <> ""%string /\ all_chars local_char local = true /\
    domain <> ""%string /\ all_chars domain_char domain = true /\
    (2 <= String.length tld)%nat /\ all_chars is_letter tld = true.

(** The row of a product after cleaning. *)
Definition clean_product (p : Product.t) : Product.t :=
  Product.mk (Product.product_id p) (Product.name p)
    (fillna_str "" (Product.description p))
    (Product.price p) (Product.cost p) (Product.category_id p)
    (Product.sku p)
    (fillna_float 0 (Product.weight p))
    (fillna_bool true (Product.is_active p)).

(** A product row without a null in the columns that cleaning fills. *)
Definition product_is_clean (p : Product.t) : Prop :=
  Product.description p <> None /\
  isnan (Product.weight p) = false /\
  Product.is_active p <> None.

(** The email of a customer as validation leaves it. *)
Definition validated_email (e : string) : option string :=
  if email_pattern_match e then Some e else None.

(** A customer row as validation leaves it. *)
Definition validate_customer (c : Customer.t) : Customer.t :=
  match Customer.email c with
  | Some e =>
      Customer.mk (Customer.customer_id c) (validated_email e)
        (Customer.first_name c) (Customer.last_name c)
  | None => c
  end.

(** The email of the row matches the validation pattern; a blank email
    matches nothing. *)
Definition has_valid_email (c : Customer.t) : bool :=
  match Customer.email c with
  | Some e => email_pattern_match e
  | None => false
  end.

(** The test of a string, and False for a null. *)
Definition test_or_false (test : string -> bool) (x : option string) : bool :=
  match x with
  | Some s => test s
  | None => false
  end.

(** The column has rows and a value in none of them. *)
Definition all_blank {A} (col : list (option A)) : bool :=
  match col with
  | [] => false
  | _ :: _ => forallb is_null col
  end.

(** ** More sample data *)

Module Sample2.
Local Open Scope string_scope.

(** Placed on 2024-01-05 and 2024-01-07, both at midnight. *)
Definition order3 : Order.t :=
  Order.mk 102 9 (Some (Sample.jan1 + 4 * ns_per_day)) (Some "Delivered")
    (Some "cash") (FNum 20).

Definition order4 : Order.t :=
  Order.mk 103 9 (Some (Sample.jan1 + 6 * ns_per_day)) (Some "In Transit")
    (Some "cash") (FNum 20).

Definition item4 : OrderItem.t :=
  OrderItem.mk 4 102 10 1 (FNum 10) (FNum 0) (FNum 10).

(** Two items of one order whose quantities add up to 2 ** 63. *)
Definition bulk_item1 : OrderItem.t :=
  OrderItem.mk 6 100 10 (2 ^ 63 - 1) (FNum 10) (FNum 0) (FNum 10).

Definition bulk_item2 : OrderItem.t :=
  OrderItem.mk 7 100 10 1 (FNum 10) (FNum 0) (FNum 10).

(** A delivered order whose order_date is blank in the file. *)
Definition undated_order : Order.t :=
  Order.mk 104 9 None (Some "Delivered") (Some "cash") (FNum 20).

(** An item of a product that is not in the product table. *)
Definition item5 : OrderItem.t :=
  OrderItem.mk 5 103 99 4 (FNum 10) (FNum 0) (FNum 40).


End Sample2.

(** The joined row is counted in the daily sales: its status is neither
    Cancelled nor Returned and it has an order date and a category. *)
Definition counted_in_daily_sales (r : Joined.t) : bool :=
  negb (cancelled_or_returned r) &&
  match Joined.order_date r, Joined.category_id r with
  | Some _, Some _ => true
  | _, _ => false
  end.

(** The sum of [weight] over all the rows of all the groups. *)
Definition groups_sum {K V} (weight : V -> Z) (gs : list (K * list V)) : Z :=
  Zsum (map (fun g => Zsum (map weight (snd g))) gs).


(** No row of the product table has the product_id of the item. *)
Definition without_product (products_df : list ProductE.t) (i : OrderItem.t)
  : Prop :=
  forall p, In p products_df -> product_matches i p = false.

(** The time of day of a timestamp, in nanoseconds since midnight. *)
Definition time_of_day (t : Timestamp) : Z := t mod ns_per_day.

(** The strict lexicographic order on the keys of the daily sales rows:
    by day, then by product, then by category. *)
Definition daily_key_lt (a b : DailyKey) : Prop :=
  let '(d1, p1, c1) := a in
  let '(d2, p2, c2) := b in
  d1 < d2 \/ (d1 = d2 /\ (p1 < p2 \/ (p1 = p2 /\ c1 < c2))).
(** * Facts about the DataFrame operations *)

Section GroupByFacts.
Context {K V : Type}.
Variable eqb : K -> K -> bool.
Variable leb : K -> K -> bool.
Hypothesis eqb_eq : forall a b, eqb a b = true <-> a = b.

Implicit Types (k : K) (v : V) (gs : list (K * list V)).

Lemma eqb_refl k : eqb k k = true.
Proof. now apply eqb_eq. Qed.


Lemma group_get_add k k' v gs :
  group_get eqb k (group_add eqb k' v gs) =
  if eqb k k' then group_get eqb k gs ++ [v] else group_get eqb k gs.
Proof.
  induction gs as [|[k0 vs] tl IH]; simpl.
  - now destruct (eqb k k').
  - destruct (eqb k' k0) eqn:E0; simpl.
    + apply eqb_eq in E0; subst k0. now destruct (eqb k k').
    + rewrite IH. destruct (eqb k k0) eqn:E1; [|reflexivity].
      apply eqb_eq in E1; subst k0.
      destruct (eqb k k') eqn:E2; [|reflexivity].
      apply eqb_eq in E2; subst k'. rewrite eqb_refl in E0. discriminate.
Qed.

Lemma keys_group_add k k' v gs :
  In k (map fst (group_add eqb k' v gs)) <-> k = k' \/ In k (map fst gs).
Proof.
  induction gs as [|[k0 vs] tl IH]; simpl.
  - intuition.
  - destruct (eqb k' k0) eqn:E0; simpl.
    + apply eqb_eq in E0; subst k0. intuition.
    + rewrite IH. intuition.
Qed.

Lemma NoDup_group_add k v gs :
  NoDup (map fst gs) -> NoDup (map fst (group_add eqb k v gs)).
Proof.
  induction gs as [|[k0 vs] tl IH]; simpl; intros ND.
  - constructor; [easy | constructor].
  - inversion ND as [|? ? Hnotin ND']; subst.
    destruct (eqb k k0) eqn:E0; simpl.
    + now constructor.
    + constructor; [|now apply IH].
      rewrite keys_group_add. intros [->|H]; [|contradiction].
      rewrite eqb_refl in E0. discriminate.
Qed.

Lemma group_get_In k g gs :
  NoDup (map fst gs) -> In (k, g) gs -> group_get eqb k gs = g.
Proof.
  induction gs as [|[k0 vs] tl IH]; simpl; intros ND HIn; [contradiction|].
  inversion ND as [|? ? Hnotin ND']; subst.
  destruct HIn as [H|H].
  - injection H as -> ->. now rewrite eqb_refl.
  - destruct (eqb k k0) eqn:E; [|now apply IH].
    apply eqb_eq in E; subst k0. exfalso. apply Hnotin.
    change k with (fst (k, g)). now apply in_map.
Qed.

Lemma In_group_get k gs :
  In k (map fst gs) -> In (k, group_get eqb k gs) gs.
Proof.
  induction gs as [|[k0 vs] tl IH]; simpl; [easy|].
  destruct (eqb k k0) eqn:E.
  - apply eqb_eq in E; subst k0. now left.
  - intros [H|H]; [subst k0; rewrite eqb_refl in E; discriminate|].
    right. now apply IH.
Qed.

Section Rows.
Variable key : V -> option K.

Lemma group_rows_snoc rows v :
  group_rows eqb key (rows ++ [v]) =
  match key v with
  | Some k => group_add eqb k v (group_rows eqb key rows)
  | None => group_rows eqb key rows
  end.
Proof. unfold group_rows. now rewrite fold_left_app. Qed.

Lemma group_rows_get k rows :
  group_get eqb k (group_rows eqb key rows) = filter (has_key eqb key k) rows.
Proof.
  induction rows as [|v rows IH] using rev_ind; [reflexivity|].
  rewrite group_rows_snoc, filter_app. simpl. unfold has_key at 2.
  destruct (key v) as [k'|].
  - rewrite group_get_add, IH. destruct (eqb k k'); [reflexivity|].
    now rewrite app_nil_r.
  - now rewrite IH, app_nil_r.
Qed.

Lemma group_rows_keys k rows :
  In k (map fst (group_rows eqb key rows)) <->
  exists v, In v rows /\ key v = Some k.
Proof.
  induction rows as [|v rows IH] using rev_ind.
  - simpl. split; [easy | now intros (v & [] & _)].
  - rewrite group_rows_snoc.
    assert (Hsnoc : forall P : Prop,
               (P <-> key v = Some k) ->
               ((P \/ exists w, In w rows /\ key w = Some k) <->
                exists w, In w (rows ++ [v]) /\ key w = Some k)).
    { intros P HP. split.
      - intros [H|(w & Hw & Hk)].
        + exists v. split; [apply in_or_app; right; now left | now apply HP].
        + exists w. split; [apply in_or_app; now left | easy].
      - intros (w & Hw & Hk). apply in_app_or in Hw as [Hw|[->|[]]].
        + right. now exists w.
        + left. now apply HP. }
    destruct (key v) as [k'|] eqn:Ek.
    + rewrite keys_group_add, IH. apply Hsnoc.
      split; [now intros -> | now intros [= ->]].
    + rewrite IH. rewrite <- (Hsnoc False); [tauto | easy].
Qed.

Lemma group_rows_NoDup rows : NoDup (map fst (group_rows eqb key rows)).
Proof.
  induction rows as [|v rows IH] using rev_ind; [constructor|].
  rewrite group_rows_snoc. destruct (key v); [|assumption].
  now apply NoDup_group_add.
Qed.
End Rows.

Lemma insert_group_perm (g : K * list V) gs :
  Permutation (insert_group leb g gs) (g :: gs).
Proof.
  induction gs as [|h tl IH]; simpl; [reflexivity|].
  destruct (leb (fst g) (fst h)); [reflexivity|].
  rewrite IH. apply perm_swap.
Qed.

Lemma sort_groups_perm gs : Permutation (sort_groups leb gs) gs.
Proof.
  induction gs as [|g tl IH]; simpl; [reflexivity|].
  rewrite insert_group_perm. now constructor.
Qed.

Lemma groupby_NoDup (key : V -> option K) rows :
  NoDup (map fst (groupby eqb leb key rows)).
Proof.
  unfold groupby.
  eapply Permutation_NoDup; [|apply (group_rows_NoDup key rows)].
  apply Permutation_map, Permutation_sym, sort_groups_perm.
Qed.

Lemma groupby_In (key : V -> option K) rows k g :
  In (k, g) (groupby eqb leb key rows) <->
  g = filter (has_key eqb key k) rows /\ g <> [].
Proof.
  unfold groupby.
  assert (Hperm : forall x, In x (sort_groups leb (group_rows eqb key rows)) <->
                            In x (group_rows eqb key rows)).
  { intros x. split; apply Permutation_in;
      [|apply Permutation_sym]; apply sort_groups_perm. }
  rewrite Hperm. split.
  - intros HIn.
    assert (Hg : g = filter (has_key eqb key k) rows).
    { rewrite <- group_rows_get.
      symmetry. apply group_get_In; [apply group_rows_NoDup | easy]. }
    split; [easy|]. subst g.
    assert (Hk : In k (map fst (group_rows eqb key rows))).
    { change k with (fst (k, filter (has_key eqb key k) rows)).
      now apply in_map. }
    apply group_rows_keys in Hk as (v & Hv & Ek).
    intros Hnil.
    assert (Hin : In v (filter (has_key eqb key k) rows)).
    { apply filter_In. split; [easy|]. unfold has_key.
      rewrite Ek. apply eqb_refl. }
    rewrite Hnil in Hin. contradiction.
  - intros [-> Hne]. rewrite <- group_rows_get.
    apply In_group_get. apply group_rows_keys.
    destruct (filter (has_key eqb key k) rows) as [|v tl] eqn:Ef; [easy|].
    assert (Hin : In v (filter (has_key eqb key k) rows))
      by (rewrite Ef; now left).
    apply filter_In in Hin as [Hv Hk]. exists v. split; [easy|].
    unfold has_key in Hk. destruct (key v) as [k'|]; [|discriminate].
    apply eqb_eq in Hk. now subst.
Qed.
End GroupByFacts.

Section MergeFacts.
Context {L R : Type}.
Variable on : L -> R -> bool.

Lemma find_filter (f : R -> bool) (right : list R) :
  find f right = hd_error (filter f right).
Proof.
  induction right as [|r tl IH]; simpl; [reflexivity|].
  now destruct (f r).
Qed.

Lemma merge_left_cons l (left : list L) (right : list R) :
  merge_left on (l :: left) right =
  match filter (on l) right with
  | [] => [(l, None)]
  | ms => map (fun r => (l, Some r)) ms
  end ++ merge_left on left right.
Proof. reflexivity. Qed.

(** When no left row has two matches, the merge keeps the left rows as they
    are and pairs each with its match, if any. *)
Lemma merge_left_functional (left : list L) (right : list R) :
  (forall l, In l left -> (List.length (filter (on l) right) <= 1)%nat) ->
  merge_left on left right = map (fun l => (l, find (on l) right)) left.
Proof.
  induction left as [|l tl IH]; intros H; [reflexivity|].
  rewrite merge_left_cons, IH by (intros; apply H; now right).
  simpl. rewrite find_filter.
  specialize (H l (or_introl eq_refl)).
  destruct (filter (on l) right) as [|r [|r' rs]]; simpl in *;
    [reflexivity | reflexivity | lia].
Qed.

Lemma merge_left_fst (left : list L) (right : list R) :
  (forall l, In l left -> (List.length (filter (on l) right) <= 1)%nat) ->
  map fst (merge_left on left right) = left.
Proof.
  intros H. rewrite merge_left_functional by assumption.
  rewrite map_map. simpl. apply map_id.
Qed.

Lemma merge_left_In l o (left : list L) (right : list R) :
  In (l, o) (merge_left on left right) <->
  In l left /\
  match o with
  | Some r => In r right /\ on l r = true
  | None => filter (on l) right = []
  end.
Proof.
  unfold merge_left. rewrite in_flat_map. split.
  - intros (l' & Hl' & HIn).
    destruct (filter (on l') right) as [|r0 rs] eqn:Ef.
    + destruct HIn as [[= <- <-]|[]]. now split.
    + apply in_map_iff in HIn as (r & [= <- <-] & Hr).
      split; [easy|]. rewrite <- Ef in Hr. now apply filter_In in Hr.
  - intros (Hl & Ho). exists l. split; [easy|]. destruct o as [r|].
    + assert (Hr : In r (filter (on l) right)) by now apply filter_In.
      destruct (filter (on l) right) as [|r0 rs]; [easy|].
      apply in_map_iff. now exists r.
    + rewrite Ho. now left.
Qed.
End MergeFacts.

(** A key occurs in at most one row of a table whose keys are all different. *)
Lemma unique_key_match {R : Type} (rkey : R -> Z) (k : Z) (right : list R) :
  NoDup (map rkey right) ->
  (List.length (filter (fun r => (k =? rkey r)%Z) right) <= 1)%nat.
Proof.
  induction right as [|r tl IH]; simpl; intros ND; [lia|].
  inversion ND as [|? ? Hnotin ND']; subst.
  destruct (k =? rkey r) eqn:E; [|now apply IH].
  apply Z.eqb_eq in E. subst k.
  assert (Hnil : filter (fun r0 => rkey r =? rkey r0) tl = []).
  { destruct (filter (fun r0 => rkey r =? rkey r0) tl) as [|r1 rs] eqn:Ef;
      [reflexivity|].
    assert (H1 : In r1 (filter (fun r0 => rkey r =? rkey r0) tl))
      by (rewrite Ef; now left).
    apply filter_In in H1 as [H1 H2]. apply Z.eqb_eq in H2.
    exfalso. apply Hnotin. rewrite H2. now apply in_map. }
  simpl. rewrite Hnil. simpl. lia.
Qed.

(** * Step 1 and step 2 keep the rows they enrich *)

Lemma category_match_unique (categories_df : list Category.t) (p : Product.t) :
  NoDup (map Category.category_id categories_df) ->
  (List.length (filter (category_matches p) categories_df) <= 1)%nat.
Proof.
  intros ND. unfold category_matches.
  destruct (Product.category_id p) as [k|].
  - now apply (unique_key_match Category.category_id k).
  - induction categories_df as [|c tl IH]; simpl; [lia|].
    apply IH. now inversion ND.
Qed.

Lemma transform_product_data_base products_df categories_df :
  NoDup (map Category.category_id categories_df) ->
  map ProductE.base (transform_product_data products_df categories_df)
  = products_df.
Proof.
  intros ND. unfold transform_product_data.
  rewrite merge_left_functional
    by (intros; now apply category_match_unique).
  rewrite !map_map. simpl. apply map_id.
Qed.

Lemma order_metrics_keys rows :
  NoDup (map OrderMetrics.order_id (order_metrics rows)).
Proof.
  unfold order_metrics. rewrite map_map.
  erewrite map_ext; [apply (groupby_NoDup Z.eqb Z.leb Z.eqb_eq)|].
  now intros [k g].
Qed.

Lemma metrics_match_unique (o : Order.t) rows :
  (List.length (filter (metrics_match o) (order_metrics rows)) <= 1)%nat.
Proof.
  apply (unique_key_match OrderMetrics.order_id (Order.order_id o)).
  apply order_metrics_keys.
Qed.

Lemma calculate_order_revenue_base orders_df items_df products_df :
  map OrderE.base (calculate_order_revenue orders_df items_df products_df)
  = orders_df.
Proof.
  unfold calculate_order_revenue.
  rewrite merge_left_functional by (intros; apply metrics_match_unique).
  rewrite !map_map. rewrite <- (map_id orders_df) at 2.
  apply map_ext. intros o. now destruct (find _ _).
Qed.

Lemma generate_time_dimension_ok (orders_df : list OrderE.t) :
  order_dates orders_df <> [] ->
  exists dim, generate_time_dimension orders_df = Ok dim.
Proof.
  intros H. unfold generate_time_dimension.
  destruct (order_dates orders_df) as [|d tl]; [contradiction|]. simpl. eauto.
Qed.

Lemma In_dropna {A} (col : list (option A)) (a : A) :
  In a (dropna col) <-> In (Some a) col.
Proof.
  unfold dropna. rewrite in_flat_map. split.
  - intros ([b|] & HIn & Hb); simpl in Hb; [|contradiction].
    destruct Hb as [->|[]]. exact HIn.
  - intros H. exists (Some a). split; [exact H | now left].
Qed.

Lemma order_dates_revenue orders_df items_df products_df :
  order_dates (calculate_order_revenue orders_df items_df products_df)
  = dropna (map Order.order_date orders_df).
Proof.
  unfold order_dates, OrderE.order_date.
  rewrite <- (map_map OrderE.base Order.order_date).
  now rewrite calculate_order_revenue_base.
Qed.

(** Some order has an order date. *)
Lemma dated_order_dates (orders_df : list Order.t) :
  (exists o, In o orders_df /\ Order.order_date o <> None) ->
  dropna (map Order.order_date orders_df) <> [].
Proof.
  intros (o & HIn & Hd) E.
  destruct (Order.order_date o) as [d|] eqn:Ed; [|now elim Hd].
  assert (H : In d (dropna (map Order.order_date orders_df))).
  { apply In_dropna. rewrite <- Ed. now apply in_map. }
  rewrite E in H. contradiction.
Qed.

Lemma transform_ok (x : Extracted) :
  has_column (x_products_columns x) "cost" = true ->
  (exists o, In o (x_orders x) /\ Order.order_date o <> None) ->
  exists dfs, transform x = Ok dfs.
Proof.
  intros Hcost H. unfold transform, require_column. rewrite Hcost. simpl.
  destruct (generate_time_dimension_ok
              (calculate_order_revenue (x_orders x) (x_order_items x)
                 (transform_product_data (x_products x) (x_categories x))))
    as [dim Hdim].
  - rewrite order_dates_revenue. now apply dated_order_dates.
  - rewrite Hdim. simpl. eauto.
Qed.

(** * Daily sales and the snapshots it reads *)

(** C8, as amended.  Step 4 reads [self.dfs['orders']] and
    [self.dfs['products']] as steps 2 and 1 left them, that is the enriched
    tables.  It selects only the columns order_id, order_date, status and
    product_id, category_id of them, so whenever no two rows of the category
    table share a category_id the daily sales table of a run equals the
    aggregation computed from the validated tables as extraction left them;
    and a run over products that have a cost column and at least one order
    that has an order date does produce its tables. *)
Theorem daily_sales_reads_enriched_tables (x : Extracted) :
  NoDup (map Category.category_id (x_categories x)) ->
  (forall dfs, transform x = Ok dfs ->
     daily_sales dfs
     = aggregate_daily_sales (orders dfs) (order_items dfs) (products dfs) /\
     daily_sales dfs
     = daily_sales_of_raw (x_orders x) (x_order_items x) (x_products x)) /\
  (has_column (x_products_columns x) "cost" = true ->
   (exists o, In o (x_orders x) /\ Order.order_date o <> None) ->
   exists dfs, transform x = Ok dfs).
Proof.
  intros ND. split; [|apply transform_ok].
  intros dfs H. unfold transform in H.
  destruct (require_column _ _); simpl in H; [|discriminate].
  destruct (generate_time_dimension _) as [dim|e]; simpl in H; [|discriminate].
  injection H as <-. simpl. split; [reflexivity|].
  unfold aggregate_daily_sales, daily_sales_of_raw.
  unfold OrderCols.select, ProductCols.select.
  rewrite <- (map_map OrderE.base OrderCols.of_order).
  rewrite <- (map_map ProductE.base ProductCols.of_product).
  rewrite calculate_order_revenue_base.
  now rewrite transform_product_data_base.
Qed.

(** * Daily sales aggregation *)

Lemma daily_key_eqb_eq (a b : DailyKey) : daily_key_eqb a b = true <-> a = b.
Proof.
  destruct a as [[d1 p1] c1], b as [[d2 p2] c2]. unfold daily_key_eqb.
  rewrite !andb_true_iff, !Z.eqb_eq. split.
  - intros [[-> ->] ->]. reflexivity.
  - intros [= -> -> ->]. auto.
Qed.

Lemma filter_twice {A} (f g : A -> bool) (l : list A) :
  filter f (filter g l) = filter (fun x => g x && f x) l.
Proof.
  induction l as [|a l IH]; simpl; [reflexivity|].
  destruct (g a); simpl; [|assumption].
  destruct (f a); now rewrite IH.
Qed.

Lemma filter_swap {A} (f g : A -> bool) (l : list A) :
  filter f (filter g l) = filter g (filter f l).
Proof.
  rewrite !filter_twice. apply filter_ext. intros a. apply andb_comm.
Qed.

Lemma not_cancelled_spec (r : Joined.t) :
  not_cancelled r = negb (cancelled_or_returned r).
Proof.
  unfold not_cancelled, cancelled_or_returned, isin.
  destruct (Joined.status r); simpl; [|reflexivity].
  now rewrite orb_false_r.
Qed.

Lemma has_key_daily (k : DailyKey) (r : Joined.t) :
  has_key daily_key_eqb daily_key k r = in_daily_group k r.
Proof.
  destruct k as [[d p] c]. unfold has_key, daily_key, in_daily_group.
  destruct (Joined.order_date r) as [t|]; [|reflexivity].
  destruct (Joined.category_id r) as [c'|]; [|reflexivity].
  simpl. now rewrite (Z.eqb_sym d), (Z.eqb_sym p), (Z.eqb_sym c).
Qed.

Lemma daily_group_filter (joined : list Joined.t) (k : DailyKey) :
  filter (has_key daily_key_eqb daily_key k) (filter not_cancelled joined)
  = daily_group joined k.
Proof.
  rewrite filter_twice. apply filter_ext. intros r.
  now rewrite not_cancelled_spec, has_key_daily.
Qed.

Lemma nunique_distinct (l : list Z) : is_distinct_count l (nunique l).
Proof.
  exists (nodup Z.eq_dec l). split; [apply NoDup_nodup|].
  split; [intros x; apply nodup_In | reflexivity].
Qed.

Lemma daily_sales_key_row (k : DailyKey) (g : list Joined.t) :
  daily_sales_key (daily_row k g) = k.
Proof. now destruct k as [[d p] c]. Qed.

Lemma daily_sales_rows orders items_df products row :
  In row (daily_sales_from orders items_df products) <->
  let g := daily_group (joined_items orders items_df products)
             (daily_sales_key row) in
  g <> [] /\ row = daily_row (daily_sales_key row) g.
Proof.
  unfold daily_sales_from. rewrite in_map_iff. split.
  - intros ([k g] & <- & HIn).
    apply (groupby_In _ _ daily_key_eqb_eq) in HIn as [Hg Hne].
    rewrite daily_group_filter in Hg. rewrite daily_sales_key_row.
    simpl. now subst g.
  - simpl. intros [Hne Hrow].
    exists (daily_sales_key row,
            daily_group (joined_items orders items_df products)
              (daily_sales_key row)).
    split; [now symmetry|].
    apply (groupby_In _ _ daily_key_eqb_eq).
    now rewrite daily_group_filter.
Qed.

Lemma daily_sales_keys_NoDup orders items_df products :
  NoDup (map daily_sales_key (daily_sales_from orders items_df products)).
Proof.
  unfold daily_sales_from. rewrite map_map.
  erewrite map_ext;
    [apply (groupby_NoDup daily_key_eqb daily_key_leb daily_key_eqb_eq)|].
  intros [k g]. apply daily_sales_key_row.
Qed.

(** ** The joined rows, item by item *)

Lemma flat_map_nil {A B} (f : A -> list B) (l : list A) :
  (forall x, In x l -> f x = []) -> flat_map f l = [].
Proof.
  induction l as [|x l IH]; simpl; intros H; [reflexivity|].
  rewrite (H x) by now left. simpl. apply IH. intros y Hy. apply H. now right.
Qed.

Lemma flat_map_of_filter {A B} (p : A -> bool) (f : A -> list B) (l : list A) :
  flat_map f (filter p l) = flat_map (fun x => if p x then f x else []) l.
Proof.
  induction l as [|x l IH]; simpl; [reflexivity|].
  destruct (p x); simpl; now rewrite IH.
Qed.

Lemma flat_map_of_map {A B C} (g : A -> B) (f : B -> list C) (l : list A) :
  flat_map f (map g l) = flat_map (fun x => f (g x)) l.
Proof.
  induction l as [|x l IH]; simpl; [reflexivity|]. now rewrite IH.
Qed.

Lemma flat_map_of_flat_map {A B C} (g : A -> list B) (f : B -> list C)
    (l : list A) :
  flat_map f (flat_map g l) = flat_map (fun x => flat_map f (g x)) l.
Proof.
  induction l as [|x l IH]; simpl; [reflexivity|].
  now rewrite flat_map_app, IH.
Qed.

Lemma map_filter_map {A B C} (h : A -> B) (p : B -> bool) (f : B -> C)
    (l : list A) :
  map f (filter p (map h l))
  = flat_map (fun x => if p (h x) then [f (h x)] else []) l.
Proof.
  induction l as [|x l IH]; simpl; [reflexivity|].
  destruct (p (h x)); simpl; now rewrite IH.
Qed.

(** The rows a left merge gives one left row, followed by a step [F] that
    drops the row without a match: [F] on every match. *)
Lemma merge_left_matches {L R C} (on : L -> R -> bool) (F : L * option R -> list C)
    (l : L) (right : list R) :
  F (l, None) = [] ->
  flat_map F
    (match filter (on l) right with
     | [] => [(l, None)]
     | ms => map (fun r => (l, Some r)) ms
     end)
  = flat_map (fun r => if on l r then F (l, Some r) else []) right.
Proof.
  intros HF. rewrite <- flat_map_of_filter.
  destruct (filter (on l) right) as [|r ms]; simpl.
  - now rewrite HF.
  - now rewrite flat_map_of_map.
Qed.

Lemma daily_group_items
    (orders_df : list OrderE.t) (items_df : list OrderItem.t)
    (products_df : list ProductE.t) (k : DailyKey) :
  map Joined.item
    (daily_group
       (joined_items (map OrderCols.select orders_df) items_df
          (map ProductCols.select products_df)) k)
  = sold_on k orders_df items_df products_df.
Proof.
  destruct k as [[d p] c].
  unfold daily_group, joined_items, sold_on, merge_left.
  rewrite map_filter_map, flat_map_of_flat_map, flat_map_of_flat_map.
  apply flat_map_ext. intros i.
  rewrite (merge_left_matches on_order_id
             (fun io =>
                flat_map
                  (fun x =>
                     if negb (cancelled_or_returned (joined_row x)) &&
                        in_daily_group (d, p, c) (joined_row x)
                     then [Joined.item (joined_row x)] else [])
                  match filter (on_product_id io)
                          (map ProductCols.select products_df) with
                  | [] => [(io, None)]
                  | ms => map (fun r => (io, Some r)) ms
                  end)).
  2:{ destruct (filter _ _); simpl; rewrite ?andb_false_r; try reflexivity.
      rewrite flat_map_of_map. apply flat_map_nil. intros x _. simpl.
      now rewrite ?andb_false_r. }
  rewrite flat_map_of_map. apply flat_map_ext. intros o.
  unfold on_order_id at 1. unfold OrderCols.select, OrderCols.of_order.
  simpl. fold (OrderE.order_id o).
  destruct (OrderItem.order_id i =? OrderE.order_id o) eqn:Eo; simpl.
  2:{ symmetry. apply flat_map_nil. reflexivity. }
  rewrite (merge_left_matches on_product_id
             (fun x =>
                if negb (cancelled_or_returned (joined_row x)) &&
                   in_daily_group (d, p, c) (joined_row x)
                then [Joined.item (joined_row x)] else [])).
  2:{ simpl. destruct (Order.order_date (OrderE.base o));
      now rewrite andb_false_r. }
  rewrite flat_map_of_map. apply flat_map_ext. intros pr.
  unfold on_product_id, ProductCols.select, ProductCols.of_product.
  unfold cancelled_or_returned, in_daily_group, Joined.product_id.
  simpl. fold (ProductE.product_id pr) (ProductE.category_id pr)
    (OrderE.status o) (OrderE.order_date o).
  destruct (OrderItem.product_id i =? ProductE.product_id pr); simpl;
    [|now rewrite !andb_false_r].
  destruct (OrderE.status o) as [st|], (OrderE.order_date o) as [t|],
    (ProductE.category_id pr) as [c'|]; simpl;
    rewrite ?andb_false_r, ?andb_true_r, ?andb_assoc; reflexivity.
Qed.


Lemma wrap64_int64_sum (l : list Z) : is_int64_sum l (int64_sum l).
Proof.
  unfold is_int64_sum, int64_sum, wrap64.
  pose proof (Z.mod_pos_bound (Zsum l + 2 ^ 63) (2 ^ 64) eq_refl) as Hb.
  split; [lia|].
  exists (- ((Zsum l + 2 ^ 63) / 2 ^ 64)).
  pose proof (Z.div_mod (Zsum l + 2 ^ 63) (2 ^ 64)) as Hd. lia.
Qed.

Lemma wrap64_in_range (z : Z) : - 2 ^ 63 <= z < 2 ^ 63 -> wrap64 z = z.
Proof.
  intros H. unfold wrap64. rewrite Z.mod_small; lia.
Qed.

(** C1, as amended.  The daily sales table has exactly one row for every key
    (calendar day, product_id, category_id) for which some order item of
    that product is matched, by its order_id, to an order dated on that day
    whose status is neither Cancelled nor Returned and, by its product_id, to
    a row of the product table in that category; no item counts through an
    order that is Cancelled or Returned.  With [sold] those items of the key,
    each as often as it is matched: units_sold is the sum of their quantity
    values in int64 arithmetic, which is their sum when that is in the int64
    range; revenue is the sum of their total values, order_count the number
    of their distinct order_id values, and avg_unit_price is revenue divided
    by units_sold. *)
Theorem daily_sales_groups_and_sums
    (orders_df : list OrderE.t) (items_df : list OrderItem.t)
    (products_df : list ProductE.t) :
  let daily := aggregate_daily_sales orders_df items_df products_df in
  NoDup (map daily_sales_key daily) /\
  (forall k, In k (map daily_sales_key daily) <->
             sold_on k orders_df items_df products_df <> []) /\
  (forall row, In row daily ->
     let sold := sold_on (daily_sales_key row) orders_df items_df products_df in
     let quantities := map OrderItem.quantity sold in
     is_int64_sum quantities (DailySales.units_sold row) /\
     (- 2 ^ 63 <= Zsum quantities < 2 ^ 63 ->
      DailySales.units_sold row = Zsum quantities) /\
     DailySales.revenue row = fsum (map OrderItem.total sold) /\
     is_distinct_count (map OrderItem.order_id sold)
       (DailySales.order_count row) /\
     DailySales.avg_unit_price row
     = fdiv (DailySales.revenue row) (of_int (DailySales.units_sold row))).
Proof.
  intros daily. unfold daily, aggregate_daily_sales.
  set (joined := joined_items (map OrderCols.select orders_df) items_df
                   (map ProductCols.select products_df)).
  assert (Hsold : forall k, map Joined.item (daily_group joined k)
                            = sold_on k orders_df items_df products_df)
    by (intros k; apply daily_group_items).
  split; [apply daily_sales_keys_NoDup|].
  split.
  - intros k. rewrite <- Hsold, in_map_iff. split.
    + intros (row & <- & HIn). apply daily_sales_rows in HIn as [Hne _].
      fold joined in Hne. intros E. apply map_eq_nil in E. contradiction.
    + intros Hne.
      exists (daily_row k (daily_group joined k)).
      split; [apply daily_sales_key_row|].
      apply daily_sales_rows. rewrite daily_sales_key_row. fold joined.
      simpl. split; [|reflexivity].
      intros Hnil. rewrite Hnil in Hne. now elim Hne.
  - intros row HIn. apply daily_sales_rows in HIn as [_ Hrow].
    fold joined in Hrow. cbv zeta. rewrite <- Hsold.
    set (g := daily_group joined (daily_sales_key row)) in *.
    rewrite !map_map.
    change (fun x => OrderItem.quantity (Joined.item x)) with Joined.quantity.
    change (fun x => OrderItem.total (Joined.item x)) with Joined.total.
    change (fun x => OrderItem.order_id (Joined.item x)) with Joined.order_id.
    destruct (daily_sales_key row) as [[d p] c].
    rewrite Hrow. simpl.
    split; [apply wrap64_int64_sum|].
    split; [apply wrap64_in_range|].
    split; [reflexivity|].
    split; [apply nunique_distinct | reflexivity].
Qed.

(** * Order items without an order or a product *)

Lemma group_rows_ignores_null {K V} (eqb : K -> K -> bool)
    (key : V -> option K) (keep : V -> bool) (rows : list V) :
  (forall v, In v rows -> keep v = false -> key v = None) ->
  group_rows eqb key (filter keep rows) = group_rows eqb key rows.
Proof.
  unfold group_rows. generalize (@nil (K * list V)).
  induction rows as [|v rows IH]; intros acc H; [reflexivity|].
  simpl. destruct (keep v) eqn:Ek; simpl.
  - apply IH. intros; apply H; [now right | easy].
  - rewrite (H v (or_introl eq_refl) Ek).
    apply IH. intros; apply H; [now right | easy].
Qed.

Lemma filter_map_swap {A B} (f : A -> B) (p : B -> bool) (l : list A) :
  filter p (map f l) = map f (filter (fun a => p (f a)) l).
Proof.
  induction l as [|a l IH]; simpl; [reflexivity|].
  destruct (p (f a)); simpl; now rewrite IH.
Qed.

Lemma merge_left_filter {L R} (on : L -> R -> bool) (keep : L -> bool)
    (left : list L) (right : list R) :
  merge_left on (filter keep left) right
  = filter (fun x => keep (fst x)) (merge_left on left right).
Proof.
  induction left as [|l tl IH]; [reflexivity|].
  rewrite merge_left_cons, filter_app, <- IH. simpl.
  assert (Hblock : forall ms : list (L * option R),
             (forall x, In x ms -> fst x = l) ->
             filter (fun x => keep (fst x)) ms = if keep l then ms else []).
  { induction ms as [|m ms IHm]; intros Hm; simpl.
    - now destruct (keep l).
    - rewrite (Hm m (or_introl eq_refl)).
      rewrite IHm by (intros; apply Hm; now right).
      now destruct (keep l). }
  rewrite Hblock.
  - destruct (keep l); [apply merge_left_cons | reflexivity].
  - intros x Hx. destruct (filter (on l) right) as [|r0 rs].
    + destruct Hx as [<-|[]]. reflexivity.
    + change (In x (map (fun r => (l, Some r)) (r0 :: rs))) in Hx.
      apply in_map_iff in Hx as (r & <- & _). reflexivity.
Qed.

Lemma joined_items_filter orders items_df products (keep : OrderItem.t -> bool) :
  joined_items orders (filter keep items_df) products
  = filter (fun r => keep (Joined.item r)) (joined_items orders items_df products).
Proof.
  unfold joined_items.
  rewrite merge_left_filter.
  rewrite (merge_left_filter on_product_id (fun x => keep (fst x))).
  rewrite filter_map_swap. f_equal. apply filter_ext.
  now intros [[i o] p].
Qed.

(** A joined row with a grouping key comes from an item that found an order
    and a product with a category. *)
Lemma joined_key_matched orders items_df products r k :
  In r (joined_items orders items_df products) ->
  daily_key r = Some k ->
  has_order orders (Joined.item r) = true /\
  has_categorised_product products (Joined.item r) = true.
Proof.
  unfold joined_items. rewrite in_map_iff.
  intros ([[i o] p] & <- & HIn) Hk.
  apply merge_left_In in HIn as [HIn Hp].
  apply merge_left_In in HIn as [_ Ho].
  unfold daily_key in Hk. simpl in *.
  destruct o as [o|]; simpl in Hk; [|discriminate].
  destruct (OrderCols.order_date o) as [t|]; [|discriminate].
  destruct p as [p|]; [|discriminate].
  destruct (ProductCols.category_id p) as [c|] eqn:Ec; [|discriminate].
  split.
  - apply existsb_exists. exists o. tauto.
  - apply existsb_exists. exists p. split; [tauto|].
    unfold on_product_id in Hp. simpl in Hp.
    destruct Hp as [_ ->]. now rewrite Ec.
Qed.

Lemma has_categorised_product_has_product products i :
  has_categorised_product products i = true -> has_product products i = true.
Proof.
  unfold has_categorised_product, has_product. rewrite !existsb_exists.
  intros (p & Hp & Hb). apply andb_true_iff in Hb as [Hb _]. now exists p.
Qed.

Lemma daily_sales_from_filter orders items_df products
    (keep : OrderItem.t -> bool) :
  (forall i, has_order orders i = true ->
             has_categorised_product products i = true -> keep i = true) ->
  daily_sales_from orders (filter keep items_df) products
  = daily_sales_from orders items_df products.
Proof.
  intros Hkeep. unfold daily_sales_from, groupby.
  rewrite joined_items_filter, filter_swap.
  rewrite group_rows_ignores_null; [reflexivity|].
  intros r Hr Hk. apply filter_In in Hr as [Hr _].
  destruct (daily_key r) as [k|] eqn:Ek; [|reflexivity].
  destruct (joined_key_matched _ _ _ _ _ Hr Ek) as [H1 H2].
  rewrite (Hkeep _ H1 H2) in Hk. discriminate.
Qed.

(** C10.  An order item whose order_id matches no order, or whose product_id
    matches no product, gets a null order_date or a null category_id in the
    left joins, so each of its joined rows has a null grouping key; the
    aggregation raises nothing and its result is the one it gives when all
    such items are removed from the order items first: they are dropped. *)
Theorem unmatched_items_are_dropped
    (orders_df : list OrderE.t) (items_df : list OrderItem.t)
    (products_df : list ProductE.t) :
  let orders := map OrderCols.select orders_df in
  let products := map ProductCols.select products_df in
  let matched i := has_order orders i && has_product products i in
  (forall r, In r (joined_items orders items_df products) ->
             matched (Joined.item r) = false ->
             (Joined.order_date r = None \/ Joined.category_id r = None) /\
             daily_key r = None) /\
  aggregate_daily_sales orders_df (filter matched items_df) products_df
  = aggregate_daily_sales orders_df items_df products_df.
Proof.
  intros orders products matched. split.
  - intros r Hr Hm.
    assert (Hnone : daily_key r = None).
    { destruct (daily_key r) as [k|] eqn:Ek; [|reflexivity].
      destruct (joined_key_matched _ _ _ _ _ Hr Ek) as [H1 H2].
      apply has_categorised_product_has_product in H2.
      unfold matched in Hm. rewrite H1, H2 in Hm. discriminate. }
    split; [|assumption].
    unfold daily_key in Hnone.
    destruct (Joined.order_date r); [|now left].
    destruct (Joined.category_id r); [discriminate | now right].
  - unfold aggregate_daily_sales. apply daily_sales_from_filter.
    intros i H1 H2. apply has_categorised_product_has_product in H2.
    unfold matched, orders, products. now rewrite H1, H2.
Qed.

(** * Order revenue *)



Lemma order_metrics_In rows m :
  In m (order_metrics rows) <->
  order_rows rows (OrderMetrics.order_id m) <> [] /\
  m = metrics_of (OrderMetrics.order_id m)
        (order_rows rows (OrderMetrics.order_id m)).
Proof.
  assert (Hrows : forall k,
             filter (has_key Z.eqb (fun r => Some (ItemWithProduct.order_id r)) k)
               rows = order_rows rows k).
  { intros k. apply filter_ext. intros r. unfold has_key. apply Z.eqb_sym. }
  unfold order_metrics. rewrite in_map_iff. split.
  - intros ([k g] & <- & HIn).
    apply (groupby_In _ _ Z.eqb_eq) in HIn as [Hg Hne].
    rewrite Hrows in Hg. simpl. now subst g.
  - intros [Hne Hm].
    exists (OrderMetrics.order_id m, order_rows rows (OrderMetrics.order_id m)).
    split; [now symmetry|].
    apply (groupby_In _ _ Z.eqb_eq). now rewrite Hrows.
Qed.

Lemma find_order_metrics rows (o : Order.t) :
  match find (metrics_match o) (order_metrics rows) with
  | Some m => order_rows rows (Order.order_id o) <> [] /\
              m = metrics_of (Order.order_id o)
                    (order_rows rows (Order.order_id o))
  | None => order_rows rows (Order.order_id o) = []
  end.
Proof.
  destruct (find _ _) as [m|] eqn:Ef.
  - apply find_some in Ef as [HIn Hm].
    apply Z.eqb_eq in Hm. apply order_metrics_In in HIn.
    now rewrite <- Hm in HIn.
  - destruct (order_rows rows (Order.order_id o)) as [|r tl] eqn:Eg;
      [reflexivity|].
    exfalso.
    assert (HIn : In (metrics_of (Order.order_id o)
                        (order_rows rows (Order.order_id o)))
                     (order_metrics rows)).
    { apply order_metrics_In. simpl. rewrite Eg. split; [easy|reflexivity]. }
    apply (find_none _ _ Ef) in HIn.
    unfold metrics_match in HIn. simpl in HIn.
    rewrite Z.eqb_refl in HIn. discriminate.
Qed.



(** * Customer metrics *)

Lemma fold_min_spec (tl : list Z) (x : Z) :
  is_minimum (fold_left Z.min tl x) (x :: tl).
Proof.
  revert x. induction tl as [|y tl IH]; intros x; simpl.
  - split; [now left | intros z [<-|[]]; lia].
  - destruct (IH (Z.min x y)) as [HIn Hle]. split.
    + destruct HIn as [H|H]; [|right; now right].
      rewrite <- H. destruct (Z.min_spec x y) as [[_ ->]|[_ ->]];
        [now left | right; now left].
    + intros z [<-|[<-|Hz]].
      * specialize (Hle (Z.min x y) (or_introl eq_refl)). lia.
      * specialize (Hle (Z.min x y) (or_introl eq_refl)). lia.
      * apply Hle. now right.
Qed.

Lemma fold_max_spec (tl : list Z) (x : Z) :
  is_maximum (fold_left Z.max tl x) (x :: tl).
Proof.
  revert x. induction tl as [|y tl IH]; intros x; simpl.
  - split; [now left | intros z [<-|[]]; lia].
  - destruct (IH (Z.max x y)) as [HIn Hle]. split.
    + destruct HIn as [H|H]; [|right; now right].
      rewrite <- H. destruct (Z.max_spec x y) as [[_ ->]|[_ ->]];
        [right; now left | now left].
    + intros z [<-|[<-|Hz]].
      * specialize (Hle (Z.max x y) (or_introl eq_refl)). lia.
      * specialize (Hle (Z.max x y) (or_introl eq_refl)). lia.
      * apply Hle. now right.
Qed.

Lemma ts_min_spec (l : list Timestamp) :
  l <> [] -> exists m, ts_min l = Some m /\ is_minimum m l.
Proof.
  destruct l as [|x tl]; [easy|]. intros _.
  exists (fold_left Z.min tl x). split; [reflexivity | apply fold_min_spec].
Qed.

Lemma ts_max_spec (l : list Timestamp) :
  l <> [] -> exists m, ts_max l = Some m /\ is_maximum m l.
Proof.
  destruct l as [|x tl]; [easy|]. intros _.
  exists (fold_left Z.max tl x). split; [reflexivity | apply fold_max_spec].
Qed.

Lemma qualifying_spec (o : OrderE.t) :
  qualifying o = delivered_or_under_way o.
Proof.
  unfold qualifying, delivered_or_under_way, isin.
  destruct (OrderE.status o); simpl; [|reflexivity].
  now rewrite orb_false_r, orb_assoc.
Qed.

Lemma customer_metrics_In orders_df m :
  In m (customer_metrics orders_df) <->
  qualifying_orders orders_df (CustomerMetrics.customer_id m) <> [] /\
  m = customer_metrics_of (CustomerMetrics.customer_id m)
        (qualifying_orders orders_df (CustomerMetrics.customer_id m)).
Proof.
  assert (Hrows : forall k,
             filter (has_key Z.eqb (fun o => Some (OrderE.customer_id o)) k)
               (filter qualifying orders_df) = qualifying_orders orders_df k).
  { intros k. rewrite filter_twice. apply filter_ext. intros o.
    unfold has_key. now rewrite qualifying_spec, Z.eqb_sym. }
  unfold customer_metrics. rewrite in_map_iff. split.
  - intros ([k g] & <- & HIn).
    apply (groupby_In _ _ Z.eqb_eq) in HIn as [Hg Hne].
    rewrite Hrows in Hg. simpl. now subst g.
  - intros [Hne Hm].
    exists (CustomerMetrics.customer_id m,
            qualifying_orders orders_df (CustomerMetrics.customer_id m)).
    split; [now symmetry|].
    apply (groupby_In _ _ Z.eqb_eq). now rewrite Hrows.
Qed.

Lemma customer_metrics_keys orders_df :
  NoDup (map CustomerMetrics.customer_id (customer_metrics orders_df)).
Proof.
  unfold customer_metrics. rewrite map_map.
  erewrite map_ext; [apply (groupby_NoDup Z.eqb Z.leb Z.eqb_eq)|].
  now intros [k g].
Qed.

Lemma customer_match_unique (c : Customer.t) orders_df :
  (List.length (filter (customer_matches c) (customer_metrics orders_df)) <= 1)%nat.
Proof.
  apply (unique_key_match CustomerMetrics.customer_id (Customer.customer_id c)).
  apply customer_metrics_keys.
Qed.

Lemma find_customer_metrics orders_df (c : Customer.t) :
  match find (customer_matches c) (customer_metrics orders_df) with
  | Some m => qualifying_orders orders_df (Customer.customer_id c) <> [] /\
              m = customer_metrics_of (Customer.customer_id c)
                    (qualifying_orders orders_df (Customer.customer_id c))
  | None => qualifying_orders orders_df (Customer.customer_id c) = []
  end.
Proof.
  destruct (find _ _) as [m|] eqn:Ef.
  - apply find_some in Ef as [HIn Hm].
    apply Z.eqb_eq in Hm. apply customer_metrics_In in HIn.
    now rewrite <- Hm in HIn.
  - destruct (qualifying_orders orders_df (Customer.customer_id c))
      as [|r tl] eqn:Eg; [reflexivity|].
    exfalso.
    assert (HIn : In (customer_metrics_of (Customer.customer_id c)
                        (qualifying_orders orders_df (Customer.customer_id c)))
                     (customer_metrics orders_df)).
    { apply customer_metrics_In. simpl. rewrite Eg. split; [easy|reflexivity]. }
    apply (find_none _ _ Ef) in HIn.
    unfold customer_matches in HIn. simpl in HIn.
    rewrite Z.eqb_refl in HIn. discriminate.
Qed.

Lemma enrich_customer_data_base customers_df orders_df :
  map CustomerE.base (enrich_customer_data customers_df orders_df)
  = customers_df.
Proof.
  unfold enrich_customer_data.
  rewrite merge_left_functional by (intros; apply customer_match_unique).
  rewrite !map_map. rewrite <- (map_id customers_df) at 2.
  apply map_ext. intros c. now destruct (find _ _).
Qed.

(** C7, as amended.  Enrichment keeps the customers as they are, row by row.
    For a customer with at least one order whose status is Delivered,
    In Transit or Shipped, with [q] those orders: total_orders is their
    number, lifetime_value the sum of their totals and average_order_value is
    lifetime_value / total_orders.  When at least one of them has an order
    date, first_order_date and last_order_date are the least and the greatest
    of the order dates they have and days_between_orders is the whole days
    from the first to the last divided by total_orders, which is 0 for a
    customer with one such order; when none of them has an order date, both
    dates are null and days_between_orders is NaN.  For a customer with no
    such order, total_orders, lifetime_value, both dates,
    average_order_value and days_between_orders are null. *)
Theorem customer_metrics_of_qualifying_orders
    (customers_df : list Customer.t) (orders_df : list OrderE.t) :
  let customers := enrich_customer_data customers_df orders_df in
  map CustomerE.base customers = customers_df /\
  forall c, In c customers ->
    let q := qualifying_orders orders_df (CustomerE.customer_id c) in
    let n := Z.of_nat (List.length q) in
    let dates := dropna (map OrderE.order_date q) in
    (q <> [] ->
       CustomerE.total_orders c = Some n /\
       CustomerE.lifetime_value c = fsum (map OrderE.total q) /\
       CustomerE.average_order_value c
       = fdiv (CustomerE.lifetime_value c) (of_int n) /\
       (dates <> [] ->
          (exists first last,
             CustomerE.first_order_date c = Some first /\
             CustomerE.last_order_date c = Some last /\
             is_minimum first dates /\
             is_maximum last dates /\
             CustomerE.days_between_orders c
             = fdiv (of_int (timedelta_days last first)) (of_int n)) /\
          (n = 1 -> CustomerE.days_between_orders c = FNum 0)) /\
       (dates = [] ->
          CustomerE.first_order_date c = None /\
          CustomerE.last_order_date c = None /\
          CustomerE.days_between_orders c = FNaN)) /\
    (q = [] ->
       CustomerE.total_orders c = None /\
       CustomerE.lifetime_value c = FNaN /\
       CustomerE.first_order_date c = None /\
       CustomerE.last_order_date c = None /\
       CustomerE.average_order_value c = FNaN /\
       CustomerE.days_between_orders c = FNaN).
Proof.
  intros customers. split; [apply enrich_customer_data_base|].
  intros c HIn. unfold customers, enrich_customer_data in HIn.
  rewrite merge_left_functional in HIn by (intros; apply customer_match_unique).
  rewrite map_map in HIn. apply in_map_iff in HIn as (c0 & <- & _).
  pose proof (find_customer_metrics orders_df c0) as Hfind.
  destruct (find _ _) as [m|]; unfold CustomerE.customer_id; simpl.
  - destruct Hfind as [Hne ->].
    set (q := qualifying_orders orders_df (Customer.customer_id c0)) in *.
    split; [intros _ | intros Hnil; rewrite Hnil in Hne; now elim Hne].
    simpl. split; [reflexivity|]. split; [reflexivity|].
    split; [reflexivity|]. split.
    + intros Hd.
      destruct (ts_min_spec _ Hd) as (first & Ef & Hf).
      destruct (ts_max_spec _ Hd) as (last & El & Hl).
      rewrite Ef, El. simpl. split.
      * exists first, last. repeat split; apply Hf || apply Hl.
      * intros Hn. destruct q as [|o [|o' tl]]; simpl in Hn; try lia.
        assert (Hone : forall d, In d (dropna (map OrderE.order_date [o])) ->
                                 OrderE.order_date o = Some d).
        { intros d H. apply In_dropna in H. simpl in H. now destruct H. }
        assert (Hf1 : OrderE.order_date o = Some first) by apply Hone, Hf.
        assert (Hl1 : OrderE.order_date o = Some last) by apply Hone, Hl.
        rewrite Hf1 in Hl1. injection Hl1 as <-.
        simpl. unfold timedelta_days. rewrite Z.sub_diag. reflexivity.
    + intros Hd. rewrite Hd. simpl. repeat split.
  - split; [intros Hne; contradiction | now intros _].
Qed.

(** * Profit margin *)







(** * Extraction fails on hard violations *)

Ltac qcompare :=
  repeat match goal with
         | H : context [(?a ?= ?b)%Q] |- _ => destruct (Qcompare_spec a b)
         | |- context [(?a ?= ?b)%Q] => destruct (Qcompare_spec a b)
         end;
  try discriminate; try reflexivity; try (exfalso; lra).

Lemma flt_trans (x y z : float64) :
  flt x y = true -> flt y z = true -> flt x z = true.
Proof.
  destruct x as [a|s|], y as [b|t|], z as [c|u|]; simpl; try discriminate;
    try (destruct s); try (destruct t); try (destruct u);
    simpl; intros H1 H2; try discriminate; try reflexivity; qcompare.
Qed.

Lemma flt_total (x y z : float64) :
  notna x = true -> notna y = true ->
  flt y x = false -> flt y z = true -> flt x z = true.
Proof.
  destruct x as [a|s|], y as [b|t|], z as [c|u|]; simpl; try discriminate;
    try (destruct s); try (destruct t); try (destruct u);
    simpl; intros _ _ H1 H2; try discriminate; try reflexivity; qcompare.
Qed.

Lemma flt_notna (x y : float64) : flt x y = true -> notna x = true.
Proof. destruct x; simpl; [reflexivity | reflexivity | discriminate]. Qed.

Lemma fmin2_notna (x y : float64) :
  notna x = true -> notna y = true -> notna (fmin2 x y) = true.
Proof. unfold fmin2. now destruct (flt y x). Qed.

Lemma fmin2_below (x y z : float64) :
  notna x = true -> notna y = true ->
  flt x z = true \/ flt y z = true -> flt (fmin2 x y) z = true.
Proof.
  intros Hx Hy H. unfold fmin2. destruct (flt y x) eqn:E.
  - destruct H as [H|H]; [now apply (flt_trans y x z) | easy].
  - destruct H as [H|H]; [easy | now apply (flt_total x y z)].
Qed.

Lemma fold_fmin2_below (tl : list float64) (x z : float64) :
  notna x = true -> Forall (fun y => notna y = true) tl ->
  flt x z = true \/ Exists (fun y => flt y z = true) tl ->
  flt (fold_left fmin2 tl x) z = true.
Proof.
  revert x. induction tl as [|y tl IH]; intros x Hx Hall H; simpl.
  - destruct H as [H|H]; [easy | inversion H].
  - inversion Hall as [|? ? Hy Hall']; subst.
    apply IH; [now apply fmin2_notna | easy |].
    destruct H as [H|H].
    + left. apply fmin2_below; auto.
    + inversion H as [? ? H'|? ? H']; subst.
      * left. apply fmin2_below; auto.
      * now right.
Qed.

(** A column with a value below [z] has its minimum below [z]. *)
Lemma col_min_below (l : list float64) (x z : float64) :
  In x l -> flt x z = true -> flt (col_min l) z = true.
Proof.
  intros HIn Hx. unfold col_min.
  assert (Hf : In x (filter notna l)).
  { apply filter_In. split; [easy | now apply flt_notna in Hx]. }
  assert (Hall : Forall (fun y => notna y = true) (filter notna l)).
  { apply Forall_forall. intros y Hy. now apply filter_In in Hy. }
  destruct (filter notna l) as [|x0 tl]; [contradiction|].
  inversion Hall as [|? ? Hx0 Hall']; subst.
  apply fold_fmin2_below; [easy | easy |].
  destruct Hf as [->|Hf]; [now left|].
  right. apply Exists_exists. now exists x.
Qed.

Lemma col_min_int_le (l : list Z) (x : Z) :
  In x l -> x <= 0 -> min_le_zero (col_min_int l) = true.
Proof.
  intros HIn Hx. destruct l as [|x0 tl]; [contradiction|]. simpl.
  destruct (fold_min_spec tl x0) as [_ Hle].
  apply Z.leb_le. specialize (Hle x HIn). lia.
Qed.

Lemma has_columns_missing (cols required : list string) (c : string) :
  In c required -> has_column cols c = false ->
  has_columns cols required = false.
Proof.
  intros HIn Hc. unfold has_columns.
  destruct (forallb (has_column cols) required) eqn:E; [|reflexivity].
  rewrite forallb_forall in E. rewrite (E c HIn) in Hc. discriminate.
Qed.

Lemma categories_violation df c :
  In c categories_required -> has_column (columns df) c = false ->
  raises (read_and_validate_categories df).
Proof.
  intros HIn Hc. unfold read_and_validate_categories.
  rewrite (has_columns_missing _ _ c HIn Hc). simpl. now eexists.
Qed.

Lemma products_violation df :
  (exists c, In c products_required /\ has_column (columns df) c = false) \/
  (exists p, In p (rows df) /\ flt (Product.price p) (FNum 0) = true) ->
  raises (read_and_validate_products df).
Proof.
  unfold read_and_validate_products.
  intros [(c & HIn & Hc)|(p & HIn & Hp)].
  - rewrite (has_columns_missing _ _ c HIn Hc). simpl. now eexists.
  - destruct (has_columns _ _); simpl; [|now eexists].
    rewrite (col_min_below _ (Product.price p)); [now eexists | | easy].
    now apply in_map.
Qed.

Lemma customers_violation (pd : pandas) df c :
  In c customers_required -> has_column (columns df) c = false ->
  raises (read_and_validate_customers pd df).
Proof.
  intros HIn Hc. unfold read_and_validate_customers.
  rewrite (has_columns_missing _ _ c HIn Hc). simpl. now eexists.
Qed.

Lemma orders_violation df :
  (exists c, In c orders_required /\ has_column (columns df) c = false) \/
  (exists o, In o (rows df) /\ flt (Order.total_amount o) (FNum 0) = true) ->
  raises (read_and_validate_orders df).
Proof.
  unfold read_and_validate_orders.
  intros [(c & HIn & Hc)|(o & HIn & Ho)].
  - rewrite (has_columns_missing _ _ c HIn Hc). simpl. now eexists.
  - destruct (has_columns _ _); simpl; [|now eexists].
    rewrite (col_min_below _ (Order.total_amount o)); [now eexists | | easy].
    now apply in_map.
Qed.

Lemma order_items_violation df :
  (exists c, In c order_items_required /\ has_column (columns df) c = false) \/
  (exists i, In i (rows df) /\ OrderItem.quantity i <= 0) \/
  (exists i, In i (rows df) /\ flt (OrderItem.price i) (FNum 0) = true) ->
  raises (read_and_validate_order_items df).
Proof.
  unfold read_and_validate_order_items.
  intros [(c & HIn & Hc)|[(i & HIn & Hi)|(i & HIn & Hi)]].
  - rewrite (has_columns_missing _ _ c HIn Hc). simpl. now eexists.
  - destruct (has_columns _ _); simpl; [|now eexists].
    rewrite (col_min_int_le _ (OrderItem.quantity i)); [now eexists | | easy].
    now apply in_map.
  - destruct (has_columns _ _); simpl; [|now eexists].
    destruct (min_le_zero _); [now eexists|].
    rewrite (col_min_below _ (OrderItem.price i)); [now eexists | | easy].
    now apply in_map.
Qed.

Lemma extract_raises (pd : pandas) (files : CsvFiles) :
  raises (read_and_validate_categories (product_categories_csv files)) \/
  raises (read_and_validate_products (products_csv files)) \/
  raises (read_and_validate_customers pd (customers_csv files)) \/
  raises (read_and_validate_orders (orders_csv files)) \/
  raises (read_and_validate_order_items (order_items_csv files)) ->
  raises (extract pd files).
Proof.
  unfold extract, raises.
  destruct (read_and_validate_categories _); simpl; [|eauto].
  destruct (read_and_validate_products _); simpl; [|eauto].
  destruct (read_and_validate_customers pd _); simpl; [|eauto].
  destruct (read_and_validate_orders _); simpl; [|eauto].
  destruct (read_and_validate_order_items _); simpl; [|eauto].
  intros [[e H]|[[e H]|[[e H]|[[e H]|[e H]]]]]; discriminate.
Qed.

Lemma hard_violation_extract (pd : pandas) (files : CsvFiles) :
  hard_violation files -> raises (extract pd files).
Proof.
  intros H. apply extract_raises. destruct H.
  - right; left. apply products_violation. eauto.
  - do 3 right; left. apply orders_violation. eauto.
  - do 4 right. apply order_items_violation. eauto.
  - do 4 right. apply order_items_violation. eauto.
  - left. eapply categories_violation; eauto.
  - right; left. apply products_violation. eauto.
  - do 2 right; left. eapply customers_violation; eauto.
  - do 3 right; left. apply orders_violation. eauto.
  - do 4 right. apply order_items_violation. eauto.
Qed.

(** C5.  When the input has a hard business-rule violation (a product price
    below 0, an order total_amount below 0, an order-item quantity of 0 or
    less, an order-item price below 0) or one of the five files lacks a
    required column, extraction raises; the run ends with that error, and all
    it does to the database is release the engine: nothing is written to any
    table. *)
Theorem hard_violation_aborts_before_load (pd : pandas)
    (files : CsvFiles) (to_sql_fails : string -> bool) (log : list event) :
  hard_violation files ->
  exists e,
    extract pd files = Raise e /\
    run to_sql_fails pd files log = (Raise e, log ++ [Dispose]).
Proof.
  intros H. destruct (hard_violation_extract pd files H) as [e He].
  exists e. split; [easy|].
  unfold run, finally, and_then, pure. now rewrite He.
Qed.

Lemma hard_violation_aborts_before_load_witness :
  hard_violation Sample.files_negative_price /\
  exists e,
    extract Pandas2 Sample.files_negative_price = Raise e /\
    run Sample.no_failure Pandas2 Sample.files_negative_price []
    = (Raise e, [Dispose]).
Proof.
  assert (H : hard_violation Sample.files_negative_price).
  { apply negative_product_price with (p := Sample.refund).
    - simpl. right. now left.
    - reflexivity. }
  split; [exact H|].
  exact (hard_violation_aborts_before_load Pandas2
           Sample.files_negative_price Sample.no_failure [] H).
Defined.

(** * Load order and release of the engine *)

Ltac fails_at dfs k t :=
  exists (Raise (DatabaseError t)), (firstn k (load_plan dfs) ++ [ToSqlFailed t]);
  split;
  [ cbn [firstn load_plan app]; rewrite <- ?app_assoc; reflexivity
  | exists k; split;
    [ reflexivity
    | right; exists t; repeat split; assumption ] ].

Lemma load_writes_in_order
    (to_sql_fails : string -> bool) (dfs : Dfs) (log : list event) :
  exists r evs,
    load to_sql_fails dfs log = (r, log ++ evs) /\
    exists k,
      filter is_write evs = firstn k (load_plan dfs) /\
      ((r = Ok tt /\ evs = load_plan dfs /\
        Forall (fun t => to_sql_fails t = false) load_tables) \/
       (exists t,
          nth_error load_tables k = Some t /\
          to_sql_fails t = true /\
          r = Raise (DatabaseError t) /\
          evs = firstn k (load_plan dfs) ++ [ToSqlFailed t])).
Proof.
  cbv [load load_dimension_tables load_fact_tables and_then bulk_insert_df].
  destruct (to_sql_fails "dim_time"%string) eqn:E1;
    [fails_at dfs 0%nat "dim_time"%string|].
  destruct (to_sql_fails "product_categories"%string) eqn:E2;
    [fails_at dfs 1%nat "product_categories"%string|].
  destruct (to_sql_fails "products"%string) eqn:E3;
    [fails_at dfs 2%nat "products"%string|].
  destruct (to_sql_fails "customers"%string) eqn:E4;
    [fails_at dfs 3%nat "customers"%string|].
  destruct (to_sql_fails "orders"%string) eqn:E5;
    [fails_at dfs 4%nat "orders"%string|].
  destruct (to_sql_fails "order_items"%string) eqn:E6;
    [fails_at dfs 5%nat "order_items"%string|].
  destruct (to_sql_fails "daily_sales_aggregation"%string) eqn:E7;
    [fails_at dfs 6%nat "daily_sales_aggregation"%string|].
  exists (Ok tt), (load_plan dfs). split.
  - cbn [load_plan]. rewrite <- !app_assoc. reflexivity.
  - exists 7%nat. split; [reflexivity|]. left.
    repeat split. repeat constructor; assumption.
Qed.

(** C9.  Whatever the input and whichever writes the database refuses, a run
    appends to the log of database events a list [evs] followed by the
    release of the engine, hence releases it on every exit path.  When
    extraction or transformation raises, [evs] is empty.  Otherwise the
    writes in [evs] are the first [k] of: dim_time, product_categories,
    products, customers in replace mode, then orders, order_items,
    daily_sales_aggregation in append mode; either no table is refused and
    all seven are written, or table number [k] is the first refused one, its
    failure is the last event before the release, and the run raises. *)
Theorem load_order_and_release (pd : pandas)
    (to_sql_fails : string -> bool) (files : CsvFiles) (log : list event) :
  exists r evs,
    run to_sql_fails pd files log = (r, log ++ evs ++ [Dispose]) /\
    match (x <- extract pd files ;; transform x) with
    | Raise e => r = Raise e /\ evs = []
    | Ok dfs =>
        exists k,
          filter is_write evs = firstn k (load_plan dfs) /\
          ((r = Ok dfs /\ evs = load_plan dfs /\
            Forall (fun t => to_sql_fails t = false) load_tables) \/
           (exists t,
              nth_error load_tables k = Some t /\
              to_sql_fails t = true /\
              r = Raise (DatabaseError t) /\
              evs = firstn k (load_plan dfs) ++ [ToSqlFailed t]))
    end.
Proof.
  unfold run, finally, and_then, pure.
  destruct (extract pd files) as [x|e]; cbn [bind];
    [|exists (Raise e), []; now split].
  destruct (transform x) as [dfs|e];
    [|exists (Raise e), []; now split].
  destruct (load_writes_in_order to_sql_fails dfs log)
    as (r & evs & Hload & k & Hwrites & Hcases).
  rewrite Hload.
  destruct Hcases as [(-> & Hevs & Hall)|(t & Ht & Hfail & -> & Hevs)].
  - exists (Ok dfs), evs. split; [now rewrite app_assoc|].
    exists k. split; [easy|]. left. now repeat split.
  - exists (Raise (DatabaseError t)), evs. split; [now rewrite app_assoc|].
    exists k. split; [easy|]. right. exists t. now repeat split.
Qed.

(** * Time dimension *)

Lemma ns_per_day_pos : 0 < ns_per_day.
Proof. reflexivity. Qed.

Lemma day_number_add (t : Timestamp) (k : Z) :
  day_number (t + k * ns_per_day) = day_number t + k.
Proof. unfold day_number. apply Z.div_add. discriminate. Qed.

(** The days of a date range are consecutive, starting with the day of its
    start; there are as many as whole days fit between start and end, plus
    one. *)
Lemma date_range_days (start_date end_date : Timestamp) :
  start_date <= end_date ->
  map day_number (date_range start_date end_date)
  = map (fun k => day_number start_date + Z.of_nat k)
      (seq 0 (Z.to_nat ((end_date - start_date) / ns_per_day + 1))).
Proof.
  intros Hle. unfold date_range.
  destruct (end_date <? start_date) eqn:E; [apply Z.ltb_lt in E; lia|].
  rewrite map_map. apply map_ext. intros k. apply day_number_add.
Qed.

(** When both ends are at midnight, the range has exactly the days from the
    day of the start to the day of the end. *)
Lemma date_range_days_midnight (a b : Z) :
  a <= b ->
  map day_number (date_range (a * ns_per_day) (b * ns_per_day))
  = map (fun k => a + Z.of_nat k) (seq 0 (Z.to_nat (b - a + 1))).
Proof.
  intros Hle. pose proof ns_per_day_pos as Hpos.
  rewrite date_range_days by nia.
  replace (b * ns_per_day - a * ns_per_day) with ((b - a) * ns_per_day) by ring.
  rewrite Z.div_mul by discriminate.
  apply map_ext. intros k. unfold day_number.
  now rewrite Z.div_mul by discriminate.
Qed.

Lemma generate_time_dimension_flags (orders_df : list OrderE.t) dim r :
  generate_time_dimension orders_df = Ok dim -> In r dim ->
  DimTime.is_holiday r = false /\
  (DimTime.is_weekend r = true <->
   dayofweek (DimTime.date r) = 5 \/ dayofweek (DimTime.date r) = 6).
Proof.
  unfold generate_time_dimension.
  destruct (ts_min (order_dates orders_df));
    destruct (ts_max (order_dates orders_df)); try discriminate.
  intros [= <-] HIn. apply in_map_iff in HIn as (d & <- & _). simpl.
  split; [reflexivity|].
  rewrite orb_false_r, orb_true_iff, !Z.eqb_eq.
  split; intros [H|H]; auto.
Qed.

(** When every order is dated at midnight, the time dimension has exactly one
    row for each calendar day from the first to the last order date. *)
Lemma generate_time_dimension_midnight (orders_df : list OrderE.t) :
  order_dates orders_df <> [] ->
  (forall t, In t (order_dates orders_df) -> t = floor_day t) ->
  exists dim first last,
    generate_time_dimension orders_df = Ok dim /\
    is_minimum first (order_dates orders_df) /\
    is_maximum last (order_dates orders_df) /\
    map (fun r => day_number (DimTime.date r)) dim
    = map (fun k => day_number first + Z.of_nat k)
        (seq 0 (Z.to_nat (day_number last - day_number first + 1))).
Proof.
  intros Hdates Hmidnight.
  destruct (ts_min_spec _ Hdates) as (first & Efirst & Hfirst).
  destruct (ts_max_spec _ Hdates) as (last & Elast & Hlast).
  unfold floor_day in Hmidnight.
  unfold generate_time_dimension. rewrite Efirst, Elast.
  eexists _, first, last. split; [reflexivity|]. split; [easy|]. split; [easy|].
  rewrite map_map. simpl.
  change (map (fun x => day_number x) (date_range first last))
    with (map day_number (date_range first last)).
  rewrite (Hmidnight first) at 1 by apply Hfirst.
  rewrite (Hmidnight last) at 1 by apply Hlast.
  apply date_range_days_midnight.
  apply Z.div_le_mono; [reflexivity|]. apply Hfirst. apply Hlast.
Qed.

(** C4 at an input whose first order is placed later in the day than its last
    one: orders of 2024-01-01 15:00 and 2024-01-03 10:00.  The time dimension
    has a row for 15:00 of January 1 and of January 2 and none for the
    calendar day of the last order, January 3. *)
Theorem time_dimension_misses_last_day :
  let orders :=
    calculate_order_revenue [Sample.order1; Sample.order2]
      [Sample.item1; Sample.item2; Sample.item3]
      (transform_product_data [Sample.car] [Sample.toys]) in
  generate_time_dimension orders
  = Ok [DimTime.mk Sample.order1_date
          0 1 1 1 1 "January" 1 2024 false false;
        DimTime.mk (Sample.jan1 + ns_per_day + 15 * Sample.hour)
          1 2 2 1 1 "January" 1 2024 false false]
  /\
  Order.order_date Sample.order1 = Some Sample.order1_date /\
  Order.order_date Sample.order2 = Some Sample.order2_date /\
  ts_max (order_dates orders) = Some Sample.order2_date /\
  day_number Sample.order2_date = 19725 /\
  map day_number (date_range Sample.order1_date Sample.order2_date)
  = [19723; 19724].
Proof. vm_compute. repeat split. Qed.

(** * Email validation and the quality metrics *)

Lemma all_bool_null mask : In None mask -> all_bool mask = None.
Proof.
  induction mask as [|[b|] tl IH]; simpl; intros H.
  - contradiction.
  - destruct H as [H|H]; [discriminate|]. now rewrite IH.
  - reflexivity.
Qed.

Lemma all_bool_values (bs : list bool) : all_bool (map Some bs) = Some bs.
Proof.
  induction bs as [|b bs IH]; simpl; [reflexivity|]. now rewrite IH.
Qed.


Lemma existsb_is_null {A} (col : list (option A)) :
  existsb is_null col = true <-> In None col.
Proof.
  rewrite existsb_exists. split.
  - intros ([a|] & HIn & H); [discriminate | exact HIn].
  - intros H. now exists None.
Qed.

Lemma str_predicate_values (pd : pandas) (test : string -> bool)
    (col : list (option string)) :
  pd = Pandas3 \/ ~ In None col ->
  str_predicate pd test col = map Some (map (test_or_false test) col).
Proof.
  intros H. unfold str_predicate. rewrite map_map.
  apply map_ext_in. intros [e|] HIn; [reflexivity|].
  destruct H as [->|H]; [reflexivity | contradiction].
Qed.

Lemma str_predicate_null (test : string -> bool) (col : list (option string)) :
  In None col -> In None (str_predicate Pandas2 test col).
Proof.
  intros H. unfold str_predicate. apply in_map_iff. now exists None.
Qed.

Lemma str_accessor_spec (col : list (option string)) :
  str_accessor col = if all_blank col then Raise AttributeError else Ok col.
Proof. now destruct col. Qed.

Lemma null_emails_map (cs : list Customer.t) :
  null_emails (map negb (map (test_or_false email_pattern_match)
                           (map Customer.email cs))) cs
  = map validate_customer cs /\
  (existsb (fun b => b)
     (map negb (map (test_or_false email_pattern_match)
                  (map Customer.email cs))) = false ->
   map validate_customer cs = cs).
Proof.
  induction cs as [|c cs [IH1 IH2]]; simpl; [now split|].
  unfold null_emails in *. simpl. rewrite IH1.
  set (rest := map validate_customer cs) in *.
  destruct c as [id [e|] first last]; unfold validate_customer, validated_email;
    simpl.
  - destruct (email_pattern_match e) eqn:Em; simpl.
    + split; [reflexivity|]. intros H. now rewrite (IH2 H).
    + split; [reflexivity | discriminate].
  - split; [reflexivity | discriminate].
Qed.

(** What customer validation does to a file that has the required
    columns. *)
Lemma read_and_validate_customers_eq (pd : pandas) (df : Csv Customer.t) :
  has_columns (columns df) customers_required = true ->
  read_and_validate_customers pd df
  = if all_blank (map Customer.email (rows df)) then Raise AttributeError
    else match pd with
         | Pandas2 =>
             if existsb is_null (map Customer.email (rows df))
             then Raise (TypeError "bad operand type for unary ~: 'float'")
             else Ok (map validate_customer (rows df))
         | Pandas3 => Ok (map validate_customer (rows df))
         end.
Proof.
  intros Hcols. unfold read_and_validate_customers.
  rewrite Hcols, str_accessor_spec. simpl.
  destruct (all_blank _); simpl; [reflexivity|].
  destruct (null_emails_map (rows df)) as [H1 H2].
  assert (Hvalues :
            pd = Pandas3 \/ ~ In None (map Customer.email (rows df)) ->
            (invalid_emails <-
               invert "float" (str_match pd (map Customer.email (rows df))) ;;
             if existsb (fun b => b) invalid_emails
             then Ok (null_emails invalid_emails (rows df))
             else Ok (rows df))
            = Ok (map validate_customer (rows df))).
  { intros H. unfold str_match, invert.
    rewrite (str_predicate_values _ _ _ H), all_bool_values. simpl.
    destruct (existsb _ _); [now rewrite H1 | now rewrite (H2 eq_refl)]. }
  destruct pd; [|apply Hvalues; now left].
  destruct (existsb is_null _) eqn:En.
  - apply existsb_is_null in En. unfold str_match, invert.
    now rewrite (all_bool_null _ (str_predicate_null _ _ En)).
  - apply Hvalues. right. intros H. apply existsb_is_null in H. congruence.
Qed.

Lemma read_and_validate_customers_map (pd : pandas) (df : Csv Customer.t) cs :
  read_and_validate_customers pd df = Ok cs ->
  has_columns (columns df) customers_required = true /\
  cs = map validate_customer (rows df) /\
  (pd = Pandas2 -> ~ In None (map Customer.email (rows df))).
Proof.
  intros H.
  destruct (has_columns (columns df) customers_required) eqn:Hcols.
  - rewrite (read_and_validate_customers_eq pd df Hcols) in H.
    destruct (all_blank _); [discriminate|].
    destruct pd.
    + destruct (existsb is_null _) eqn:En; [discriminate|].
      injection H as <-. repeat split.
      intros _ Hnull. apply existsb_is_null in Hnull. congruence.
    + injection H as <-. repeat split. discriminate.
  - unfold read_and_validate_customers in H. rewrite Hcols in H. discriminate.
Qed.

(** An email validation leaves matches the pattern, and it is null exactly in
    the rows whose email did not match it. *)
Lemma validate_customer_email (c : Customer.t) :
  Customer.email (validate_customer c)
  = if has_valid_email c then Customer.email c else None.
Proof.
  unfold validate_customer, validated_email, has_valid_email.
  destruct (Customer.email c) as [e|] eqn:E; simpl; [|now rewrite E].
  now destruct (email_pattern_match e).
Qed.

Lemma always_has_not_nullable a r : always_has a r -> nullable r = false.
Proof.
  induction r as [| |p|r IHr s IHs|r IHr s IHs|r IHr]; simpl; try easy.
  - intros [H|H]; [rewrite (IHr H) | rewrite (IHs H)];
      [reflexivity | apply andb_false_r].
  - intros [Hr Hs]. now rewrite (IHr Hr), (IHs Hs).
Qed.

Lemma always_has_deriv a c r :
  c <> a -> always_has a r -> always_has a (deriv c r).
Proof.
  intros Hc.
  induction r as [| |p|r IHr s IHs|r IHr s IHs|r IHr]; simpl; try easy.
  - intros H. destruct (p c) eqn:E; simpl; [|exact I].
    elim Hc. now apply H.
  - intros [H|H].
    + rewrite (always_has_not_nullable a r H). simpl. left. now apply IHr.
    + destruct (nullable r); simpl; [split; [now right | now apply IHs]|].
      now right.
  - intros [Hr Hs]. split; [now apply IHr | now apply IHs].
Qed.

Lemma fullmatch_contains a r s :
  always_has a r -> fullmatch r s = true -> contains_char a s = true.
Proof.
  revert r. induction s as [|c s IH]; intros r Hr; simpl.
  - rewrite (always_has_not_nullable a r Hr). discriminate.
  - destruct (Ascii.eqb a c) eqn:E; [reflexivity|]. simpl.
    apply IH. apply always_has_deriv; [|assumption].
    intros ->. rewrite Ascii.eqb_refl in E. discriminate.
Qed.

Lemma email_regex_has_at : always_has "@" email_regex.
Proof.
  unfold email_regex. simpl. right. left.
  intros c H. symmetry. now apply Ascii.eqb_eq.
Qed.

(** An email that matches the validation pattern holds an [@]. *)
Lemma email_pattern_match_contains (e : string) :
  email_pattern_match e = true -> contains_char "@" e = true.
Proof.
  apply fullmatch_contains. split; [apply email_regex_has_at|].
  left. apply email_regex_has_at.
Qed.

(** Among validated emails, those without an [@] are the nulls, and they
    are as many as the rows whose email did not match the pattern. *)
Lemma count_invalid_validated (cs : list Customer.t) :
  count_true
    (map negb (map (test_or_false (contains_char "@"))
                 (map Customer.email (map validate_customer cs))))
  = count_if (fun c => negb (has_valid_email c)) cs.
Proof.
  unfold count_true, count_if. f_equal. f_equal.
  induction cs as [|c cs IH]; simpl; [reflexivity|].
  rewrite validate_customer_email. unfold has_valid_email in *.
  destruct (Customer.email c) as [e|]; simpl.
  - destruct (email_pattern_match e) eqn:Em; simpl.
    + rewrite (email_pattern_match_contains e Em). simpl. exact IH.
    + now rewrite IH.
  - now rewrite IH.
Qed.

Lemma enriched_emails (cs : list Customer.t) (orders_df : list OrderE.t) :
  map CustomerE.email (enrich_customer_data cs orders_df)
  = map Customer.email cs.
Proof.
  unfold CustomerE.email.
  rewrite <- (map_map CustomerE.base Customer.email).
  now rewrite enrich_customer_data_base.
Qed.

(** The quality check of a customers table: with pandas 2 it raises on a
    null email; otherwise it counts the emails without an [@], a null
    among them. *)
Lemma check_customers_null (now : Timestamp) (df : list CustomerE.t) :
  In None (map CustomerE.email df) ->
  check_data_quality Pandas2 now "customers" (customers_frame df)
  = Raise (TypeError "bad operand type for unary ~: 'NoneType'").
Proof.
  intros H. unfold check_data_quality, invert, str_contains. simpl.
  now rewrite (all_bool_null _ (str_predicate_null _ _ H)).
Qed.

Lemma check_customers_counts (pd : pandas) (now : Timestamp)
    (df : list CustomerE.t) :
  pd = Pandas3 \/ ~ In None (map CustomerE.email df) ->
  exists m,
    check_data_quality pd now "customers" (customers_frame df) = Ok m /\
    business_rule_violations m
    = [("invalid_emails"%string,
        count_true
          (map negb (map (test_or_false (contains_char "@"))
                       (map CustomerE.email df))))].
Proof.
  intros H. unfold check_data_quality, invert, str_contains. simpl.
  rewrite (str_predicate_values _ _ _ H), all_bool_values. simpl.
  eexists. split; reflexivity.
Qed.



(** * Instances at the sample data *)

Lemma sample_categories_unique :
  NoDup (map Category.category_id (x_categories Sample.extracted)).
Proof. simpl. constructor; [intros [] | constructor]. Defined.

Lemma daily_sales_reads_enriched_tables_witness :
  NoDup (map Category.category_id (x_categories Sample.extracted)) /\
  exists dfs,
    transform Sample.extracted = Ok dfs /\
    daily_sales dfs
    = daily_sales_of_raw (x_orders Sample.extracted)
        (x_order_items Sample.extracted) (x_products Sample.extracted).
Proof.
  split; [exact sample_categories_unique|].
  destruct (daily_sales_reads_enriched_tables Sample.extracted
              sample_categories_unique) as [Heq Hok].
  destruct Hok as [dfs Hdfs];
    [reflexivity
    | exists Sample.order1; split; [now left | discriminate]
    |].
  exists dfs. split; [exact Hdfs | exact (proj2 (Heq dfs Hdfs))].
Defined.

(** C8 as stated fails when the category table holds a category_id twice:
    step 1 then gives the product two rows, step 4 reads them, and every
    order item of the product is counted twice. *)
Lemma daily_sales_differs_from_raw_snapshots :
  exists dfs,
    transform Sample.extracted_twice = Ok dfs /\
    map DailySales.units_sold (daily_sales dfs) = [10] /\
    map DailySales.units_sold
      (daily_sales_of_raw (x_orders Sample.extracted_twice)
         (x_order_items Sample.extracted_twice)
         (x_products Sample.extracted_twice)) = [5] /\
    daily_sales dfs
    <> daily_sales_of_raw (x_orders Sample.extracted_twice)
         (x_order_items Sample.extracted_twice)
         (x_products Sample.extracted_twice).
Proof.
  eexists. split; [reflexivity|].
  split; [vm_compute; reflexivity|].
  split; [vm_compute; reflexivity|].
  vm_compute. intros H. discriminate H.
Qed.




(** C1 as stated fails when the quantities of a group add up to 2 ** 63 or
    more: two items of one order and product with the quantities
    2 ** 63 - 1 and 1 give the daily sales row of their day a units_sold of
    - 2 ** 63, not their sum 2 ** 63. *)
Lemma daily_units_sold_wrap_around :
  let items := [Sample2.bulk_item1; Sample2.bulk_item2] in
  let products := transform_product_data [Sample.car] [Sample.toys] in
  let orders := calculate_order_revenue [Sample.order1] items products in
  let daily := aggregate_daily_sales orders items products in
  sold_on (Sample.jan1, 10, 1) orders items products = items /\
  Zsum (map OrderItem.quantity items) = 2 ^ 63 /\
  map (fun row => (daily_sales_key row, DailySales.units_sold row)) daily
  = [((Sample.jan1, 10, 1), - 2 ^ 63)].
Proof. vm_compute. repeat split. Qed.

(** C7 as stated fails for a customer whose one qualifying order has a blank
    order_date: total_orders is 1, both dates are null and
    days_between_orders is NaN, not 0. *)
Lemma undated_single_order_has_no_days_between :
  let orders :=
    calculate_order_revenue [Sample2.undated_order] []
      (transform_product_data [Sample.car] [Sample.toys]) in
  qualifying_orders orders 9 <> [] /\
  map (fun c => (CustomerE.customer_id c, CustomerE.total_orders c,
                 CustomerE.first_order_date c, CustomerE.last_order_date c,
                 CustomerE.days_between_orders c))
    (enrich_customer_data [Sample.carol] orders)
  = [(9, Some 1, None, None, FNaN)].
Proof. vm_compute. split; [discriminate | reflexivity]. Qed.



(** * The scenarios of the specification at the sample data *)

(** One delivered order with two items of total 20 and 30: the order's total
    is 50, and the daily sales row of its day and product sums both items. *)
Example scenario_order_with_two_items :
  exists dfs,
    transform Sample.extracted = Ok dfs /\
    map (fun o => (OrderE.order_id o, OrderE.total o, OrderE.quantity o))
      (orders dfs)
    = [(100, FNum 50, Some 5); (101, FNum 30, Some 3)] /\
    map (fun r => (DailySales.order_date r, DailySales.product_id r,
                   DailySales.units_sold r, DailySales.revenue r,
                   DailySales.order_count r))
      (daily_sales dfs)
    = [(Sample.jan1, 10, 5, FNum 50, 1);
       (Sample.jan1 + 2 * ns_per_day, 10, 3, FNum 30, 1)].
Proof.
  eexists. split; [reflexivity|]. vm_compute. split; reflexivity.
Qed.

(** A customer without any delivered, shipped or in-transit order has null
    metrics; one with two such orders, two days apart, has them filled. *)
Example scenario_customer_without_orders :
  exists dfs,
    transform Sample.extracted = Ok dfs /\
    map (fun c => (CustomerE.customer_id c, CustomerE.total_orders c,
                   CustomerE.lifetime_value c,
                   CustomerE.average_order_value c,
                   CustomerE.days_between_orders c))
      (customers dfs)
    = [(7, Some 2, FNum 80, FNum (80 # 2), FNum (1 # 2));
       (9, None, FNaN, FNaN, FNaN)].
Proof.
  eexists. split; [reflexivity|]. vm_compute. reflexivity.
Qed.

(** A price of 5 with a cost of 3 has margin 0.4, as the binary64 number
    nearest to it; a price of 0 has an infinite one, and the run goes on. *)
Example scenario_zero_price :
  exists dfs,
    transform Sample.extracted = Ok dfs /\
    map (fun p => (ProductE.product_id p, ProductE.profit_margin p))
      (products dfs)
    = [(10, binary64 (4 # 10)); (11, FInf true)].
Proof.
  eexists. split; [reflexivity|]. vm_compute. reflexivity.
Qed.

(** A run over the sample files, with a database that refuses nothing,
    writes the seven tables in order and releases the engine. *)
Example scenario_run :
  exists dfs,
    run Sample.no_failure Pandas2 Sample.files [] = (Ok dfs, load_plan dfs ++ [Dispose]) /\
    map is_write (load_plan dfs) = [true; true; true; true; true; true; true].
Proof.
  eexists. split; reflexivity.
Qed.

(** A database that refuses the products table: the two tables before it are
    written, nothing after it, and the engine is released. *)
Example scenario_refused_write :
  snd (run (String.eqb "products") Pandas2 Sample.files [])
  = [ToSql "dim_time" Replace 2; ToSql "product_categories" Replace 1;
     ToSqlFailed "products"; Dispose].
Proof. vm_compute. reflexivity. Qed.

(** On the customers of the sample files, whose emails all match the pattern,
    the quality check reports no invalid email. *)
Example scenario_quality_of_valid_emails :
  exists dfs m,
    transform Sample.extracted = Ok dfs /\
    check_data_quality Pandas2 0 "customers"
      (customers_frame (customers dfs)) = Ok m /\
    total_records m = 2 /\
    lookup_rule "invalid_emails" m = Some 0.
Proof.
  eexists. eexists. split; [reflexivity|].
  split; [vm_compute; reflexivity|]. split; reflexivity.
Qed.

(** * What extraction lets through *)

Lemma fold_fmin2_In (tl : list float64) (x : float64) :
  In (fold_left fmin2 tl x) (x :: tl).
Proof.
  revert x. induction tl as [|y tl IH]; intros x; simpl; [now left|].
  destruct (IH (fmin2 x y)) as [H|H]; [|right; now right].
  rewrite <- H. unfold fmin2. destruct (flt y x); [right; now left | now left].
Qed.

(** The minimum of a column is below [z] exactly when one of its values is. *)
Lemma col_min_below_iff (l : list float64) (z : float64) :
  flt (col_min l) z = true <-> exists x, In x l /\ flt x z = true.
Proof.
  split.
  - intros H. exists (col_min l). split; [|easy].
    unfold col_min in *.
    destruct (filter notna l) as [|x0 tl] eqn:Ef; [discriminate|].
    assert (HIn : In (fold_left fmin2 tl x0) (filter notna l))
      by (rewrite Ef; apply fold_fmin2_In).
    now apply filter_In in HIn.
  - intros (x & HIn & Hx). now apply (col_min_below l x z).
Qed.

Lemma col_min_not_below (l : list float64) (z : float64) :
  flt (col_min l) z = false <-> forall x, In x l -> flt x z = false.
Proof.
  split.
  - intros Hmin x HIn. destruct (flt x z) eqn:E; [|reflexivity].
    rewrite (col_min_below l x z HIn E) in Hmin. discriminate.
  - intros Hall. destruct (flt (col_min l) z) eqn:E; [|reflexivity].
    apply col_min_below_iff in E as (x & HIn & Hx).
    rewrite (Hall x HIn) in Hx. discriminate.
Qed.

Lemma col_min_int_positive (l : list Z) :
  min_le_zero (col_min_int l) = false <-> forall x, In x l -> 0 < x.
Proof.
  split.
  - intros Hmin x HIn. destruct (Z_lt_le_dec 0 x) as [H|H]; [easy|].
    rewrite (col_min_int_le l x HIn H) in Hmin. discriminate.
  - intros Hall. destruct l as [|x0 tl]; [reflexivity|]. simpl.
    destruct (fold_min_spec tl x0) as [HIn _].
    apply Z.leb_gt. now apply Hall.
Qed.

Lemma has_columns_all (cols required : list string) :
  has_columns cols required = true <->
  forall c, In c required -> has_column cols c = true.
Proof. unfold has_columns. apply forallb_forall. Qed.

Lemma products_validation_iff (df : Csv Product.t) ps :
  read_and_validate_products df = Ok ps <->
  has_columns (columns df) products_required = true /\
  (forall p, In p (rows df) -> flt (Product.price p) (FNum 0) = false) /\
  has_column (columns df) "description" = true /\
  has_column (columns df) "weight" = true /\
  has_column (columns df) "is_active" = true /\
  ps = map clean_product (rows df).
Proof.
  unfold read_and_validate_products, require_column.
  destruct (has_columns (columns df) products_required); simpl;
    [|split; [discriminate | intros [H _]; discriminate]].
  destruct (flt (col_min (map Product.price (rows df))) (FNum 0)) eqn:Emin.
  - split; [discriminate|]. intros (_ & Hall & _). exfalso.
    apply col_min_below_iff in Emin as (x & Hx & Hneg).
    apply in_map_iff in Hx as (p & <- & Hp).
    rewrite (Hall p Hp) in Hneg. discriminate.
  - assert (Hall : forall p, In p (rows df) ->
                             flt (Product.price p) (FNum 0) = false).
    { intros p Hp. apply (proj1 (col_min_not_below _ _) Emin).
      now apply in_map. }
    destruct (has_column (columns df) "description"); simpl;
      [|split; [discriminate | intros (_ & _ & H & _); discriminate]].
    destruct (has_column (columns df) "weight"); simpl;
      [|split; [discriminate | intros (_ & _ & _ & H & _); discriminate]].
    destruct (has_column (columns df) "is_active"); simpl;
      [|split; [discriminate | intros (_ & _ & _ & _ & H & _); discriminate]].
    split.
    + intros [= <-]. now repeat split.
    + intros (_ & _ & _ & _ & _ & ->). reflexivity.
Qed.

(** X1.  Product validation returns a table exactly when the file has the
    five required columns and the columns description, weight and is_active,
    and no price below 0; the table is then the rows of the file, with a null
    description, weight or is_active replaced by the empty string, 0 and
    True. *)
Theorem read_and_validate_products_ok (df : Csv Product.t) ps :
  read_and_validate_products df = Ok ps <->
  has_columns (columns df) products_required = true /\
  (forall p, In p (rows df) -> flt (Product.price p) (FNum 0) = false) /\
  has_column (columns df) "description" = true /\
  has_column (columns df) "weight" = true /\
  has_column (columns df) "is_active" = true /\
  ps = map clean_product (rows df).
Proof. apply products_validation_iff. Qed.

Lemma clean_product_is_clean (p : Product.t) : product_is_clean (clean_product p).
Proof.
  unfold product_is_clean, clean_product. simpl. repeat split.
  - now destruct (Product.description p).
  - unfold fillna_float. now destruct (Product.weight p).
  - now destruct (Product.is_active p).
Qed.

Lemma clean_product_fixed (p : Product.t) :
  product_is_clean p -> clean_product p = p.
Proof.
  destruct p as [id name descr price cost cat sku weight active].
  unfold product_is_clean, clean_product. simpl. intros (Hd & Hw & Ha).
  destruct descr; [|contradiction]. destruct active; [|contradiction].
  unfold fillna_float. rewrite Hw. reflexivity.
Qed.

(** X2.  The table product validation returns has no null description,
    weight or is_active; ids, prices, costs and categories are those of the
    file, row by row; and validating that table again, under the same
    header, returns it unchanged. *)
Theorem validated_products_are_clean (df : Csv Product.t) ps :
  read_and_validate_products df = Ok ps ->
  (forall p, In p ps -> product_is_clean p) /\
  map Product.product_id ps = map Product.product_id (rows df) /\
  map Product.price ps = map Product.price (rows df) /\
  map Product.cost ps = map Product.cost (rows df) /\
  map Product.category_id ps = map Product.category_id (rows df) /\
  read_and_validate_products (mkCsv (columns df) ps) = Ok ps.
Proof.
  intros H. apply products_validation_iff in H
    as (Hreq & Hprice & Hd & Hw & Ha & ->).
  assert (Hclean : forall p, In p (map clean_product (rows df)) ->
                             product_is_clean p).
  { intros p Hp. apply in_map_iff in Hp as (p0 & <- & _).
    apply clean_product_is_clean. }
  split; [exact Hclean|].
  rewrite !map_map. simpl. repeat split.
  apply products_validation_iff. simpl. repeat split; try assumption.
  - intros p Hp. apply in_map_iff in Hp as (p0 & <- & Hp0). simpl.
    now apply Hprice.
  - rewrite <- (map_id (map clean_product (rows df))) at 1.
    apply map_ext_in. intros p Hp. symmetry. apply clean_product_fixed.
    now apply Hclean.
Qed.

Lemma validated_products_are_clean_witness :
  read_and_validate_products (products_csv Sample.files)
  = Ok [Sample.car; Sample.free_sample] /\
  read_and_validate_products
    (mkCsv (columns (products_csv Sample.files))
       [Sample.car; Sample.free_sample])
  = Ok [Sample.car; Sample.free_sample].
Proof.
  assert (H : read_and_validate_products (products_csv Sample.files)
              = Ok [Sample.car; Sample.free_sample]) by reflexivity.
  split; [exact H|].
  exact (proj2 (proj2 (proj2 (proj2 (proj2
           (validated_products_are_clean (products_csv Sample.files) _ H)))))).
Defined.

(** * The language of the email pattern *)

Lemma append_nil_r (s : string) : (s ++ "")%string = s.
Proof. induction s as [|c s IH]; simpl; [reflexivity | now rewrite IH]. Qed.

Lemma append_assoc (s t u : string) :
  ((s ++ t) ++ u)%string = (s ++ (t ++ u))%string.
Proof. induction s as [|c s IH]; simpl; [reflexivity | now rewrite IH]. Qed.

Lemma append_eq_nil (s t : string) :
  (s ++ t)%string = ""%string -> s = ""%string /\ t = ""%string.
Proof. destruct s; simpl; [now split | discriminate]. Qed.

Lemma nullable_matches (r : regex) : nullable r = true <-> matches r "".
Proof.
  split.
  - induction r as [| |p|r IHr s IHs|r IHr s IHs|r IHr]; simpl;
      try discriminate; intros H.
    + constructor.
    + apply andb_true_iff in H as [Hr Hs].
      change (matches (Cat r s) ("" ++ "")). constructor; auto.
    + apply orb_true_iff in H as [H|H];
        [apply MAltL | apply MAltR]; auto.
    + constructor.
  - intros H. remember ""%string as w eqn:Ew.
    induction H as [|p c Hc|r s u v Hu IHu Hv IHv|r s u Hu IHu
                   |r s u Hu IHu| |r u v Hu IHu Hv IHv]; simpl;
      try reflexivity; try discriminate.
    + apply append_eq_nil in Ew as [-> ->]. now rewrite IHu, IHv.
    + now rewrite IHu.
    + rewrite IHu by assumption. apply orb_true_r.
Qed.

Lemma matches_deriv (c : ascii) (r : regex) (w : string) :
  matches (deriv c r) w -> matches r (String c w).
Proof.
  revert w. induction r as [| |p|r IHr s IHs|r IHr s IHs|r IHr];
    simpl; intros w H.
  - inversion H.
  - inversion H.
  - destruct (p c) eqn:E; inversion H; subst. now constructor.
  - assert (Hcat : matches (Cat (deriv c r) s) w ->
                   matches (Cat r s) (String c w)).
    { intros Hc. inversion Hc as [| |? ? u v Hu Hv| | | |]; subst.
      change (String c (u ++ v)) with (String c u ++ v)%string.
      constructor; auto. }
    destruct (nullable r) eqn:En; [|now apply Hcat].
    inversion H as [| | |? ? ? Hl|? ? ? Hr| |]; subst; [now apply Hcat|].
    change (String c w) with ("" ++ String c w)%string.
    constructor; [now apply nullable_matches | auto].
  - inversion H as [| | |? ? ? Hl|? ? ? Hr| |]; subst;
      [apply MAltL | apply MAltR]; auto.
  - inversion H as [| |? ? u v Hu Hv| | | |]; subst.
    change (String c (u ++ v)) with (String c u ++ v)%string.
    constructor; auto.
Qed.

Lemma deriv_matches (c : ascii) (r : regex) (w : string) :
  matches r (String c w) -> matches (deriv c r) w.
Proof.
  intros H. remember (String c w) as t eqn:Et. revert w Et.
  induction H as [|p c0 Hc|r s u v Hu IHu Hv IHv|r s u Hu IHu
                 |r s u Hu IHu| |r u v Hu IHu Hv IHv]; intros w Et; simpl.
  - discriminate.
  - injection Et as -> <-. rewrite Hc. constructor.
  - destruct u as [|c1 u'].
    + simpl in Et. subst v.
      apply nullable_matches in Hu. rewrite Hu. apply MAltR. now apply IHv.
    + simpl in Et. injection Et as -> <-.
      destruct (nullable r); [apply MAltL|]; constructor; auto.
  - apply MAltL. auto.
  - apply MAltR. auto.
  - discriminate.
  - destruct u as [|c1 u'].
    + simpl in Et. now apply IHv.
    + simpl in Et. injection Et as -> <-. constructor; auto.
Qed.

(** The matcher by derivatives decides the language of the expression. *)
Lemma fullmatch_matches (r : regex) (w : string) :
  fullmatch r w = true <-> matches r w.
Proof.
  revert r. induction w as [|c w IH]; intros r; simpl.
  - apply nullable_matches.
  - rewrite IH. split; [apply matches_deriv | apply deriv_matches].
Qed.

Lemma matches_cat (r s : regex) (w : string) :
  matches (Cat r s) w <->
  exists u v, w = (u ++ v)%string /\ matches r u /\ matches s v.
Proof.
  split.
  - intros H. inversion H as [| |? ? u v Hu Hv| | | |]; subst. eauto.
  - intros (u & v & -> & Hu & Hv). now constructor.
Qed.

Lemma matches_chr (p : ascii -> bool) (w : string) :
  matches (Chr p) w <-> exists c, w = String c "" /\ p c = true.
Proof.
  split.
  - intros H. inversion H; subst. eauto.
  - intros (c & -> & Hc). now constructor.
Qed.

Lemma matches_star_chr (p : ascii -> bool) (w : string) :
  matches (Star (Chr p)) w <-> all_chars p w = true.
Proof.
  split.
  - intros H. remember (Star (Chr p)) as r eqn:Er.
    induction H as [| | | | | |r u v Hu IHu Hv IHv]; try discriminate.
    + reflexivity.
    + injection Er as ->. inversion Hu; subst. simpl.
      rewrite IHv by reflexivity. now rewrite H0.
  - induction w as [|c w IH]; simpl; intros H; [constructor|].
    apply andb_true_iff in H as [Hc Hw].
    change (String c w) with (String c "" ++ w)%string.
    constructor; [now constructor | auto].
Qed.

Lemma matches_plus_chr (p : ascii -> bool) (w : string) :
  matches (Plus (Chr p)) w <-> w <> ""%string /\ all_chars p w = true.
Proof.
  unfold Plus. rewrite matches_cat. split.
  - intros (u & v & -> & Hu & Hv).
    apply matches_chr in Hu as (c & -> & Hc).
    apply matches_star_chr in Hv. simpl. rewrite Hc, Hv. now split.
  - intros [Hne H]. destruct w as [|c w]; [contradiction|].
    simpl in H. apply andb_true_iff in H as [Hc Hw].
    exists (String c ""), w. split; [reflexivity|].
    split; [now constructor | now apply matches_star_chr].
Qed.

Lemma matches_two_or_more (p : ascii -> bool) (w : string) :
  matches (Cat (Chr p) (Cat (Chr p) (Star (Chr p)))) w <->
  (2 <= String.length w)%nat /\ all_chars p w = true.
Proof.
  rewrite matches_cat. split.
  - intros (u & v & -> & Hu & Hv).
    apply matches_chr in Hu as (c & -> & Hc).
    apply matches_cat in Hv as (u' & v' & -> & Hu' & Hv').
    apply matches_chr in Hu' as (c' & -> & Hc').
    apply matches_star_chr in Hv'. simpl. rewrite Hc, Hc', Hv'.
    split; [lia | reflexivity].
  - intros [Hlen H]. destruct w as [|c [|c' w]]; simpl in Hlen; try lia.
    simpl in H. apply andb_true_iff in H as [Hc H].
    apply andb_true_iff in H as [Hc' Hw].
    exists (String c ""), (String c' w). split; [reflexivity|].
    split; [now constructor|]. apply matches_cat.
    exists (String c' ""), w. split; [reflexivity|].
    split; [now constructor | now apply matches_star_chr].
Qed.

Lemma matches_char (a : ascii) (w : string) :
  matches (Chr (Ascii.eqb a)) w <-> w = String a "".
Proof.
  rewrite matches_chr. split.
  - intros (c & -> & Hc). apply Ascii.eqb_eq in Hc. now subst.
  - intros ->. exists a. split; [reflexivity | apply Ascii.eqb_refl].
Qed.

Lemma matches_email_regex (w : string) :
  matches email_regex w <-> well_formed_email w.
Proof.
  unfold email_regex, well_formed_email.
  fold local_char domain_char.
  change (fun c => is_letter c || is_digit c || one_of "._%+-" c)
    with local_char.
  change (fun c => is_letter c || is_digit c || one_of ".-" c)
    with domain_char.
  split.
  - intros H.
    apply matches_cat in H as (local & w1 & -> & Hlocal & H).
    apply matches_cat in H as (at_ & w2 & -> & Hat & H).
    apply matches_cat in H as (domain & w3 & -> & Hdomain & H).
    apply matches_cat in H as (dot & tld & -> & Hdot & Htld).
    apply matches_plus_chr in Hlocal as [Hl1 Hl2].
    apply matches_plus_chr in Hdomain as [Hd1 Hd2].
    apply matches_char in Hat as ->. apply matches_char in Hdot as ->.
    apply matches_two_or_more in Htld as [Ht1 Ht2].
    exists local, domain, tld. now repeat split.
  - intros (local & domain & tld & -> & Hl1 & Hl2 & Hd1 & Hd2 & Ht1 & Ht2).
    apply matches_cat. exists local, ("@" ++ domain ++ "." ++ tld)%string.
    split; [reflexivity|]. split; [now apply matches_plus_chr|].
    apply matches_cat. exists "@"%string, (domain ++ "." ++ tld)%string.
    split; [reflexivity|]. split; [now apply matches_char|].
    apply matches_cat. exists domain, ("." ++ tld)%string.
    split; [reflexivity|]. split; [now apply matches_plus_chr|].
    apply matches_cat. exists "."%string, tld.
    split; [reflexivity|]. split; [now apply matches_char|].
    now apply matches_two_or_more.
Qed.

(** X3.  An email passes the validation pattern exactly when it is a
    well-formed address local@domain.tld, or such an address followed by one
    newline character. *)
Theorem email_pattern_match_iff (e : string) :
  email_pattern_match e = true <->
  well_formed_email e \/
  exists e', e = (e' ++ String newline "")%string /\ well_formed_email e'.
Proof.
  unfold email_pattern_match. rewrite fullmatch_matches. split.
  - intros H. inversion H as [| | |? ? ? Hl|? ? ? Hr| |]; subst.
    + left. now apply matches_email_regex.
    + right. apply matches_cat in Hr as (e' & nl & -> & He' & Hnl).
      apply matches_char in Hnl as ->. exists e'.
      split; [reflexivity | now apply matches_email_regex].
  - intros [H|(e' & -> & H)].
    + apply MAltL. now apply matches_email_regex.
    + apply MAltR. constructor; [now apply matches_email_regex|].
      now apply matches_char.
Qed.

(** * Customer validation *)

(** X4.  Customer validation returns a table exactly when the file has its
    four required columns, its email column is not blank in every row of a
    file that has rows and, with pandas 2, holds no blank email at all; the
    table then has the rows of the file, in order, each with its email kept
    when it matches the pattern and null when it does not.  With the columns
    present it raises AttributeError when the file has rows and every email
    is blank, and else, with pandas 2, TypeError when an email is blank. *)
Theorem read_and_validate_customers_ok
    (pd : pandas) (df : Csv Customer.t) (cs : list Customer.t) :
  let emails := map Customer.email (rows df) in
  (read_and_validate_customers pd df = Ok cs <->
   has_columns (columns df) customers_required = true /\
   all_blank emails = false /\
   (pd = Pandas2 -> ~ In None emails) /\
   cs = map validate_customer (rows df)) /\
  (has_columns (columns df) customers_required = true ->
   all_blank emails = true ->
   read_and_validate_customers pd df = Raise AttributeError) /\
  (has_columns (columns df) customers_required = true ->
   all_blank emails = false -> In None emails ->
   read_and_validate_customers Pandas2 df
   = Raise (TypeError "bad operand type for unary ~: 'float'")).
Proof.
  intros emails. split; [split|split].
  - intros H. pose proof (read_and_validate_customers_map pd df cs H)
      as (Hcols & Hcs & Hnull).
    repeat split; try assumption.
    rewrite (read_and_validate_customers_eq pd df Hcols) in H.
    fold emails in H. now destruct (all_blank emails).
  - intros (Hcols & Hblank & Hnull & ->).
    rewrite (read_and_validate_customers_eq pd df Hcols).
    fold emails. rewrite Hblank. destruct pd; [|reflexivity].
    destruct (existsb is_null emails) eqn:En; [|reflexivity].
    apply existsb_is_null in En. now elim (Hnull eq_refl).
  - intros Hcols Hblank.
    rewrite (read_and_validate_customers_eq pd df Hcols).
    fold emails. now rewrite Hblank.
  - intros Hcols Hblank Hnull.
    rewrite (read_and_validate_customers_eq Pandas2 df Hcols).
    fold emails. rewrite Hblank.
    apply existsb_is_null in Hnull. now rewrite Hnull.
Qed.

(** * The tables extraction hands to the transform *)

Lemma orders_validation_ok (df : Csv Order.t) os :
  read_and_validate_orders df = Ok os ->
  os = rows df /\
  forall o, In o os -> flt (Order.total_amount o) (FNum 0) = false.
Proof.
  unfold read_and_validate_orders.
  destruct (has_columns _ _); simpl; [|discriminate].
  destruct (flt (col_min _) (FNum 0)) eqn:Emin; [discriminate|].
  intros [= <-]. split; [reflexivity|].
  intros o Ho. apply (proj1 (col_min_not_below _ _) Emin). now apply in_map.
Qed.

Lemma order_items_validation_ok (df : Csv OrderItem.t) items :
  read_and_validate_order_items df = Ok items ->
  items = rows df /\
  forall i, In i items ->
    0 < OrderItem.quantity i /\ flt (OrderItem.price i) (FNum 0) = false.
Proof.
  unfold read_and_validate_order_items.
  destruct (has_columns _ _); simpl; [|discriminate].
  destruct (min_le_zero _) eqn:Eq; [discriminate|].
  destruct (flt (col_min _) (FNum 0)) eqn:Emin; [discriminate|].
  intros [= <-]. split; [reflexivity|].
  intros i Hi. split.
  - apply (proj1 (col_min_int_positive _) Eq). now apply in_map.
  - apply (proj1 (col_min_not_below _ _) Emin). now apply in_map.
Qed.

Lemma sequence_length {A} (l : list (result A)) (r : list A) :
  sequence l = Ok r -> List.length r = List.length l.
Proof.
  revert r. induction l as [|[a|e] l IH]; intros r; simpl.
  - now intros [= <-].
  - destruct (sequence l) as [rest|]; simpl; [|discriminate].
    intros [= <-]. simpl. now rewrite (IH rest).
  - discriminate.
Qed.

Lemma map_fst_combine_all {A B} (l : list A) (l' : list B) :
  List.length l' = List.length l -> map fst (combine l l') = l.
Proof.
  revert l'. induction l as [|a l IH]; intros [|b l']; simpl; try easy.
  intros [= H]. now rewrite IH.
Qed.

Lemma categories_validation_ok (df : Csv RawCategory.t) cs :
  read_and_validate_categories df = Ok cs ->
  List.length cs = List.length (rows df) /\
  map Category.category_id cs = map RawCategory.category_id (rows df) /\
  forall c, In c cs -> Category.description c <> None.
Proof.
  unfold read_and_validate_categories, astype_Int64.
  destruct (has_columns _ _); simpl; [|discriminate].
  destruct (sequence _) as [parent_ids|] eqn:Es; simpl; [|discriminate].
  apply sequence_length in Es. rewrite !length_map in Es.
  intros [= <-]. split; [|split].
  - rewrite length_map, length_combine, Es. apply Nat.min_id.
  - rewrite map_map.
    rewrite <- (map_fst_combine_all (rows df) parent_ids Es) at 2.
    rewrite map_map. apply map_ext. now intros [c parent_id].
  - intros c Hc. apply in_map_iff in Hc as ([c0 parent_id] & <- & _). simpl.
    now destruct (RawCategory.description c0).
Qed.

Lemma validated_email_matches (c : Customer.t) (e : string) :
  Customer.email (validate_customer c) = Some e ->
  email_pattern_match e = true.
Proof.
  rewrite validate_customer_email. unfold has_valid_email.
  destruct (Customer.email c) as [e0|]; [|discriminate].
  destruct (email_pattern_match e0) eqn:Em; [|discriminate].
  now intros [= <-].
Qed.


(** X5.  When extraction succeeds, the tables it hands on hold no product
    price, order total_amount or order-item price below 0 and no order-item
    quantity of 0 or less; every email left in the customers table matches
    the validation pattern; no product has a null description, weight or
    is_active; orders and order items are the rows of their files,
    unchanged, and the other three tables have as many rows as their
    files. *)
Theorem extract_postconditions (pd : pandas) (files : CsvFiles) (x : Extracted) :
  extract pd files = Ok x ->
  (forall p, In p (x_products x) ->
     flt (Product.price p) (FNum 0) = false /\ product_is_clean p) /\
  (forall o, In o (x_orders x) ->
     flt (Order.total_amount o) (FNum 0) = false) /\
  (forall i, In i (x_order_items x) ->
     0 < OrderItem.quantity i /\ flt (OrderItem.price i) (FNum 0) = false) /\
  (forall c e, In c (x_customers x) -> Customer.email c = Some e ->
     email_pattern_match e = true) /\
  x_orders x = rows (orders_csv files) /\
  x_order_items x = rows (order_items_csv files) /\
  List.length (x_categories x)
  = List.length (rows (product_categories_csv files)) /\
  List.length (x_products x) = List.length (rows (products_csv files)) /\
  List.length (x_customers x) = List.length (rows (customers_csv files)).
Proof.
  unfold extract.
  destruct (read_and_validate_categories _) as [cs|] eqn:Ec; simpl;
    [|discriminate].
  destruct (read_and_validate_products _) as [ps|] eqn:Ep; simpl;
    [|discriminate].
  destruct (read_and_validate_customers pd _) as [us|] eqn:Eu; simpl;
    [|discriminate].
  destruct (read_and_validate_orders _) as [os|] eqn:Eo; simpl;
    [|discriminate].
  destruct (read_and_validate_order_items _) as [items|] eqn:Ei; simpl;
    [|discriminate].
  intros [= <-]. simpl.
  apply categories_validation_ok in Ec as (Hc & _).
  apply products_validation_iff in Ep as (_ & Hprice & _ & _ & _ & ->).
  apply read_and_validate_customers_map in Eu as (_ & -> & _).
  apply orders_validation_ok in Eo as [-> Ho].
  apply order_items_validation_ok in Ei as [-> Hi].
  rewrite !length_map. repeat split; try assumption; try reflexivity.
  - apply in_map_iff in H as (p0 & <- & Hp0). simpl. now apply Hprice.
  - apply in_map_iff in H as (p0 & <- & Hp0).
    apply (clean_product_is_clean p0).
  - apply in_map_iff in H as (p0 & <- & Hp0).
    apply (clean_product_is_clean p0).
  - apply in_map_iff in H as (p0 & <- & Hp0).
    apply (clean_product_is_clean p0).
  - now apply Hi.
  - now apply Hi.
  - intros c e Hc' He. apply in_map_iff in Hc' as (c0 & <- & _).
    now apply validated_email_matches in He.
Qed.

Lemma extract_postconditions_witness :
  exists x,
    extract Pandas2 Sample.files = Ok x /\
    x_orders x = rows (orders_csv Sample.files) /\
    forall i, In i (x_order_items x) -> 0 < OrderItem.quantity i.
Proof.
  eexists. assert (H : extract Pandas2 Sample.files = Ok _) by reflexivity.
  split; [exact H|].
  destruct (extract_postconditions Pandas2 Sample.files _ H)
    as (_ & _ & Hi & _ & Ho & _).
  split; [exact Ho | intros i HIn; exact (proj1 (Hi i HIn))].
Defined.

(** * A run without orders *)




(** * The rows of the time dimension *)

Lemma date_range_dates (first last : Timestamp) :
  first <= last ->
  date_range first last
  = map (fun k => first + Z.of_nat k * ns_per_day)
      (seq 0 (Z.to_nat ((last - first) / ns_per_day + 1))).
Proof.
  intros Hle. unfold date_range.
  destruct (last <? first) eqn:E; [apply Z.ltb_lt in E; lia | reflexivity].
Qed.

Lemma NoDup_map_injective {A B} (f : A -> B) (l : list A) :
  (forall a b, In a l -> In b l -> f a = f b -> a = b) ->
  NoDup l -> NoDup (map f l).
Proof.
  induction l as [|a l IH]; intros Hinj ND; simpl; [constructor|].
  inversion ND as [|? ? Hnotin ND']; subst. constructor.
  - intros HIn. apply in_map_iff in HIn as (b & Hb & HIn).
    apply Hnotin. rewrite (Hinj a b); auto; [now left | now right].
  - apply IH; [|assumption]. intros x y Hx Hy. apply Hinj; now right.
Qed.

Lemma dayofweek_range (t : Timestamp) : 0 <= dayofweek t <= 6.
Proof.
  unfold dayofweek. pose proof (Z.mod_pos_bound (day_number t + 3) 7). lia.
Qed.

Lemma time_dimension_shape (orders_df : list OrderE.t) (dim : list DimTime.t) :
  generate_time_dimension orders_df = Ok dim ->
  exists (first last : Timestamp) (n : nat),
    is_minimum first (order_dates orders_df) /\
    is_maximum last (order_dates orders_df) /\
    n = Z.to_nat ((last - first) / ns_per_day + 1) /\ (1 <= n)%nat /\
    map DimTime.date dim
    = map (fun k => first + Z.of_nat k * ns_per_day) (seq 0 n) /\
    (forall r, In r dim -> first <= DimTime.date r <= last) /\
    last < first + Z.of_nat n * ns_per_day /\
    NoDup (map (fun r => day_number (DimTime.date r)) dim) /\
    (forall r, In r dim ->
       DimTime.is_holiday r = false /\
       0 <= DimTime.day_of_week r <= 6 /\
       (DimTime.is_weekend r = true <-> 5 <= DimTime.day_of_week r)).
Proof.
  unfold generate_time_dimension. intros H.
  assert (Hdates : order_dates orders_df <> []).
  { intros E. rewrite E in H. discriminate. }
  destruct (ts_min_spec _ Hdates) as (first & Efirst & Hfirst).
  destruct (ts_max_spec _ Hdates) as (last & Elast & Hlast).
  rewrite Efirst, Elast in H. injection H as <-.
  assert (Hle : first <= last) by (apply Hfirst; apply Hlast).
  pose proof ns_per_day_pos as Hpos.
  set (d := (last - first) / ns_per_day).
  assert (Hd : 0 <= d) by (apply Z.div_pos; lia).
  assert (Hlow : d * ns_per_day <= last - first).
  { unfold d. rewrite Z.mul_comm. apply Z.mul_div_le. lia. }
  assert (Hhigh : last - first < (d + 1) * ns_per_day).
  { unfold d. rewrite Z.mul_comm.
    replace ((last - first) / ns_per_day + 1)
      with (Z.succ ((last - first) / ns_per_day)) by lia.
    apply Z.mul_succ_div_gt. lia. }
  assert (Hrows : forall r,
             In r (map dim_time_row (date_range first last)) ->
             exists k, (k < Z.to_nat (d + 1))%nat /\
                       r = dim_time_row (first + Z.of_nat k * ns_per_day)).
  { intros r Hr. apply in_map_iff in Hr as (t & <- & Ht).
    rewrite date_range_dates in Ht by assumption.
    apply in_map_iff in Ht as (k & <- & Hk). apply in_seq in Hk.
    exists k. split; [fold d in Hk; lia | reflexivity]. }
  exists first, last, (Z.to_nat (d + 1)).
  split; [easy|]. split; [easy|]. split; [reflexivity|]. split; [lia|].
  split; [|split; [|split; [|split]]].
  - rewrite map_map. simpl. rewrite map_id. now apply date_range_dates.
  - intros r Hr. destruct (Hrows r Hr) as (k & Hk & ->). simpl. nia.
  - rewrite Z2Nat.id by lia. lia.
  - rewrite map_map. simpl. rewrite date_range_dates by assumption.
    rewrite map_map. fold d.
    apply NoDup_map_injective; [|apply seq_NoDup].
    intros a b _ _ Hab. rewrite !day_number_add in Hab. lia.
  - intros r Hr. destruct (Hrows r Hr) as (k & _ & ->). simpl.
    split; [reflexivity|]. split; [apply dayofweek_range|].
    pose proof (dayofweek_range (first + Z.of_nat k * ns_per_day)) as Hw.
    rewrite orb_false_r, orb_true_iff, !Z.eqb_eq. lia.
Qed.

(** X7.  The time dimension starts at the earliest order timestamp and goes
    on in steps of exactly one day for as long as it does not pass the
    latest order timestamp: every date lies between the two, one more step
    would pass the latest, no two rows fall on the same calendar day, no row
    is a holiday, and a row is a weekend row exactly when its day of the
    week is 5 or 6 (Saturday or Sunday). *)
Theorem time_dimension_rows (orders_df : list OrderE.t) (dim : list DimTime.t) :
  generate_time_dimension orders_df = Ok dim ->
  exists (first last : Timestamp) (n : nat),
    is_minimum first (order_dates orders_df) /\
    is_maximum last (order_dates orders_df) /\
    n = Z.to_nat ((last - first) / ns_per_day + 1) /\ (1 <= n)%nat /\
    map DimTime.date dim
    = map (fun k => first + Z.of_nat k * ns_per_day) (seq 0 n) /\
    (forall r, In r dim -> first <= DimTime.date r <= last) /\
    last < first + Z.of_nat n * ns_per_day /\
    NoDup (map (fun r => day_number (DimTime.date r)) dim) /\
    (forall r, In r dim ->
       DimTime.is_holiday r = false /\
       0 <= DimTime.day_of_week r <= 6 /\
       (DimTime.is_weekend r = true <-> 5 <= DimTime.day_of_week r)).
Proof.
  exact (time_dimension_shape orders_df dim).
Qed.

Lemma time_dimension_rows_witness :
  exists dim first last n,
    generate_time_dimension
      (calculate_order_revenue [Sample.order1; Sample.order2] [] [])
    = Ok dim /\
    map DimTime.date dim
    = map (fun k => first + Z.of_nat k * ns_per_day) (seq 0 n) /\
    last < first + Z.of_nat n * ns_per_day.
Proof.
  eexists.
  assert (H : generate_time_dimension
                (calculate_order_revenue [Sample.order1; Sample.order2] [] [])
              = Ok _) by reflexivity.
  destruct (time_dimension_rows _ _ H)
    as (first & last & n & _ & _ & _ & _ & Hd & _ & Hn & _).
  exists first, last, n. split; [exact H|]. split; [exact Hd | exact Hn].
Defined.

(** X8.  When some order has an order date and every order date is at
    midnight, the time dimension has exactly one row for each calendar day
    from the day of the earliest order to the day of the latest, in order,
    each dated at midnight. *)
Theorem time_dimension_of_whole_days (orders_df : list OrderE.t) :
  order_dates orders_df <> [] ->
  (forall t, In t (order_dates orders_df) -> t = floor_day t) ->
  exists dim first last,
    generate_time_dimension orders_df = Ok dim /\
    is_minimum first (order_dates orders_df) /\
    is_maximum last (order_dates orders_df) /\
    map (fun r => day_number (DimTime.date r)) dim
    = map (fun k => day_number first + Z.of_nat k)
        (seq 0 (Z.to_nat (day_number last - day_number first + 1))) /\
    (forall r, In r dim -> DimTime.date r = floor_day (DimTime.date r)).
Proof.
  intros Hne Hmid.
  destruct (generate_time_dimension_midnight orders_df Hne Hmid)
    as (dim & first & last & Hdim & Hfirst & Hlast & Hdays).
  exists dim, first, last. repeat split; try assumption; try apply Hfirst;
    try apply Hlast.
  intros r Hr.
  destruct (time_dimension_shape _ _ Hdim)
    as (first' & last' & n & Hfirst' & _ & _ & _ & Hdates & _).
  assert (Hin : In (DimTime.date r) (map DimTime.date dim)) by now apply in_map.
  rewrite Hdates in Hin. apply in_map_iff in Hin as (k & <- & _).
  assert (Hf : first' = floor_day first') by apply Hmid, Hfirst'.
  unfold floor_day in *. rewrite day_number_add, Z.mul_add_distr_r.
  now rewrite <- Hf.
Qed.

Lemma time_dimension_of_whole_days_witness :
  exists dim,
    generate_time_dimension
      (calculate_order_revenue [Sample2.order3; Sample2.order4] [] [])
    = Ok dim /\
    map (fun r => day_number (DimTime.date r)) dim = [19727; 19728; 19729].
Proof.
  assert (Hne : order_dates
                  (calculate_order_revenue [Sample2.order3; Sample2.order4]
                     [] []) <> []) by discriminate.
  assert (Hmid : forall t,
             In t (order_dates
                     (calculate_order_revenue [Sample2.order3; Sample2.order4]
                        [] [])) ->
             t = floor_day t).
  { intros t [<-|[<-|[]]]; reflexivity. }
  destruct (time_dimension_of_whole_days _ Hne Hmid)
    as (dim & first & last & Hdim & _).
  exists dim. split; [exact Hdim|].
  vm_compute in Hdim. injection Hdim as <-. reflexivity.
Defined.

(** * Daily sales: what is counted, and how often *)

Lemma fold_add_acc (l : list Z) (a : Z) :
  fold_left Z.add l a = a + fold_left Z.add l 0.
Proof.
  revert a. induction l as [|x l IH]; intros a; simpl; [lia|].
  rewrite (IH (a + x)), (IH x). lia.
Qed.

Lemma Zsum_cons (x : Z) (l : list Z) : Zsum (x :: l) = x + Zsum l.
Proof. unfold Zsum. simpl. apply fold_add_acc. Qed.

Lemma Zsum_app (l l' : list Z) : Zsum (l ++ l') = Zsum l + Zsum l'.
Proof.
  induction l as [|x l IH]; simpl; [reflexivity|].
  rewrite !Zsum_cons, IH. lia.
Qed.

Lemma Zsum_perm (l l' : list Z) : Permutation l l' -> Zsum l = Zsum l'.
Proof.
  induction 1; rewrite ?Zsum_cons in *; lia.
Qed.


Section GroupSums.
Context {K V : Type}.
Variable eqb : K -> K -> bool.
Variable leb : K -> K -> bool.
Variable weight : V -> Z.

Lemma groups_sum_add (k : K) (v : V) (gs : list (K * list V)) :
  groups_sum weight (group_add eqb k v gs) = groups_sum weight gs + weight v.
Proof.
  unfold groups_sum.
  induction gs as [|[k' vs] tl IH]; simpl.
  - unfold Zsum. simpl. lia.
  - destruct (eqb k k'); simpl; rewrite !Zsum_cons.
    + rewrite map_app, Zsum_app. simpl. unfold Zsum at 2. simpl. lia.
    + rewrite IH. lia.
Qed.

Lemma groups_sum_rows (key : V -> option K) (rows : list V) :
  groups_sum weight (group_rows eqb key rows)
  = Zsum (map weight
            (filter (fun v => match key v with Some _ => true | None => false end)
               rows)).
Proof.
  induction rows as [|v rows IH] using rev_ind; [reflexivity|].
  rewrite group_rows_snoc, filter_app, map_app, Zsum_app. simpl.
  destruct (key v); simpl.
  - rewrite groups_sum_add, IH. unfold Zsum at 3. simpl. lia.
  - rewrite IH. unfold Zsum at 3. simpl. lia.
Qed.

Lemma groups_sum_groupby (key : V -> option K) (rows : list V) :
  groups_sum weight (groupby eqb leb key rows)
  = Zsum (map weight
            (filter (fun v => match key v with Some _ => true | None => false end)
               rows)).
Proof.
  rewrite <- groups_sum_rows. unfold groupby, groups_sum.
  apply Zsum_perm, Permutation_map, sort_groups_perm.
Qed.
End GroupSums.

Lemma wrap64_congruent (z : Z) : exists k : Z, wrap64 z = z + k * 2 ^ 64.
Proof.
  unfold wrap64. exists (- ((z + 2 ^ 63) / 2 ^ 64)).
  pose proof (Z.div_mod (z + 2 ^ 63) (2 ^ 64)) as Hd. lia.
Qed.

Lemma Zsum_wrap64 (l : list Z) :
  exists k : Z, Zsum (map wrap64 l) = Zsum l + k * 2 ^ 64.
Proof.
  induction l as [|z l [k IH]]; simpl.
  - now exists 0.
  - rewrite !Zsum_cons, IH. destruct (wrap64_congruent z) as [k' ->].
    exists (k + k'). lia.
Qed.

Lemma Zsum_nonneg (l : list Z) : (forall x, In x l -> 0 <= x) -> 0 <= Zsum l.
Proof.
  induction l as [|x l IH]; intros H; [unfold Zsum; simpl; lia|].
  rewrite Zsum_cons. specialize (H x (or_introl eq_refl)) as Hx.
  assert (0 <= Zsum l) by (apply IH; intros y Hy; apply H; now right). lia.
Qed.

Lemma Zsum_member (l : list Z) (x : Z) :
  (forall y, In y l -> 0 <= y) -> In x l -> x <= Zsum l.
Proof.
  induction l as [|y l IH]; intros H HIn; [contradiction|].
  rewrite Zsum_cons.
  assert (Hl : forall z, In z l -> 0 <= z) by (intros z Hz; apply H; now right).
  pose proof (Zsum_nonneg l Hl). specialize (H y (or_introl eq_refl)).
  destruct HIn as [->|HIn]; [lia|]. specialize (IH Hl HIn). lia.
Qed.

Lemma counted_key (r : Joined.t) :
  counted_in_daily_sales r
  = not_cancelled r && match daily_key r with Some _ => true | None => false end.
Proof.
  unfold counted_in_daily_sales, daily_key. rewrite not_cancelled_spec.
  destruct (Joined.order_date r), (Joined.category_id r); reflexivity.
Qed.

(** X9.  The units_sold of the daily sales rows add up, modulo 2 ** 64, to
    the quantities of the joined order-item rows that are neither Cancelled
    nor Returned and have an order date and a category: each such row is
    counted in exactly one daily row, and no other row is counted.  When
    none of these quantities is negative and they add up to less than
    2 ** 63, no row wraps around and the units_sold add up to exactly that
    sum. *)
Theorem daily_sales_units_add_up
    (orders_df : list OrderE.t) (items_df : list OrderItem.t)
    (products_df : list ProductE.t) :
  let counted :=
    filter counted_in_daily_sales
      (joined_items (map OrderCols.select orders_df) items_df
         (map ProductCols.select products_df)) in
  let units :=
    map DailySales.units_sold
      (aggregate_daily_sales orders_df items_df products_df) in
  (exists k : Z,
     Zsum units = Zsum (map Joined.quantity counted) + k * 2 ^ 64) /\
  ((forall r, In r counted -> 0 <= Joined.quantity r) ->
   Zsum (map Joined.quantity counted) < 2 ^ 63 ->
   Zsum units = Zsum (map Joined.quantity counted)).
Proof.
  intros counted units. unfold units, aggregate_daily_sales, daily_sales_from.
  set (joined := joined_items _ _ _) in *.
  set (gs := groupby daily_key_eqb daily_key_leb daily_key
               (filter not_cancelled joined)).
  assert (Hunits : map DailySales.units_sold
                     (map (fun '(k, g) => daily_row k g) gs)
                   = map wrap64
                       (map (fun g => Zsum (map Joined.quantity (snd g))) gs)).
  { rewrite !map_map. apply map_ext. now intros [[[d p] c] g]. }
  assert (Htotal : Zsum (map (fun g => Zsum (map Joined.quantity (snd g))) gs)
                   = Zsum (map Joined.quantity counted)).
  { change (Zsum (map (fun g => Zsum (map Joined.quantity (snd g))) gs))
      with (groups_sum Joined.quantity gs).
    unfold gs. rewrite groups_sum_groupby, filter_twice. unfold counted.
    f_equal. f_equal. apply filter_ext. intros r. now rewrite counted_key. }
  rewrite Hunits. split.
  - rewrite <- Htotal. apply Zsum_wrap64.
  - intros Hpos Hsmall. rewrite <- Htotal. f_equal.
    rewrite <- (map_id (map _ gs)) at 2. apply map_ext_in.
    intros z Hz. apply wrap64_in_range.
    assert (Hnonneg : forall y,
               In y (map (fun g => Zsum (map Joined.quantity (snd g))) gs) ->
               0 <= y).
    { intros y Hy. apply in_map_iff in Hy as ([k g] & <- & Hg). simpl.
      apply Zsum_nonneg. intros q Hq.
      apply in_map_iff in Hq as (r & <- & Hr). apply Hpos.
      apply (groupby_In _ _ daily_key_eqb_eq) in Hg as [-> _].
      apply filter_In in Hr as [Hr Hk]. apply filter_In in Hr as [Hr Hc].
      apply filter_In. split; [exact Hr|].
      rewrite counted_key, Hc. unfold has_key in Hk.
      now destruct (daily_key r). }
    pose proof (Hnonneg z Hz). pose proof (Zsum_member _ z Hnonneg Hz). lia.
Qed.






Lemma transform_tables (x : Extracted) (dfs : Dfs) :
  transform x = Ok dfs ->
  has_column (x_products_columns x) "cost" = true /\
  categories dfs = x_categories x /\
  products dfs = transform_product_data (x_products x) (x_categories x) /\
  orders dfs
  = calculate_order_revenue (x_orders x) (x_order_items x) (products dfs) /\
  customers dfs = enrich_customer_data (x_customers x) (orders dfs) /\
  order_items dfs = x_order_items x /\
  order_items_columns dfs = x_order_items_columns x /\
  daily_sales dfs
  = aggregate_daily_sales (orders dfs) (order_items dfs) (products dfs) /\
  generate_time_dimension (orders dfs) = Ok (dim_time dfs).
Proof.
  unfold transform, require_column.
  destruct (has_column _ _); simpl; [|discriminate].
  destruct (generate_time_dimension _) as [dim|] eqn:Ed; simpl; [|discriminate].
  intros [= <-]. simpl. now repeat split.
Qed.


Lemma sample_files_extracted :
  extract Pandas2 Sample.files = Ok Sample.extracted.
Proof. vm_compute. reflexivity. Defined.


(** * Customer metrics: what they can be *)

(** X11.  A customer that has metrics after enrichment has at least one
    order counted.  Either it has a first and a last order date, the first
    not after the last, and its days_between_orders is a number, 0 or more;
    or none of its counted orders has an order date, both dates are null and
    days_between_orders is NaN.  It is never infinite. *)
Theorem customer_metrics_are_sound
    (customers_df : list Customer.t) (orders_df : list OrderE.t)
    (c : CustomerE.t) (n : Z) :
  In c (enrich_customer_data customers_df orders_df) ->
  CustomerE.total_orders c = Some n ->
  1 <= n /\
  ((exists first last : Timestamp,
      CustomerE.first_order_date c = Some first /\
      CustomerE.last_order_date c = Some last /\
      first <= last /\
      0 <= timedelta_days last first /\
      CustomerE.days_between_orders c
      = FNum (inject_Z (timedelta_days last first) / inject_Z n) /\
      (0 <= inject_Z (timedelta_days last first) / inject_Z n)%Q) \/
   (CustomerE.first_order_date c = None /\
    CustomerE.last_order_date c = None /\
    CustomerE.days_between_orders c = FNaN /\
    forall o, In o (qualifying_orders orders_df (CustomerE.customer_id c)) ->
              OrderE.order_date o = None)).
Proof.
  intros HIn Hn. unfold enrich_customer_data in HIn.
  rewrite merge_left_functional in HIn by (intros; apply customer_match_unique).
  rewrite map_map in HIn. apply in_map_iff in HIn as (c0 & <- & _).
  pose proof (find_customer_metrics orders_df c0) as Hfind.
  destruct (find _ _) as [m|]; simpl in *; [|discriminate].
  destruct Hfind as [Hne ->]. simpl in *. injection Hn as <-.
  unfold CustomerE.customer_id. simpl.
  set (q := qualifying_orders orders_df (Customer.customer_id c0)) in *.
  assert (Hlen : 1 <= Z.of_nat (List.length q)).
  { destruct q; [contradiction | simpl; lia]. }
  split; [easy|].
  destruct (dropna (map OrderE.order_date q)) as [|d tl] eqn:Ed.
  - right. simpl. repeat split.
    intros o Ho. destruct (OrderE.order_date o) as [t|] eqn:Eo; [|reflexivity].
    assert (Ht : In t (dropna (map OrderE.order_date q))).
    { apply In_dropna. rewrite <- Eo. now apply in_map. }
    rewrite Ed in Ht. contradiction.
  - left. rewrite <- Ed.
    assert (Hdates : dropna (map OrderE.order_date q) <> [])
      by (rewrite Ed; discriminate).
    destruct (ts_min_spec _ Hdates) as (first & Ef & Hf).
    destruct (ts_max_spec _ Hdates) as (last & El & Hl).
    assert (Hle : first <= last) by (apply Hf; apply Hl).
    assert (Hdays : 0 <= timedelta_days last first).
    { unfold timedelta_days. apply Z.div_pos; [lia | reflexivity]. }
    exists first, last. rewrite Ef, El. simpl.
    repeat split; try assumption.
    + unfold Qzero_b. simpl.
      destruct (Z.of_nat (List.length q) =? 0) eqn:E; [|reflexivity].
      apply Z.eqb_eq in E. lia.
    + apply Qle_shift_div_l.
      * unfold Qlt. simpl. lia.
      * unfold Qle. simpl. lia.
Qed.

Lemma customer_metrics_are_sound_witness :
  exists c,
    In c (enrich_customer_data [Sample.alice]
            (calculate_order_revenue [Sample.order1; Sample.order2] [] [])) /\
    CustomerE.total_orders c = Some 2 /\
    1 <= 2.
Proof.
  eexists.
  assert (HIn : In _ (enrich_customer_data [Sample.alice]
                        (calculate_order_revenue
                           [Sample.order1; Sample.order2] [] [])))
    by (left; reflexivity).
  split; [exact HIn|]. split; [reflexivity|].
  exact (proj1 (customer_metrics_are_sound _ _ _ 2 HIn eq_refl)).
Defined.

(** * Products and their categories *)



(** * Orders whose products are unknown *)

Lemma merge_left_covers {L R} (on : L -> R -> bool) (left : list L)
    (right : list R) (l : L) :
  In l left -> exists o, In (l, o) (merge_left on left right).
Proof.
  intros HIn. destruct (filter (on l) right) as [|r tl] eqn:Ef.
  - exists None. apply merge_left_In. now split.
  - exists (Some r). apply merge_left_In. split; [easy|].
    assert (Hr : In r (filter (on l) right)) by (rewrite Ef; now left).
    now apply filter_In in Hr.
Qed.

Lemma items_with_products_In items_df products_df r :
  In r (items_with_products items_df products_df) <->
  In (ItemWithProduct.item r) items_df /\
  exists cost,
    r = ItemWithProduct.mk (ItemWithProduct.item r) cost
          (item_profit (ItemWithProduct.item r) cost) /\
    ((exists p, In p products_df /\
                product_matches (ItemWithProduct.item r) p = true /\
                cost = ProductE.cost p) \/
     (without_product products_df (ItemWithProduct.item r) /\ cost = FNaN)).
Proof.
  unfold items_with_products. rewrite in_map_iff. split.
  - intros ([i o] & <- & HIn). apply merge_left_In in HIn as [Hi Ho].
    simpl. split; [easy|]. destruct o as [p|].
    + exists (ProductE.cost p). split; [reflexivity|]. left.
      exists p. tauto.
    + exists FNaN. split; [reflexivity|]. right. split; [|reflexivity].
      intros p Hp. destruct (product_matches i p) eqn:E; [|reflexivity].
      assert (HIn : In p (filter (product_matches i) products_df))
        by now apply filter_In.
      rewrite Ho in HIn. contradiction.
  - intros (Hi & cost & Hr & Hcost).
    destruct Hcost as [(p & Hp & Hm & ->)|(Hnone & ->)].
    + exists (ItemWithProduct.item r, Some p). split; [now rewrite Hr at 3|].
      apply merge_left_In. now split.
    + exists (ItemWithProduct.item r, None). split; [now rewrite Hr at 2|].
      apply merge_left_In. split; [easy|].
      destruct (filter _ products_df) as [|p tl] eqn:Ef; [reflexivity|].
      assert (HIn : In p (filter (product_matches (ItemWithProduct.item r))
                            products_df)) by (rewrite Ef; now left).
      apply filter_In in HIn as [Hp Hm]. rewrite (Hnone p Hp) in Hm.
      discriminate.
Qed.

Lemma fsum_all_nan (l : list float64) :
  (forall x, In x l -> x = FNaN) -> fsum l = FNum 0.
Proof.
  intros H. unfold fsum.
  assert (Hnil : filter notna l = []).
  { induction l as [|x l IH]; [reflexivity|]. simpl.
    rewrite (H x (or_introl eq_refl)). simpl. apply IH.
    intros y Hy. apply H. now right. }
  now rewrite Hnil.
Qed.

Lemma item_profit_nan (i : OrderItem.t) : item_profit i FNaN = FNaN.
Proof.
  unfold item_profit, fsub. simpl. now destruct (OrderItem.total i).
Qed.

(** The row of an order after the revenue step, from the rows of the merge
    of the order items with the products. *)
Lemma order_revenue_row orders_df items_df products_df o :
  In o (calculate_order_revenue orders_df items_df products_df) ->
  let g := order_rows (items_with_products items_df products_df)
             (OrderE.order_id o) in
  In (OrderE.base o) orders_df /\
  (g <> [] ->
   OrderE.total o = fsum (map ItemWithProduct.total g) /\
   OrderE.profit o = fsum (map ItemWithProduct.profit g) /\
   OrderE.quantity o = Some (int64_sum (map ItemWithProduct.quantity g))) /\
  (g = [] ->
   OrderE.total o = FNaN /\ OrderE.profit o = FNaN /\
   OrderE.quantity o = None).
Proof.
  intros HIn. unfold calculate_order_revenue in HIn.
  rewrite merge_left_functional in HIn by (intros; apply metrics_match_unique).
  rewrite map_map in HIn. apply in_map_iff in HIn as (o0 & <- & Ho0).
  pose proof (find_order_metrics (items_with_products items_df products_df) o0)
    as Hfind.
  destruct (find _ _) as [m|]; unfold OrderE.order_id; simpl.
  - destruct Hfind as [Hne ->]. simpl.
    split; [easy|]. split; [now intros _ | intros E; contradiction].
  - split; [easy|]. split; [intros Hne; contradiction | now intros _].
Qed.

(** X13.  An order that has order items, none of which finds its product in
    the product table, gets a profit of 0 from the revenue step, not a null:
    the per-item profits are all null and the sum skips them. *)
Theorem unknown_products_give_zero_profit
    (orders_df : list Order.t) (items_df : list OrderItem.t)
    (products_df : list ProductE.t) (o : OrderE.t) :
  In o (calculate_order_revenue orders_df items_df products_df) ->
  items_of items_df (OrderE.order_id o) <> [] ->
  (forall i, In i (items_of items_df (OrderE.order_id o)) ->
             without_product products_df i) ->
  OrderE.profit o = FNum 0 /\
  exists quantity, OrderE.quantity o = Some quantity.
Proof.
  intros HIn Hitems Hnone.
  destruct (order_revenue_row _ _ _ _ HIn) as (_ & Hsome & _).
  set (g := order_rows (items_with_products items_df products_df)
              (OrderE.order_id o)) in *.
  assert (Hg : g <> []).
  { destruct (items_of items_df (OrderE.order_id o)) as [|i tl] eqn:Ei;
      [contradiction|].
    assert (Hi : In i (items_of items_df (OrderE.order_id o)))
      by (rewrite Ei; now left).
    apply filter_In in Hi as [Hi Hid].
    destruct (merge_left_covers product_matches items_df products_df i Hi)
      as [p Hp].
    intros Hnil.
    assert (Hr : In (ItemWithProduct.mk i
                       (match p with
                        | Some p => ProductE.cost p
                        | None => FNaN
                        end)
                       (item_profit i
                          (match p with
                           | Some p => ProductE.cost p
                           | None => FNaN
                           end))) g).
    { apply filter_In. split; [|exact Hid].
      unfold items_with_products. apply in_map_iff. now exists (i, p). }
    rewrite Hnil in Hr. contradiction. }
  destruct (Hsome Hg) as (_ & Hprofit & Hquantity).
  split; [|eauto]. rewrite Hprofit. apply fsum_all_nan.
  intros x Hx. apply in_map_iff in Hx as (r & <- & Hr).
  apply filter_In in Hr as [Hr Hid].
  apply items_with_products_In in Hr as (Hi & cost & Er & Hcost).
  assert (Hwithout : without_product products_df (ItemWithProduct.item r)).
  { apply Hnone. apply filter_In. now split. }
  destruct Hcost as [(p & Hp & Hm & _)|(_ & ->)].
  - rewrite (Hwithout p Hp) in Hm. discriminate.
  - rewrite Er. simpl. apply item_profit_nan.
Qed.

Lemma unknown_products_give_zero_profit_witness :
  exists o,
    In o (calculate_order_revenue [Sample2.order4] [Sample2.item5] []) /\
    OrderE.profit o = FNum 0.
Proof.
  eexists.
  assert (HIn : In _ (calculate_order_revenue [Sample2.order4]
                        [Sample2.item5] [])) by (left; reflexivity).
  split; [exact HIn|].
  refine (proj1 (unknown_products_give_zero_profit _ _ _ _ HIn _ _)).
  - discriminate.
  - intros i _ p [].
Defined.

(** * The quality check *)









(** * The report of a run ([process_data]) *)

Lemma run_success (pd : pandas) (to_sql_fails : string -> bool) files x dfs
    log :
  extract pd files = Ok x -> transform x = Ok dfs ->
  (forall t, to_sql_fails t = false) ->
  run to_sql_fails pd files log = (Ok dfs, log ++ load_plan dfs ++ [Dispose]).
Proof.
  intros Hx Ht Hdb.
  unfold run, finally, and_then, pure. rewrite Hx, Ht.
  unfold load, load_dimension_tables, load_fact_tables, and_then,
    bulk_insert_df.
  rewrite !Hdb. unfold load_plan. now rewrite <- !app_assoc.
Qed.

Lemma extracted_customers (pd : pandas) (files : CsvFiles) (x : Extracted) :
  extract pd files = Ok x ->
  x_customers x = map validate_customer (rows (customers_csv files)).
Proof.
  unfold extract.
  destruct (read_and_validate_categories _); simpl; [|discriminate].
  destruct (read_and_validate_products _); simpl; [|discriminate].
  destruct (read_and_validate_customers pd _) as [cs|] eqn:Ec; simpl;
    [|discriminate].
  destruct (read_and_validate_orders _); simpl; [|discriminate].
  destruct (read_and_validate_order_items _); simpl; [|discriminate].
  intros [= <-]. simpl.
  now apply read_and_validate_customers_map in Ec as (_ & -> & _).
Qed.

(** X16.  A run in which extraction and transformation succeed and the
    database refuses nothing writes the seven tables and releases the engine;
    [process_data] then checks the quality of categories, products,
    customers, orders and order items in that order and releases the engine a
    second time.  With pandas 2, if validation nulled an email, the check of
    the customers table raises TypeError, after the warehouse has been
    loaded.  Otherwise [process_data] returns the number of rows and the
    metrics of the five tables, the invalid_emails of the customers being
    the number of rows of the file whose email did not match the pattern. *)
Theorem process_data_outcome (pd : pandas)
    (now : Timestamp) (to_sql_fails : string -> bool) (files : CsvFiles)
    (x : Extracted) (dfs : Dfs) (log : list event) :
  extract pd files = Ok x -> transform x = Ok dfs ->
  (forall t, to_sql_fails t = false) ->
  (pd = Pandas2 -> In None (map Customer.email (x_customers x)) ->
   process_data pd now to_sql_fails files log
   = (Raise (TypeError "bad operand type for unary ~: 'NoneType'"),
      log ++ load_plan dfs ++ [Dispose; Dispose])) /\
  (pd = Pandas3 \/ ~ In None (map Customer.email (x_customers x)) ->
   exists results,
     process_data pd now to_sql_fails files log
     = (Ok results, log ++ load_plan dfs ++ [Dispose; Dispose]) /\
     record_counts results
     = [("categories"%string, Z.of_nat (List.length (categories dfs)));
        ("products"%string, Z.of_nat (List.length (products dfs)));
        ("customers"%string, Z.of_nat (List.length (customers dfs)));
        ("orders"%string, Z.of_nat (List.length (orders dfs)));
        ("order_items"%string, Z.of_nat (List.length (order_items dfs)))] /\
     map fst (quality_metrics results)
     = ["categories"; "products"; "customers"; "orders";
        "order_items"]%string /\
     exists m,
       In ("customers"%string, m) (quality_metrics results) /\
       lookup_rule "invalid_emails" m
       = Some (count_if (fun c => negb (has_valid_email c))
                 (rows (customers_csv files)))).
Proof.
  intros Hx Ht Hdb.
  pose proof (extracted_customers pd files x Hx) as Hcs.
  pose proof (transform_tables x dfs Ht)
    as (_ & _ & _ & _ & Hcustomers & _).
  assert (Hemails : map CustomerE.email (customers dfs)
                    = map Customer.email (x_customers x))
    by (rewrite Hcustomers; apply enriched_emails).
  assert (Hlog : forall A (r : result A),
             (let '(r', log') := (r, log ++ load_plan dfs ++ [Dispose]) in
              (r', log' ++ [Dispose]))
             = (r, log ++ load_plan dfs ++ [Dispose; Dispose])).
  { intros A r. simpl. now rewrite <- !app_assoc. }
  unfold process_data, finally, and_then, pure.
  rewrite (run_success pd to_sql_fails files x dfs log Hx Ht Hdb).
  unfold report_tables. cbn [collect_metrics].
  change (check_data_quality pd now "categories"
            (categories_frame (categories dfs)))
    with (Ok (mkMetrics (Z.of_nat (List.length (categories dfs))) 0
                (Frame.null_counts (categories_frame (categories dfs))) [] [])).
  cbn [bind].
  change (check_data_quality pd now "products" (products_frame (products dfs)))
    with (Ok (mkMetrics (Z.of_nat (List.length (products dfs))) 0
                (Frame.null_counts (products_frame (products dfs))) []
                (column_rule (Some (map ProductE.price (products dfs)))
                   "negative_prices" (fun p => flt p (FNum 0)) ++ [] ++ []
                 ++ [] ++ []))).
  cbn [bind]. split.
  - intros -> Hnull.
    rewrite check_customers_null by now rewrite Hemails.
    cbn [bind]. apply Hlog.
  - intros Hnone.
    destruct (check_customers_counts pd now (customers dfs)) as (m & Hm & Hv);
      [now rewrite Hemails|].
    rewrite Hm. cbn [bind].
    eexists. split; [apply Hlog|]. split; [reflexivity|].
    split; [reflexivity|].
    exists m. split; [simpl; tauto|].
    unfold lookup_rule. rewrite Hv. simpl.
    now rewrite Hemails, Hcs, count_invalid_validated.
Qed.

Lemma process_data_outcome_witness :
  exists dfs results,
    extract Pandas2 Sample.files = Ok Sample.extracted /\
    transform Sample.extracted = Ok dfs /\
    process_data Pandas2 0 Sample.no_failure Sample.files []
    = (Ok results, load_plan dfs ++ [Dispose; Dispose]).
Proof.
  destruct (transform Sample.extracted) as [dfs|e] eqn:Ht;
    [|vm_compute in Ht; discriminate Ht].
  destruct (proj2 (process_data_outcome Pandas2 0 Sample.no_failure
                     Sample.files Sample.extracted dfs []
                     sample_files_extracted Ht (fun t => eq_refl)))
    as (results & Hp & _).
  - right. simpl. intros [H|[H|[]]]; discriminate H.
  - exists dfs, results. split; [exact sample_files_extracted|].
    split; [reflexivity | exact Hp].
Defined.

(** * The required files *)

Lemma check_files_ok (file_exists : string -> bool) (files : list string) :
  check_files file_exists files = Ok true <->
  forall f, In f files -> file_exists f = true.
Proof.
  induction files as [|f files IH]; simpl.
  - split; [intros _ g [] | reflexivity].
  - destruct (file_exists f) eqn:E; simpl.
    + rewrite IH. split.
      * intros H g [<-|Hg]; auto.
      * intros H g Hg. apply H. now right.
    + split; [discriminate|]. intros H.
      rewrite (H f (or_introl eq_refl)) in E. discriminate.
Qed.

Lemma check_files_first_missing (file_exists : string -> bool)
    (before after : list string) (file : string) :
  (forall f, In f before -> file_exists f = true) ->
  file_exists file = false ->
  check_files file_exists (before ++ file :: after)
  = Raise (ValueError ("Required file " ++ file ++ " not found")).
Proof.
  intros Hbefore Hfile. induction before as [|f before IH]; simpl.
  - now rewrite Hfile.
  - rewrite (Hbefore f (or_introl eq_refl)). simpl.
    apply IH. intros g Hg. apply Hbefore. now right.
Qed.

Lemma check_files_never_false (file_exists : string -> bool)
    (files : list string) :
  check_files file_exists files <> Ok false.
Proof.
  induction files as [|f files IH]; simpl; [discriminate|].
  destruct (file_exists f); simpl; [exact IH | discriminate].
Qed.

(** X17.  [validate_data_files] returns True exactly when the five required
    files exist; when one is missing it raises ValueError naming the first
    missing one, in the order product_categories, products, customers,
    orders, order_items; it never returns False. *)
Theorem validate_data_files_outcome (file_exists : string -> bool) :
  (validate_data_files file_exists = Ok true <->
   forall f, In f required_files -> file_exists f = true) /\
  (forall before file after,
     required_files = before ++ file :: after ->
     (forall f, In f before -> file_exists f = true) ->
     file_exists file = false ->
     validate_data_files file_exists
     = Raise (ValueError ("Required file " ++ file ++ " not found"))) /\
  validate_data_files file_exists <> Ok false.
Proof.
  unfold validate_data_files. split; [apply check_files_ok|]. split.
  - intros before file after ->. apply check_files_first_missing.
  - apply check_files_never_false.
Qed.

(** * Which calendar days the time dimension covers *)

Lemma whole_days_between (first last : Timestamp) :
  first <= last ->
  (last - first) / ns_per_day
  = day_number last - day_number first
    - (if time_of_day first <=? time_of_day last then 0 else 1).
Proof.
  intros Hle. unfold day_number, time_of_day.
  pose proof ns_per_day_pos as Hpos.
  pose proof (Z.div_mod first ns_per_day ltac:(lia)) as Hf.
  pose proof (Z.div_mod last ns_per_day ltac:(lia)) as Hl.
  pose proof (Z.mod_pos_bound first ns_per_day Hpos) as Hfm.
  pose proof (Z.mod_pos_bound last ns_per_day Hpos) as Hlm.
  set (a := first / ns_per_day) in *. set (r1 := first mod ns_per_day) in *.
  set (b := last / ns_per_day) in *. set (r2 := last mod ns_per_day) in *.
  destruct (r1 <=? r2) eqn:E.
  - apply Z.leb_le in E. symmetry.
    apply (Z.div_unique _ _ _ (r2 - r1)); [lia | nia].
  - apply Z.leb_gt in E. symmetry.
    apply (Z.div_unique _ _ _ (ns_per_day + r2 - r1)); [lia | nia].
Qed.

(** X19.  The time dimension covers the calendar days from the day of the
    earliest order onwards, one row a day; it reaches the day of the latest
    order exactly when that order is not placed earlier in the day than the
    earliest one, and otherwise stops the day before. *)
Theorem time_dimension_days_covered
    (orders_df : list OrderE.t) (dim : list DimTime.t) :
  generate_time_dimension orders_df = Ok dim ->
  exists first last : Timestamp,
    is_minimum first (order_dates orders_df) /\
    is_maximum last (order_dates orders_df) /\
    map (fun r => day_number (DimTime.date r)) dim
    = map (fun k => day_number first + Z.of_nat k)
        (seq 0 (Z.to_nat (day_number last - day_number first
                          + (if time_of_day first <=? time_of_day last
                             then 1 else 0)))) /\
    (In (day_number last) (map (fun r => day_number (DimTime.date r)) dim) <->
     time_of_day first <= time_of_day last).
Proof.
  intros H.
  destruct (time_dimension_shape _ _ H)
    as (first & last & n & Hfirst & Hlast & Hn & _ & Hdates & _).
  assert (Hle : first <= last) by (apply Hfirst; apply Hlast).
  assert (Hdn : day_number first <= day_number last).
  { unfold day_number. apply Z.div_le_mono; [reflexivity | exact Hle]. }
  pose proof (whole_days_between first last Hle) as Hdays.
  assert (Hmap : map (fun r => day_number (DimTime.date r)) dim
                 = map (fun k => day_number first + Z.of_nat k) (seq 0 n)).
  { rewrite <- (map_map DimTime.date day_number), Hdates, map_map.
    apply map_ext. intros k. apply day_number_add. }
  exists first, last. split; [easy|]. split; [easy|].
  assert (Hn' : n = Z.to_nat (day_number last - day_number first
                              + (if time_of_day first <=? time_of_day last
                                 then 1 else 0))).
  { rewrite Hn, Hdays. f_equal.
    destruct (time_of_day first <=? time_of_day last); lia. }
  split; [now rewrite Hmap, Hn'|].
  rewrite Hmap, in_map_iff. split.
  - intros (k & Hk & HIn). apply in_seq in HIn.
    destruct (time_of_day first <=? time_of_day last) eqn:E;
      [now apply Z.leb_le|]. lia.
  - intros Htod. apply Z.leb_le in Htod. rewrite Htod in Hn'.
    exists (Z.to_nat (day_number last - day_number first)).
    split; [lia|]. apply in_seq. lia.
Qed.

Lemma time_dimension_days_covered_witness :
  exists dim first last,
    generate_time_dimension
      (calculate_order_revenue [Sample.order1; Sample.order2] [] [])
    = Ok dim /\
    (In (day_number last) (map (fun r => day_number (DimTime.date r)) dim) <->
     time_of_day first <= time_of_day last).
Proof.
  eexists.
  assert (H : generate_time_dimension
                (calculate_order_revenue [Sample.order1; Sample.order2] [] [])
              = Ok _) by reflexivity.
  destruct (time_dimension_days_covered _ _ H)
    as (first & last & _ & _ & _ & Hiff).
  exists first, last. split; [exact H | exact Hiff].
Defined.

(** * The order of the daily sales rows *)

Section SortedGroups.
Context {K V : Type}.
Variable leb : K -> K -> bool.
Hypothesis leb_total : forall a b, leb a b = true \/ leb b a = true.
Hypothesis leb_trans :
  forall a b c, leb a b = true -> leb b c = true -> leb a c = true.

Lemma insert_group_sorted (g : K * list V) gs :
  StronglySorted (fun a b => leb (fst a) (fst b) = true) gs ->
  StronglySorted (fun a b => leb (fst a) (fst b) = true)
    (insert_group leb g gs).
Proof.
  induction gs as [|h tl IH]; simpl; intros Hs.
  - constructor; constructor.
  - apply StronglySorted_inv in Hs as [Htl Hh].
    destruct (leb (fst g) (fst h)) eqn:E.
    + constructor; [now constructor|].
      constructor; [exact E|].
      eapply Forall_impl; [|exact Hh]. intros x Hx.
      now apply leb_trans with (fst h).
    + constructor; [now apply IH|].
      eapply Permutation_Forall;
        [apply Permutation_sym, insert_group_perm|].
      constructor; [|exact Hh].
      destruct (leb_total (fst g) (fst h)) as [H|H]; [congruence | exact H].
Qed.

Lemma sort_groups_sorted (gs : list (K * list V)) :
  StronglySorted (fun a b => leb (fst a) (fst b) = true)
    (sort_groups leb gs).
Proof.
  induction gs as [|g gs IH]; simpl; [constructor|].
  now apply insert_group_sorted.
Qed.
End SortedGroups.

Lemma daily_key_leb_total (a b : DailyKey) :
  daily_key_leb a b = true \/ daily_key_leb b a = true.
Proof.
  destruct a as [[d1 p1] c1], b as [[d2 p2] c2]. unfold daily_key_leb.
  destruct (Z.ltb_spec d1 d2), (Z.ltb_spec d2 d1), (Z.eqb_spec d1 d2),
    (Z.eqb_spec d2 d1), (Z.ltb_spec p1 p2), (Z.ltb_spec p2 p1),
    (Z.eqb_spec p1 p2), (Z.eqb_spec p2 p1), (Z.leb_spec c1 c2),
    (Z.leb_spec c2 c1); simpl; auto; lia.
Qed.

Lemma daily_key_leb_spec (a b : DailyKey) :
  daily_key_leb a b = true <-> daily_key_lt a b \/ a = b.
Proof.
  destruct a as [[d1 p1] c1], b as [[d2 p2] c2].
  unfold daily_key_leb, daily_key_lt.
  rewrite orb_true_iff, andb_true_iff, orb_true_iff, andb_true_iff.
  rewrite !Z.ltb_lt, !Z.eqb_eq, Z.leb_le.
  split.
  - intros [H|[-> [H|[-> H]]]]; [left; lia | left; lia |].
    destruct (Z.eq_dec c1 c2) as [->|]; [now right | left; lia].
  - intros [H|[= -> -> ->]]; lia.
Qed.

Lemma daily_key_leb_trans (a b c : DailyKey) :
  daily_key_leb a b = true -> daily_key_leb b c = true ->
  daily_key_leb a c = true.
Proof.
  rewrite !daily_key_leb_spec.
  destruct a as [[d1 p1] c1], b as [[d2 p2] c2], c as [[d3 p3] c3].
  unfold daily_key_lt.
  intros [H1|[= -> -> ->]] [H2|[= <- <- <-]]; auto. left. lia.
Qed.

(** X21.  The daily sales rows come out in strictly increasing order of
    (day, product, category): the key of each row is below the key of every
    row after it, so no key occurs twice. *)
Theorem daily_sales_strictly_sorted
    (orders_df : list OrderE.t) (items_df : list OrderItem.t)
    (products_df : list ProductE.t) :
  StronglySorted
    (fun r s => daily_key_lt (daily_sales_key r) (daily_sales_key s))
    (aggregate_daily_sales orders_df items_df products_df).
Proof.
  unfold aggregate_daily_sales, daily_sales_from.
  set (joined := filter not_cancelled _).
  pose proof (groupby_NoDup daily_key_eqb daily_key_leb daily_key_eqb_eq
                daily_key joined) as Hnd.
  pose proof (sort_groups_sorted daily_key_leb daily_key_leb_total
                daily_key_leb_trans
                (group_rows daily_key_eqb daily_key joined)) as Hs.
  fold (groupby daily_key_eqb daily_key_leb daily_key joined) in Hs.
  induction (groupby daily_key_eqb daily_key_leb daily_key joined)
    as [|[k g] gs IH]; simpl; [constructor|].
  apply StronglySorted_inv in Hs as [Hgs Hk].
  simpl in Hnd. apply NoDup_cons_iff in Hnd as [Hnotin Hnd].
  constructor; [now apply IH|].
  apply Forall_map. rewrite Forall_forall in *.
  intros [k' g'] HIn.
  change (daily_key_lt (daily_sales_key (daily_row k g))
            (daily_sales_key (daily_row k' g'))).
  rewrite !daily_sales_key_row.
  specialize (Hk _ HIn). simpl in Hk.
  apply daily_key_leb_spec in Hk as [Hlt| ->]; [exact Hlt|].
  elim Hnotin. apply in_map_iff. now exists (k', g').
Qed.
